(** * Trust, verification and economy engine of the spotshunt Firebase backend

    A shallow embedding of the Cloud Functions that score spot submissions,
    maintain the per-user trust record, keep the XP ledger and run the QR
    redemption protocol, together with the properties the specification
    states about them.

    Conventions of the embedding.
    - A Firestore document is a record whose fields are [option]s: [None]
      is an absent field (JavaScript [undefined]).
    - XP amounts, counters and millisecond timestamps are integers ([Z]).
      Quantities that the code handles as genuine fractions (trust score,
      GPS accuracy, distances, rates) are exact rationals ([Q]): the model
      follows the branch structure of the code on ideal numbers.
    - Results of awaited store reads are taken from an explicit store
      value; a handler returns the store it leaves behind.
    - Values the runtime draws by itself (server time, auto-generated
      document ids, random bytes) are arguments of the operations. *)

From Stdlib Require Import ZArith QArith Qround Qminmax String Ascii List Bool Lia.
From stdpp Require Import gmap strings list pretty.
Import ListNotations.

Local Open Scope string_scope.
Local Open Scope Z_scope.

(** ** JavaScript primitives used by the handlers *)

Module Js.

(** [x || d] on an optional number: [undefined] and [0] are falsy. *)
Definition or_num (x : option Z) (d : Z) : Z :=
  match x with
  | Some v => if v =? 0 then d else v
  | None => d
  end.

(** [x || d] on an optional fractional number. *)
Definition or_frac (x : option Q) (d : Q) : Q :=
  match x with
  | Some v => if Qeq_bool v 0 then d else v
  | None => d
  end.

(** Truthiness of an optional number, string and boolean. *)
Definition truthy_num (x : option Z) : bool :=
  match x with Some v => negb (v =? 0) | None => false end.

Definition truthy_str (x : option string) : bool :=
  match x with Some s => negb (String.eqb s "") | None => false end.

Definition truthy_bool (x : option bool) : bool :=
  match x with Some b => b | None => false end.

(** [x || d] on an optional string: the empty string is falsy. *)
Definition or_str (x : option string) (d : string) : string :=
  match x with
  | Some s => if String.eqb s "" then d else s
  | None => d
  end.

(** [Math.round]: nearest integer, ties towards plus infinity. *)
Definition round (q : Q) : Z := Qfloor (q + (1 # 2)).

(** [Math.max(lo, Math.min(hi, x))]. *)
Definition clamp (lo hi x : Z) : Z := Z.max lo (Z.min hi x).

Definition Qltb (a b : Q) : bool := negb (Qle_bool b a).

End Js.

(** ** Errors raised by the handlers *)

Module Err.

(** The error codes of [functions.https.HttpsError] used by the code. *)
Inductive ErrorCode :=
| Unauthenticated | PermissionDenied | InvalidArgument | NotFound
| AlreadyExists | FailedPrecondition | Internal.

(** A thrown value: an [HttpsError] with its code, or any other
    exception ([new Error(...)], a failed store call, a [TypeError]). *)
Inductive Exn :=
| HttpsError (c : ErrorCode)
| JsError.

Definition Result (A : Type) : Type := Exn + A.

Definition throw {A} (e : Exn) : Result A := inl e.
Definition ret {A} (a : A) : Result A := inr a.

Definition bind {A B} (r : Result A) (k : A -> Result B) : Result B :=
  match r with
  | inl e => inl e
  | inr a => k a
  end.

Definition is_thrown {A} (r : Result A) : bool :=
  match r with inl _ => true | inr _ => false end.

End Err.
Export Err.

Notation "x <- e ;; k" := (Err.bind e (fun x => k))
  (at level 100, e at next level, right associativity).
Notation "'throw_when' b 'with' e ;; k" := (if b then Err.throw e else k)
  (at level 100, b at next level, e at next level, right associativity).

(** ** Documents and the store *)

Module User.
(** [users/{userId}]: the fields the engine reads or writes.  Write-only
    bookkeeping timestamps ([lastActiveAt], [lastXpUpdate]) are left out. *)
Record t := mk {
  xpPoints : option Z;
  xp : option Z;
  level : option Z;
  xpPending : option Z;
  spotsDiscovered : option Z;
  challengesCompleted : option Z;
  trustScore : option Q;
  spotSubmissions : option Z;
  spotApprovedCount : option Z;
  spotRejectedCount : option Z;
  isShadowBanned : option bool;
  createdAt : option Z
}.

Definition set_xpPoints (v : option Z) (u : t) : t :=
  mk v (xp u) (level u) (xpPending u) (spotsDiscovered u)
     (challengesCompleted u) (trustScore u) (spotSubmissions u)
     (spotApprovedCount u) (spotRejectedCount u) (isShadowBanned u)
     (createdAt u).
Definition set_xp (v : option Z) (u : t) : t :=
  mk (xpPoints u) v (level u) (xpPending u) (spotsDiscovered u)
     (challengesCompleted u) (trustScore u) (spotSubmissions u)
     (spotApprovedCount u) (spotRejectedCount u) (isShadowBanned u)
     (createdAt u).
Definition set_level (v : option Z) (u : t) : t :=
  mk (xpPoints u) (xp u) v (xpPending u) (spotsDiscovered u)
     (challengesCompleted u) (trustScore u) (spotSubmissions u)
     (spotApprovedCount u) (spotRejectedCount u) (isShadowBanned u)
     (createdAt u).
Definition set_xpPending (v : option Z) (u : t) : t :=
  mk (xpPoints u) (xp u) (level u) v (spotsDiscovered u)
     (challengesCompleted u) (trustScore u) (spotSubmissions u)
     (spotApprovedCount u) (spotRejectedCount u) (isShadowBanned u)
     (createdAt u).
Definition set_spotsDiscovered (v : option Z) (u : t) : t :=
  mk (xpPoints u) (xp u) (level u) (xpPending u) v
     (challengesCompleted u) (trustScore u) (spotSubmissions u)
     (spotApprovedCount u) (spotRejectedCount u) (isShadowBanned u)
     (createdAt u).
Definition set_challengesCompleted (v : option Z) (u : t) : t :=
  mk (xpPoints u) (xp u) (level u) (xpPending u) (spotsDiscovered u)
     v (trustScore u) (spotSubmissions u)
     (spotApprovedCount u) (spotRejectedCount u) (isShadowBanned u)
     (createdAt u).
Definition set_trustScore (v : option Q) (u : t) : t :=
  mk (xpPoints u) (xp u) (level u) (xpPending u) (spotsDiscovered u)
     (challengesCompleted u) v (spotSubmissions u)
     (spotApprovedCount u) (spotRejectedCount u) (isShadowBanned u)
     (createdAt u).
Definition set_spotSubmissions (v : option Z) (u : t) : t :=
  mk (xpPoints u) (xp u) (level u) (xpPending u) (spotsDiscovered u)
     (challengesCompleted u) (trustScore u) v
     (spotApprovedCount u) (spotRejectedCount u) (isShadowBanned u)
     (createdAt u).
Definition set_spotApprovedCount (v : option Z) (u : t) : t :=
  mk (xpPoints u) (xp u) (level u) (xpPending u) (spotsDiscovered u)
     (challengesCompleted u) (trustScore u) (spotSubmissions u)
     v (spotRejectedCount u) (isShadowBanned u)
     (createdAt u).
Definition set_spotRejectedCount (v : option Z) (u : t) : t :=
  mk (xpPoints u) (xp u) (level u) (xpPending u) (spotsDiscovered u)
     (challengesCompleted u) (trustScore u) (spotSubmissions u)
     (spotApprovedCount u) v (isShadowBanned u)
     (createdAt u).
Definition set_isShadowBanned (v : option bool) (u : t) : t :=
  mk (xpPoints u) (xp u) (level u) (xpPending u) (spotsDiscovered u)
     (challengesCompleted u) (trustScore u) (spotSubmissions u)
     (spotApprovedCount u) (spotRejectedCount u) v
     (createdAt u).

(** A document with no field set. *)
Definition empty : t :=
  mk None None None None None None None None None None None None.
End User.

Module Tx.
(** [xpTransactions/{auto id}]: one ledger entry. *)
Record t := mk {
  userId : string;
  action : string;
  amount : Z;
  description : string;
  spotId : option string;
  previousXP : option Z;
  newXP : option Z;
  previousLevel : option Z;
  newLevel : option Z;
  leveledUp : option bool;
  timestamp : Z;
  type : string;
  adminId : option string
}.
End Tx.

Module Metadata.
(** The [metadata] object of an award.  It is spread last into the
    ledger entry, so a key it carries replaces the entry's own value.
    The model keeps the keys [description], [spotId], [challengeId],
    [userId], [amount] and [type]. *)
Record t := mk {
  description : option string;
  spotId : option string;
  challengeId : option string;
  userId : option string;
  amount : option Z;
  type : option string
}.

Definition empty : t := mk None None None None None None.
End Metadata.

Module Redemption.
(** Data of [users/{userId}/redemptions/{redemptionId}].  The constant
    fields [pendingApproval], [approved], [sponsorName] and [location]
    are left out. *)
Record t := mk {
  rewardId : string;
  rewardTitle : option string;
  sponsorId : option string;
  xpUsed : Z;
  redeemedAt : Z;
  used : bool;
  usedAt : option Z;
  validatedBy : option string;
  qrToken : string;
  redemptionQRCode : string;
  userId : string
}.

(** A document of the [redemptions] collection group: the user under
    whose document it lives, its id and its data. *)
Record doc := mkdoc {
  parent : string;
  id : string;
  data : t
}.
End Redemption.

Module Reward.
(** The stored [expiresAt] value, by its JavaScript type. *)
Inductive ExpiresAt :=
| ExpTimestamp (ms : Z)            (* Firestore Timestamp or Date object *)
| ExpNumber (ms : Z)               (* number: 0 is falsy *)
| ExpString (empty : bool) (parsed : option Z)
                                   (* string: the empty string is falsy;
                                      [None] is an unparsable date *)
| ExpOther.                        (* any other truthy value *)

(** [rewards/{rewardId}]. *)
Record t := mk {
  title : option string;
  sponsorId : option string;
  active : option bool;
  expiresAt : option ExpiresAt;
  maxRedemptions : option Z;
  currentRedemptions : option Z;
  xpRequired : option Z;
  qrCode : option string
}.

Definition set_currentRedemptions (v : option Z) (r : t) : t :=
  mk (title r) (sponsorId r) (active r) (expiresAt r) (maxRedemptions r)
     v (xpRequired r) (qrCode r).
End Reward.

Module Sponsor.
(** [sponsors/{sponsorId}]. *)
Record t := mk {
  qrSecret : option string;
  qrVersion : option Z;
  qrExpiryMinutes : option Z;
  lastQrNonce : option string;
  ownerUserId : option string;
  userId : option string
}.
End Sponsor.

Module Notification.
(** [users/{userId}/notifications/{auto id}]. *)
Record t := mk {
  userId : string;
  type : string;
  redemptionId : string;
  rewardId : string
}.
End Notification.

Module Store.

(** The collections of the store.  [users] and [sponsors] are only read
    and written by document id.  [rewards] and the [redemptions]
    collection group are also queried with a limit and no ordering
    clause, which returns documents in document-name order: they are
    lists kept in that order.  [xpTransactions] is in creation order. *)
Record t := mk {
  users : gmap string User.t;
  xpTransactions : list Tx.t;
  redemptions : list Redemption.doc;
  rewards : list (string * Reward.t);
  sponsors : gmap string Sponsor.t;
  notifications : list Notification.t
}.

Definition set_users (v : gmap string User.t) (s : t) : t :=
  mk v (xpTransactions s) (redemptions s) (rewards s) (sponsors s)
     (notifications s).
Definition set_xpTransactions (v : list Tx.t) (s : t) : t :=
  mk (users s) v (redemptions s) (rewards s) (sponsors s)
     (notifications s).
Definition set_redemptions (v : list Redemption.doc) (s : t) : t :=
  mk (users s) (xpTransactions s) v (rewards s) (sponsors s)
     (notifications s).
Definition set_rewards (v : list (string * Reward.t)) (s : t) : t :=
  mk (users s) (xpTransactions s) (redemptions s) v (sponsors s)
     (notifications s).
Definition set_sponsors (v : gmap string Sponsor.t) (s : t) : t :=
  mk (users s) (xpTransactions s) (redemptions s) (rewards s) v
     (notifications s).
Definition set_notifications (v : list Notification.t) (s : t) : t :=
  mk (users s) (xpTransactions s) (redemptions s) (rewards s)
     (sponsors s) v.

(** [collection.doc(id).get()] on a collection kept as a list. *)
Fixpoint doc_get {A} (id : string) (l : list (string * A)) : option A :=
  match l with
  | [] => None
  | (k, v) :: l' => if String.eqb k id then Some v else doc_get id l'
  end.

(** [collection.doc(id).update(...)]: rewrites the document in place. *)
Fixpoint doc_update {A} (id : string) (f : A -> A) (l : list (string * A))
  : list (string * A) :=
  match l with
  | [] => []
  | (k, v) :: l' =>
      if String.eqb k id then (k, f v) :: l'
      else (k, v) :: doc_update id f l'
  end.

(** Order of documents of the [redemptions] collection group: by the
    name [users/{parent}/redemptions/{id}]. *)
Definition path_leb (d1 d2 : Redemption.doc) : bool :=
  match String.compare (Redemption.parent d1) (Redemption.parent d2) with
  | Lt => true
  | Gt => false
  | Eq => String.leb (Redemption.id d1) (Redemption.id d2)
  end.

(** Creating a document places it at its position in name order. *)
Fixpoint redemption_create (d : Redemption.doc) (l : list Redemption.doc)
  : list Redemption.doc :=
  match l with
  | [] => [d]
  | d' :: l' =>
      if path_leb d d' then d :: d' :: l' else d' :: redemption_create d l'
  end.

Definition same_path (parent id : string) (d : Redemption.doc) : bool :=
  String.eqb (Redemption.parent d) parent && String.eqb (Redemption.id d) id.

(** [users/{parent}/redemptions/{id}.update(...)]; [None] when there is
    no such document (the call rejects). *)
Fixpoint redemption_update (parent id : string)
    (f : Redemption.t -> Redemption.t) (l : list Redemption.doc)
  : option (list Redemption.doc) :=
  match l with
  | [] => None
  | d :: l' =>
      if same_path parent id d
      then Some (Redemption.mkdoc (Redemption.parent d) (Redemption.id d)
                   (f (Redemption.data d)) :: l')
      else option_map (cons d) (redemption_update parent id f l')
  end.

End Store.

(** ** XP management ([functions.backup-current/xpManagement.js]) *)

Module XpManagement.

(** [calculateLevel]: [Math.floor(Math.sqrt(xp / 100)) + 1].  For a
    non-negative integer [xp] the floor of the square root of [xp / 100]
    is the integer square root of the integer quotient. *)
Definition calculateLevel (xp : Z) : Z :=
  if xp <? 0 then 1 else Z.sqrt (xp / 100) + 1.

(** The object returned by the two award transactions. *)
Record AwardResult := mkAward {
  newTotalXP : Z;
  newLevel : Z;
  leveledUp : bool
}.

(** [releaseSpotXP(db, userId, spotId, amount, description)]. *)
Definition releaseSpotXP (now : Z) (st : Store.t) (userId spotId : string)
    (amount : Z) (description : string) : Result (AwardResult * Store.t) :=
  match Store.users st !! userId with
  | None => throw JsError
  | Some userData =>
      let currentXP := Js.or_num (User.xpPoints userData) 0 in
      let pendingXP := Js.or_num (User.xpPending userData) 0 in
      let newTotalXP := currentXP + amount in
      let newPendingXP := Z.max 0 (pendingXP - amount) in
      let currentLevel := calculateLevel currentXP in
      let newLevel := calculateLevel newTotalXP in
      let leveledUp := currentLevel <? newLevel in
      let userData' :=
        User.set_level (Some newLevel)
          (User.set_xpPending (Some newPendingXP)
             (User.set_xpPoints (Some newTotalXP) userData)) in
      let entry :=
        Tx.mk userId "SPOT_APPROVED" amount description (Some spotId)
              (Some currentXP) (Some newTotalXP)
              (Some currentLevel) (Some newLevel) (Some leveledUp)
              now "AWARD" None in
      ret (mkAward newTotalXP newLevel leveledUp,
           Store.set_xpTransactions (Store.xpTransactions st ++ [entry])
             (Store.set_users (<[userId := userData']> (Store.users st)) st))
  end.

(** The counter an award also advances. *)
Definition bump_counter (action : string) (userData u : User.t) : User.t :=
  if String.eqb action "VISIT_SPOT" then
    User.set_spotsDiscovered
      (Some (Js.or_num (User.spotsDiscovered userData) 0 + 1)) u
  else if String.eqb action "COMPLETE_CHALLENGE" then
    User.set_challengesCompleted
      (Some (Js.or_num (User.challengesCompleted userData) 0 + 1)) u
  else u.

(** The ledger entry of an award: the entry's own fields, then the keys
    of [metadata] spread over them. *)
Definition award_entry (now : Z) (userId action : string) (amount : Z)
    (metadata : Metadata.t) (currentXP newTotalXP currentLevel newLevel : Z)
    (leveledUp : bool) : Tx.t :=
  Tx.mk (default userId (Metadata.userId metadata))
        action
        (default amount (Metadata.amount metadata))
        (default ("XP for " ++ action) (Metadata.description metadata))
        (Metadata.spotId metadata)
        (Some currentXP) (Some newTotalXP)
        (Some currentLevel) (Some newLevel) (Some leveledUp)
        now
        (default "AWARD" (Metadata.type metadata))
        None.

(** [awardUserXP(db, userId, action, amount, metadata)]. *)
Definition awardUserXP (now : Z) (st : Store.t) (userId action : string)
    (amount : Z) (metadata : Metadata.t) : Result (AwardResult * Store.t) :=
  match Store.users st !! userId with
  | None => throw JsError
  | Some userData =>
      let currentXP := Js.or_num (User.xpPoints userData) 0 in
      let newTotalXP := currentXP + amount in
      let currentLevel := calculateLevel currentXP in
      let newLevel := calculateLevel newTotalXP in
      let leveledUp := currentLevel <? newLevel in
      let userData' :=
        bump_counter action userData
          (User.set_level (Some newLevel)
             (User.set_xpPoints (Some newTotalXP) userData)) in
      let entry :=
        award_entry now userId action amount metadata
                    currentXP newTotalXP currentLevel newLevel leveledUp in
      ret (mkAward newTotalXP newLevel leveledUp,
           Store.set_xpTransactions (Store.xpTransactions st ++ [entry])
             (Store.set_users (<[userId := userData']> (Store.users st)) st))
  end.

(** [logXPDenial(db, userId, spotId, amount, reason)]. *)
Definition logXPDenial (now : Z) (st : Store.t) (userId spotId : string)
    (amount : Z) (reason : string) : Store.t :=
  let entry :=
    Tx.mk userId "SPOT_REJECTED" (- amount) reason (Some spotId)
          None None None None None now "DENIAL" None in
  Store.set_xpTransactions (Store.xpTransactions st ++ [entry]) st.

(** [checkForDuplicateAward(db, userId, action, resourceId)]: the amount
    of the first matching ledger entry, if there is one. *)
Definition checkForDuplicateAward (st : Store.t) (userId action : string)
    (resourceId : string) : option Z :=
  match
    filter (fun t : Tx.t =>
              Tx.userId t = userId /\ Tx.action t = action /\
              Tx.spotId t = Some resourceId /\ Tx.type t = "AWARD")
           (Store.xpTransactions st)
  with
  | [] => None
  | t :: _ => Some (Tx.amount t)
  end.

(** The [MAX_XP_AMOUNTS] table of [awardXP]. *)
Definition MAX_XP_AMOUNTS (action : string) : option Z :=
  if String.eqb action "VISIT_SPOT" then Some 50
  else if String.eqb action "RATE_SPOT" then Some 25
  else if String.eqb action "COMPLETE_CHALLENGE" then Some 200
  else if String.eqb action "DAILY_LOGIN" then Some 10
  else if String.eqb action "SHARE_SPOT" then Some 15
  else if String.eqb action "PHOTO_UPLOAD" then Some 30
  else None.

(** Request data and reply of the callable [awardXP]. *)
Record AwardRequest := mkAwardRequest {
  aw_auth : option string;
  aw_action : option string;
  aw_amount : option Z;
  aw_metadata : Metadata.t
}.

Inductive AwardReply :=
| AlreadyAwarded (xp : Z)
| Awarded (xpAwarded totalXP newLevel : Z) (leveledUp : bool).

(** [exports.awardXP].  Whatever is thrown inside its [try] block is
    reported as [internal]. *)
Definition awardXP (now : Z) (st : Store.t) (req : AwardRequest)
  : Result AwardReply * Store.t :=
  match aw_auth req with
  | None => (throw (HttpsError Unauthenticated), st)
  | Some userId =>
      if negb (Js.truthy_str (aw_action req))
         || negb (Js.truthy_num (aw_amount req))
         || (Js.or_num (aw_amount req) 0 <=? 0)
      then (throw (HttpsError InvalidArgument), st)
      else
        let action := Js.or_str (aw_action req) "" in
        let amount := Js.or_num (aw_amount req) 0 in
        let metadata := aw_metadata req in
        if Js.or_num (MAX_XP_AMOUNTS action) 100 <? amount
        then (throw (HttpsError InvalidArgument), st)
        else
          let resource :=
            if Js.truthy_str (Metadata.spotId metadata)
            then Metadata.spotId metadata
            else if Js.truthy_str (Metadata.challengeId metadata)
            then Metadata.challengeId metadata
            else None in
          let duplicate :=
            match resource with
            | Some r => checkForDuplicateAward st userId action r
            | None => None
            end in
          match duplicate with
          | Some a => (ret (AlreadyAwarded a), st)
          | None =>
              match awardUserXP now st userId action amount metadata with
              | inl _ => (throw (HttpsError Internal), st)
              | inr (r, st') =>
                  (ret (Awarded amount (newTotalXP r) (newLevel r)
                          (leveledUp r)), st')
              end
          end
  end.

(** Request data of the callable [adjustUserXP]. *)
Record AdjustRequest := mkAdjustRequest {
  ad_auth : option string;
  ad_userId : option string;
  ad_adjustment : option Z;
  ad_reason : option string
}.

Record AdjustReply := mkAdjustReply {
  ad_previousXP : Z;
  ad_newXP : Z;
  ad_newLevel : Z
}.

(** [exports.adjustUserXP].  [isAdmin] is the answer of
    [checkAdminPermissions] for the caller. *)
Definition adjustUserXP (now : Z) (isAdmin : bool) (st : Store.t)
    (req : AdjustRequest) : Result AdjustReply * Store.t :=
  match ad_auth req with
  | None => (throw (HttpsError Unauthenticated), st)
  | Some adminUid =>
      if negb isAdmin then (throw (HttpsError PermissionDenied), st)
      else if negb (Js.truthy_str (ad_userId req))
              || negb (Js.truthy_num (ad_adjustment req))
              || negb (Js.truthy_str (ad_reason req))
      then (throw (HttpsError InvalidArgument), st)
      else
        let userId := Js.or_str (ad_userId req) "" in
        let adjustment := Js.or_num (ad_adjustment req) 0 in
        let reason := Js.or_str (ad_reason req) "" in
        match Store.users st !! userId with
        | None => (throw (HttpsError Internal), st)
        | Some userData =>
            let currentXP := Js.or_num (User.xpPoints userData) 0 in
            let newXP := Z.max 0 (currentXP + adjustment) in
            let newLevel := calculateLevel newXP in
            let userData' :=
              User.set_level (Some newLevel)
                (User.set_xpPoints (Some newXP) userData) in
            let entry :=
              Tx.mk userId "ADMIN_ADJUSTMENT" adjustment reason None
                    (Some currentXP) (Some newXP) None None None
                    now "ADMIN" (Some adminUid) in
            (ret (mkAdjustReply currentXP newXP newLevel),
             Store.set_xpTransactions (Store.xpTransactions st ++ [entry])
               (Store.set_users (<[userId := userData']> (Store.users st))
                  st))
        end
  end.

End XpManagement.

(** ** Strings of scanned codes *)

(** A character of a [string] stands for one UTF-16 code unit below 256. *)
Module JsStr.

(** The class [[a-zA-Z0-9_-]]. *)
Definition is_id_char (c : ascii) : bool :=
  let n := nat_of_ascii c in
  ((97 <=? n) && (n <=? 122) || (65 <=? n) && (n <=? 90)
   || (48 <=? n) && (n <=? 57) || (n =? 95) || (n =? 45))%nat.

(** White space removed by [trim], among the code units below 256. *)
Definition is_space (c : ascii) : bool :=
  let n := nat_of_ascii c in
  ((9 <=? n) && (n <=? 13) || (n =? 32) || (n =? 160))%nat.

Fixpoint all_chars (p : ascii -> bool) (s : string) : bool :=
  match s with
  | EmptyString => true
  | String c s' => p c && all_chars p s'
  end.

(** [!s || s.trim() === ''] for a string that may be absent. *)
Definition blank (s : option string) : bool :=
  match s with
  | None => true
  | Some s => all_chars is_space s
  end.

(** The longest prefix made of characters of the class. *)
Fixpoint take_id_chars (s : string) : string :=
  match s with
  | EmptyString => EmptyString
  | String c s' =>
      if is_id_char c then String c (take_id_chars s') else EmptyString
  end.

(** What follows the literal [p] at the start of [s]. *)
Fixpoint strip_prefix (p s : string) : option string :=
  match p, s with
  | EmptyString, _ => Some s
  | String a p', String b s' =>
      if Ascii.eqb a b then strip_prefix p' s' else None
  | String _ _, EmptyString => None
  end.

(** [s.match(/<lit>([a-zA-Z0-9_-]+)/)], group 1: at the leftmost place
    where [lit] is followed by a character of the class, the longest
    run of such characters. *)
Fixpoint match_literal_id (lit s : string) : option string :=
  let here :=
    match strip_prefix lit s with
    | Some rest =>
        let run := take_id_chars rest in
        if String.eqb run "" then None else Some run
    | None => None
    end in
  match here with
  | Some run => Some run
  | None =>
      match s with
      | EmptyString => None
      | String _ s' => match_literal_id lit s'
      end
  end.

(** [s.split(sep)] for a one-character separator. *)
Fixpoint split (sep : ascii) (s : string) : list string :=
  match s with
  | EmptyString => [EmptyString]
  | String c s' =>
      if Ascii.eqb c sep then EmptyString :: split sep s'
      else
        match split sep s' with
        | [] => [String c EmptyString]
        | w :: ws => String c w :: ws
        end
  end.

(** [/^[a-zA-Z0-9_-]{10,}$/.test(s)]. *)
Definition is_plain_id (s : string) : bool :=
  all_chars is_id_char s && (10 <=? String.length s)%nat.

(** [s.includes(t)]. *)
Fixpoint includes (s t : string) : bool :=
  String.prefix t s
  || match s with
     | EmptyString => false
     | String _ s' => includes s' t
     end.

End JsStr.

(** ** The functions bundle: XP grants, QR issuance and redemption *)

Module Functions.

(** [calculateLevel] is declared twice at the top level of the bundle,
    first with the square-root formula and then, in the QR section, as
    below.  Declarations are hoisted, so every call of the bundle
    resolves to this later one. *)
Definition calculateLevel (xp : Z) : Z := xp / 500 + 1.

(** [calculateXPLevel]. *)
Definition calculateXPLevel (xp : Z) : Z := xp / 500 + 1.

(** [userData.xpPoints || userData.xp || 0]. *)
Definition current_xp (u : User.t) : Z :=
  Js.or_num (User.xpPoints u) (Js.or_num (User.xp u) 0).

(** *** Extraction of identifiers from scanned codes *)

(** The reward id of a scanned code, as [redeemByQR] extracts it: deep
    link, then legacy [REWARD_{id}_...], then a plain id. *)
Definition extractRewardId (qrCode : string) : option string :=
  let extracted1 := JsStr.match_literal_id "mysteriSpots://reward/" qrCode in
  let extracted2 :=
    if negb (Js.truthy_str extracted1) && String.prefix "REWARD_" qrCode
    then nth_error (JsStr.split "_" qrCode) 1
    else extracted1 in
  let extracted3 :=
    if negb (Js.truthy_str extracted2) && JsStr.is_plain_id qrCode
    then Some qrCode
    else extracted2 in
  if Js.truthy_str extracted3 then extracted3 else None.

(** The redemption id of a presented code, as [validateRedemption]
    extracts it: deep link, then [{userId}/{redemptionId}]. *)
Definition extractRedemptionId (code : string) : option string :=
  let id1 := JsStr.match_literal_id "mysteriSpots://redemption/" code in
  let id2 :=
    if negb (Js.truthy_str id1) && JsStr.includes code "/"
    then match JsStr.split "/" code with
         | [_; p] => Some p
         | _ => id1
         end
    else id1 in
  if Js.truthy_str id2 then id2 else None.

(** *** Reward gates of [redeemByQR] *)

(** [expiryDate < new Date()] for a truthy [expiresAt]. *)
Definition reward_expired (now : Z) (e : option Reward.ExpiresAt) : bool :=
  match e with
  | None => false
  | Some (Reward.ExpTimestamp ms) => ms <? now
  | Some (Reward.ExpNumber ms) => negb (ms =? 0) && (ms <? now)
  | Some (Reward.ExpString empty parsed) =>
      negb empty && match parsed with Some ms => ms <? now | None => false end
  | Some Reward.ExpOther => false
  end.

(** [reward.maxRedemptions && reward.currentRedemptions >= reward.maxRedemptions]. *)
Definition reward_sold_out (r : Reward.t) : bool :=
  Js.truthy_num (Reward.maxRedemptions r)
  && match Reward.currentRedemptions r with
     | Some c => Js.or_num (Reward.maxRedemptions r) 0 <=? c
     | None => false
     end.

(** The query [users/{userId}/redemptions] where [rewardId == rewardId]
    and [used == false], limit 1. *)
Definition existingRedemption (st : Store.t) (userId rewardId : string)
  : list Redemption.doc :=
  firstn 1
    (List.filter
       (fun d : Redemption.doc =>
          String.eqb (Redemption.parent d) userId
          && String.eqb (Redemption.rewardId (Redemption.data d)) rewardId
          && negb (Redemption.used (Redemption.data d)))
       (Store.redemptions st)).

Definition is_Some_b {A} (x : option A) : bool :=
  match x with Some _ => true | None => false end.

(** [FieldValue.increment(1)] on a counter field. *)
Definition increment (x : option Z) : option Z :=
  Some (match x with Some v => v + 1 | None => 1 end).

Record RedeemRequest := mkRedeemRequest {
  rq_auth : option string;
  rq_qrCode : option string
}.

Record RedeemReply := mkRedeemReply {
  rp_redemptionId : string;
  rp_xpDeducted : Z;
  rp_newXP : Z;
  rp_newLevel : Z
}.

(** The [try] block of [redeemByQR].  [newId] is the id that
    [collection('redemptions').doc()] generates. *)
Definition redeemByQR_try (now : Z) (newId : string) (st : Store.t)
    (req : RedeemRequest) : Result (RedeemReply * Store.t) :=
  match rq_auth req with
  | None => throw (HttpsError Unauthenticated)
  | Some userId =>
      throw_when JsStr.blank (rq_qrCode req)
        with HttpsError InvalidArgument ;;
      let qrCode := default "" (rq_qrCode req) in
      match extractRewardId qrCode with
      | None => throw (HttpsError InvalidArgument)
      | Some rewardId =>
          match Store.doc_get rewardId (Store.rewards st) with
          | None => throw (HttpsError NotFound)
          | Some reward =>
              throw_when negb (Js.truthy_bool (Reward.active reward))
                with HttpsError FailedPrecondition ;;
              throw_when reward_expired now (Reward.expiresAt reward)
                with HttpsError FailedPrecondition ;;
              throw_when reward_sold_out reward
                with HttpsError FailedPrecondition ;;
              match existingRedemption st userId rewardId with
              | _ :: _ => throw (HttpsError AlreadyExists)
              | [] =>
                  match Store.users st !! userId with
                  | None => throw (HttpsError NotFound)
                  | Some userData =>
                      let currentXP := Js.or_num (User.xp userData) 0 in
                      let xpCost := Js.or_num (Reward.xpRequired reward) 0 in
                      throw_when currentXP <? xpCost
                        with HttpsError FailedPrecondition ;;
                      (* the transaction *)
                      let latestXP := Js.or_num (User.xp userData) 0 in
                      throw_when latestXP <? xpCost
                        with HttpsError FailedPrecondition ;;
                      let newXP := latestXP - xpCost in
                      let newLevel := calculateLevel newXP in
                      let redemptionQRCode :=
                        "mysteriSpots://redemption/" ++ newId in
                      (* [transaction.set] rejects a document with an
                         [undefined] field value *)
                      throw_when negb (is_Some_b (Reward.title reward))
                                 || negb (is_Some_b (Reward.sponsorId reward))
                        with JsError ;;
                      let redemptionData :=
                        Redemption.mk rewardId (Reward.title reward)
                          (Reward.sponsorId reward) xpCost now false None
                          None qrCode redemptionQRCode userId in
                      let userData' :=
                        User.set_level (Some newLevel)
                          (User.set_xp (Some newXP) userData) in
                      let st1 :=
                        Store.set_redemptions
                          (Store.redemption_create
                             (Redemption.mkdoc userId newId redemptionData)
                             (Store.redemptions st)) st in
                      let st2 :=
                        Store.set_users
                          (<[userId := userData']> (Store.users st1)) st1 in
                      let st3 :=
                        Store.set_rewards
                          (Store.doc_update rewardId
                             (fun r => Reward.set_currentRedemptions
                                         (increment (Reward.currentRedemptions r)) r)
                             (Store.rewards st2)) st2 in
                      (* the notification *)
                      let st4 :=
                        Store.set_notifications
                          (Store.notifications st3
                             ++ [Notification.mk userId "reward_redeemed"
                                   newId rewardId]) st3 in
                      ret (mkRedeemReply newId xpCost newXP newLevel, st4)
                  end
              end
          end
      end
  end.

(** *** Handlers and their [catch] blocks *)

Definition finish {A} (st : Store.t) (r : Result (A * Store.t))
  : Result A * Store.t :=
  match r with
  | inl e => (inl e, st)
  | inr (a, st') => (inr a, st')
  end.

Record GrantRequest := mkGrantRequest {
  gr_auth : option string;
  gr_userId : option string;
  gr_xpAmount : option Z;
  gr_reason : option string
}.

Record GrantReply := mkGrantReply {
  gr_previousXP : Z;
  gr_newXP : Z;
  gr_xpGranted : Z
}.

(** The [try] block of [adminGrantXP]. *)
Definition adminGrantXP_try (st : Store.t) (req : GrantRequest)
  : Result (GrantReply * Store.t) :=
  throw_when negb (is_Some_b (gr_auth req))
    with HttpsError Unauthenticated ;;
  throw_when negb (Js.truthy_str (gr_userId req))
             || negb (Js.truthy_num (gr_xpAmount req))
             || negb (Js.truthy_str (gr_reason req))
    with HttpsError InvalidArgument ;;
  let userId := Js.or_str (gr_userId req) "" in
  let xpAmount := Js.or_num (gr_xpAmount req) 0 in
  throw_when xpAmount <=? 0 with HttpsError InvalidArgument ;;
  match Store.users st !! userId with
  | None => throw (HttpsError NotFound)
  | Some userData =>
      let currentXP := current_xp userData in
      let newXP := currentXP + xpAmount in
      let userData' :=
        User.set_xp (Some newXP) (User.set_xpPoints (Some newXP) userData) in
      ret (mkGrantReply currentXP newXP xpAmount,
           Store.set_users (<[userId := userData']> (Store.users st)) st)
  end.

Record AdjustRequest := mkAdjustRequest {
  aj_auth : option string;
  aj_userId : option string;
  aj_xpAmount : option Z;
  aj_reason : option string;
  aj_type : option string
}.

Record AdjustReply := mkAdjustReply {
  aj_previousXP : Z;
  aj_newXP : Z;
  aj_adjustment : Z
}.

(** The [try] block of [adjustUserXP]; [isAdmin] is the answer of
    [checkIsAdmin] for the caller. *)
Definition adjustUserXP_try (now : Z) (isAdmin : bool) (adminUid : string)
    (userId : string) (xpAmount : Z) (reason : string) (type : string)
    (st : Store.t) : Result (AdjustReply * Store.t) :=
  throw_when negb isAdmin with HttpsError PermissionDenied ;;
  match Store.users st !! userId with
  | None => throw (HttpsError NotFound)
  | Some userData =>
      let currentXP := current_xp userData in
      let newXP := Z.max 0 (currentXP + xpAmount) in
      let newLevel := calculateXPLevel newXP in
      let userData' :=
        User.set_level (Some newLevel)
          (User.set_xp (Some newXP)
             (User.set_xpPoints (Some newXP) userData)) in
      let entry :=
        Tx.mk userId "ADMIN_ADJUSTMENT" xpAmount reason None
              (Some currentXP) (Some newXP)
              (Some (Js.or_num (User.level userData) 1)) (Some newLevel)
              None now type (Some adminUid) in
      ret (mkAdjustReply currentXP newXP xpAmount,
           Store.set_xpTransactions (Store.xpTransactions st ++ [entry])
             (Store.set_users (<[userId := userData']> (Store.users st)) st))
  end.

(** [validateQRCode]: what the lookup finds. *)
Inductive QrCheck :=
| QrInvalid
| QrValid (id : string) (reward : Reward.t).

(** The [try] block of [validateQRCode]. *)
Definition validateQRCode_try (st : Store.t) (auth qrCode : option string)
  : Result QrCheck :=
  throw_when negb (is_Some_b auth) with HttpsError Unauthenticated ;;
  throw_when negb (Js.truthy_str qrCode) with HttpsError InvalidArgument ;;
  match
    List.find (fun d : string * Reward.t =>
                 bool_decide (Reward.qrCode (snd d) = qrCode))
              (Store.rewards st)
  with
  | None => ret QrInvalid
  | Some (id, reward) => ret (QrValid id reward)
  end.

Record ValidateRequest := mkValidateRequest {
  vq_auth : option string;
  vq_redemptionQRCode : option string
}.

Record ValidateReply := mkValidateReply {
  vr_id : string;
  vr_rewardTitle : option string;
  vr_userName : string;
  vr_redeemedAt : Z;
  vr_xpUsed : Z
}.

(** What [validateRedemption] holds once its reads and checks are done:
    the redemption id, the caller, and the redemption data as the
    collection-group query returned it. *)
Record PendingMark := mkPendingMark {
  pm_redemptionId : string;
  pm_sponsorUserId : string;
  pm_redemption : Redemption.t
}.

(** [sponsorData.ownerUserId || sponsorData.userId]. *)
Definition sponsorOwnerId (sponsorData : Sponsor.t) : option string :=
  if Js.truthy_str (Sponsor.ownerUserId sponsorData)
  then Sponsor.ownerUserId sponsorData
  else Sponsor.userId sponsorData.

(** First part of the [try] block of [validateRedemption]: the reads
    (the collection-group query with [limit(100)], the sponsor
    document) and every check, the used check included. *)
Definition validateRedemption_read (st : Store.t) (req : ValidateRequest)
  : Result PendingMark :=
  match vq_auth req with
  | None => throw (HttpsError Unauthenticated)
  | Some sponsorUserId =>
      throw_when JsStr.blank (vq_redemptionQRCode req)
        with HttpsError InvalidArgument ;;
      match extractRedemptionId (default "" (vq_redemptionQRCode req)) with
      | None => throw (HttpsError InvalidArgument)
      | Some redemptionId =>
          let docs := firstn 100 (Store.redemptions st) in
          match
            List.find (fun d => String.eqb (Redemption.id d) redemptionId)
                      docs
          with
          | None => throw (HttpsError NotFound)
          | Some redemptionDoc =>
              let redemption := Redemption.data redemptionDoc in
              match Redemption.sponsorId redemption with
              | None => throw JsError
              | Some sponsorId =>
                  match Store.sponsors st !! sponsorId with
                  | None => throw (HttpsError NotFound)
                  | Some sponsorData =>
                      throw_when
                        negb (bool_decide (sponsorOwnerId sponsorData
                                           = Some sponsorUserId))
                        with HttpsError PermissionDenied ;;
                      throw_when Redemption.used redemption
                        with HttpsError AlreadyExists ;;
                      ret (mkPendingMark redemptionId sponsorUserId
                                         redemption)
                  end
              end
          end
      end
  end.

(** The update [{used: true, usedAt, validatedBy}]. *)
Definition mark_used (now : Z) (validator : string) (r : Redemption.t)
  : Redemption.t :=
  Redemption.mk (Redemption.rewardId r) (Redemption.rewardTitle r)
    (Redemption.sponsorId r) (Redemption.xpUsed r) (Redemption.redeemedAt r)
    true (Some now) (Some validator) (Redemption.qrToken r)
    (Redemption.redemptionQRCode r) (Redemption.userId r).

(** Second part of the [try] block of [validateRedemption]: the update
    of [users/{redemption.userId}/redemptions/{redemptionId}] and the
    notification.  It runs against the store as it is at that time. *)
Definition validateRedemption_write (now : Z) (p : PendingMark)
    (st : Store.t) : Result (ValidateReply * Store.t) :=
  let redemption := pm_redemption p in
  let redemptionUserId := Redemption.userId redemption in
  match
    Store.redemption_update redemptionUserId (pm_redemptionId p)
      (mark_used now (pm_sponsorUserId p)) (Store.redemptions st)
  with
  | None => throw JsError
  | Some l =>
      let st1 := Store.set_redemptions l st in
      let st2 :=
        Store.set_notifications
          (Store.notifications st1
             ++ [Notification.mk redemptionUserId "redemption_used"
                   (pm_redemptionId p) (Redemption.rewardId redemption)])
          st1 in
      ret (mkValidateReply (pm_redemptionId p)
             (Redemption.rewardTitle redemption) redemptionUserId
             (Redemption.redeemedAt redemption)
             (Redemption.xpUsed redemption), st2)
  end.

(** The whole [try] block of [validateRedemption], run without
    interference. *)
Definition validateRedemption_try (now : Z) (st : Store.t)
    (req : ValidateRequest) : Result (ValidateReply * Store.t) :=
  p <- validateRedemption_read st req ;;
  validateRedemption_write now p st.

Section Catch.

(** The string that the functions SDK stores in the [code] property
    of an [HttpsError]. *)
Variable code_str : ErrorCode -> string.

(** [if (error.code) throw error; throw new HttpsError('internal', ...)]. *)
Definition rethrow_coded {A} (r : Result A) : Result A :=
  match r with
  | inl (HttpsError c) =>
      if Js.truthy_str (Some (code_str c)) then inl (HttpsError c)
      else inl (HttpsError Internal)
  | inl JsError => inl (HttpsError Internal)
  | inr a => inr a
  end.

(** [if (error.code && error.code.startsWith('functions/')) throw error;
    throw new HttpsError('internal', ...)]. *)
Definition rethrow_functions {A} (r : Result A) : Result A :=
  match r with
  | inl (HttpsError c) =>
      if String.prefix "functions/" (code_str c) then inl (HttpsError c)
      else inl (HttpsError Internal)
  | inl JsError => inl (HttpsError Internal)
  | inr a => inr a
  end.

(** [adminGrantXP]. *)
Definition adminGrantXP (st : Store.t) (req : GrantRequest)
  : Result GrantReply * Store.t :=
  finish st (rethrow_coded (adminGrantXP_try st req)).

(** [adjustUserXP]: the authentication and argument checks stand
    before the [try] block. *)
Definition adjustUserXP (now : Z) (isAdmin : bool) (st : Store.t)
    (req : AdjustRequest) : Result AdjustReply * Store.t :=
  match aj_auth req with
  | None => (throw (HttpsError Unauthenticated), st)
  | Some adminUid =>
      match aj_xpAmount req with
      | Some xpAmount =>
          if negb (Js.truthy_str (aj_userId req))
             || negb (Js.truthy_str (aj_reason req))
          then (throw (HttpsError InvalidArgument), st)
          else
            finish st
              (rethrow_coded
                 (adjustUserXP_try now isAdmin adminUid
                    (Js.or_str (aj_userId req) "") xpAmount
                    (Js.or_str (aj_reason req) "")
                    (default "ADJUSTMENT" (aj_type req)) st))
      | None => (throw (HttpsError InvalidArgument), st)
      end
  end.

(** [redeemByQR]. *)
Definition redeemByQR (now : Z) (newId : string) (st : Store.t)
    (req : RedeemRequest) : Result RedeemReply * Store.t :=
  finish st (rethrow_functions (redeemByQR_try now newId st req)).

(** [validateQRCode]. *)
Definition validateQRCode (st : Store.t) (auth qrCode : option string)
  : Result QrCheck :=
  rethrow_functions (validateQRCode_try st auth qrCode).

(** [validateRedemption], run without interference. *)
Definition validateRedemption (now : Z) (st : Store.t)
    (req : ValidateRequest) : Result ValidateReply * Store.t :=
  finish st (rethrow_functions (validateRedemption_try now st req)).

End Catch.

(** *** Sponsor QR issuance and rotation *)

(** The object that is serialised into a sponsor QR code. *)
Record QrPayload := mkQrPayload {
  qr_v : Z;
  qr_sid : string;
  qr_ts : Z;
  qr_nonce : string;
  qr_sig : string
}.

Inductive QrResult :=
| QrIssued (qrData : string) (expiresIn generatedAt : Z)
| QrFailed.

Definition set_sponsor (sponsorId : string) (sp : Sponsor.t) (st : Store.t)
  : Store.t :=
  Store.set_sponsors (<[sponsorId := sp]> (Store.sponsors st)) st.

Section Qr.

(** [crypto.createHmac('sha256', key).update(data).digest('hex')],
    the decimal text of a number in a template literal, and
    [Buffer.from(JSON.stringify(payload)).toString('base64')]. *)
Variable hmac_sha256_hex : string -> string -> string.
Variable num_str : Z -> string.
Variable base64_json : QrPayload -> string.

(** [generateQRDataForSponsor(sponsorId)]; [newSecret] and [nonce] are
    the values of [crypto.randomBytes]. *)
Definition generateQRDataForSponsor (now : Z) (newSecret nonce : string)
    (st : Store.t) (sponsorId : string) : QrResult * Store.t :=
  match Store.sponsors st !! sponsorId with
  | None => (QrFailed, st)
  | Some sponsor0 =>
      let sponsor :=
        if negb (Js.truthy_str (Sponsor.qrSecret sponsor0))
        then Sponsor.mk (Some newSecret) (Some 1) (Some 5)
               (Sponsor.lastQrNonce sponsor0)
               (Sponsor.ownerUserId sponsor0) (Sponsor.userId sponsor0)
        else sponsor0 in
      let v := Js.or_num (Sponsor.qrVersion sponsor) 1 in
      let dataToSign :=
        num_str v ++ "|" ++ sponsorId ++ "|" ++ num_str now ++ "|"
        ++ nonce in
      let signature :=
        hmac_sha256_hex (default "" (Sponsor.qrSecret sponsor))
                        dataToSign in
      let qrData :=
        base64_json (mkQrPayload v sponsorId now nonce signature) in
      let sponsor' :=
        Sponsor.mk (Sponsor.qrSecret sponsor) (Sponsor.qrVersion sponsor)
          (Sponsor.qrExpiryMinutes sponsor) (Some nonce)
          (Sponsor.ownerUserId sponsor) (Sponsor.userId sponsor) in
      let expiresIn := Js.or_num (Sponsor.qrExpiryMinutes sponsor) 5 * 60 in
      (QrIssued qrData expiresIn now, set_sponsor sponsorId sponsor' st)
  end.

(** [generateSponsorQR]. *)
Definition generateSponsorQR (now : Z) (newSecret nonce : string)
    (st : Store.t) (auth : option string) : Result QrResult * Store.t :=
  match auth with
  | None => (throw (HttpsError Unauthenticated), st)
  | Some sponsorId =>
      let '(r, st') :=
        generateQRDataForSponsor now newSecret nonce st sponsorId in
      (ret r, st')
  end.

(** [regenerateSponsorQR]: [qrVersion: FieldValue.increment(1)], then a
    new code.  The update of a missing document rejects, which the
    handler reports as a failure. *)
Definition regenerateSponsorQR (now : Z) (newSecret nonce : string)
    (st : Store.t) (auth : option string) : Result QrResult * Store.t :=
  match auth with
  | None => (throw (HttpsError Unauthenticated), st)
  | Some sponsorId =>
      match Store.sponsors st !! sponsorId with
      | None => (ret QrFailed, st)
      | Some sponsor =>
          let bumped :=
            Sponsor.mk (Sponsor.qrSecret sponsor)
              (increment (Sponsor.qrVersion sponsor))
              (Sponsor.qrExpiryMinutes sponsor)
              (Sponsor.lastQrNonce sponsor)
              (Sponsor.ownerUserId sponsor) (Sponsor.userId sponsor) in
          let '(r, st') :=
            generateQRDataForSponsor now newSecret nonce
              (set_sponsor sponsorId bumped st) sponsorId in
          (ret r, st')
      end
  end.

End Qr.

End Functions.

(** ** Spot verification (the verification module) *)

Module Spot.

Record LocationMetadata := mkLocationMetadata {
  accuracy : option Q;
  isMockLocation : option bool
}.

Record Exif := mkExif {
  dateTimeOriginal : option Z;
  gpsLatitude : option Q;
  gpsLongitude : option Q
}.

Record PhotoMetadata := mkPhotoMetadata {
  hash : option string;
  exif : option Exif
}.

(** Data of [spots/{spotId}] read by the verification.  [createdAt] is
    a millisecond count, as the arithmetic of the code takes it. *)
Record t := mk {
  id : option string;
  createdBy : string;
  createdAt : Z;
  latitude : Q;
  longitude : Q;
  locationMetadata : option LocationMetadata;
  title : option string;
  description : option string;
  category : option string;
  primaryImageUrl : option string;
  imageUrls : option (list string);
  photoMetadata : option PhotoMetadata
}.

End Spot.

Module Verification.

(** [VERIFICATION_CONFIG]. *)
Definition AUTO_APPROVE_THRESHOLD : Z := 80.
Definition MANUAL_REVIEW_THRESHOLD : Z := 50.
Definition W_LOCATION_ACCURACY : Z := 30.
Definition W_PHOTO_VERIFICATION : Z := 20.
Definition W_DUPLICATE_DETECTION : Z := 20.
Definition W_USER_TRUST : Z := 20.
Definition W_CONTENT_QUALITY : Z := 10.
Definition EXCELLENT_ACCURACY : Q := 20.
Definition GOOD_ACCURACY : Q := 50.
Definition POOR_ACCURACY : Q := 100.
Definition MAX_SPEED_MPS : Q := 50.
Definition TELEPORT_DISTANCE : Q := 10000.
Definition MAX_SUBMISSIONS_PER_DAY : nat := 3.
Definition NEW_USER_GRACE_PERIOD : Z := 7 * 24 * 60 * 60 * 1000.
Definition MIN_SUBMISSIONS_FOR_TRUST : Z := 5.
Definition SHADOW_BAN_REJECTION_THRESHOLD : Q := 7 # 10.

Inductive Status := PENDING | AUTO_APPROVED | APPROVED | REJECTED | FLAGGED.

(** What each check returns. *)
Record CheckResult := mkCheckResult {
  score : Z;
  reasons : list string;
  flags : list string
}.

Definition clamp100 (x : Z) : Z := Js.clamp 0 100 x.

(** *** Text similarity *)

(** One row of the matrix of [levenshteinDistance]: [c] is the character
    of [str2] of this row, [prev] the previous row from column [j-1] on,
    [left] the entry to the left. *)
Fixpoint lev_row (c : ascii) (str1 : list ascii) (prev : list nat)
    (left : nat) : list nat :=
  match str1, prev with
  | a :: str1', diag :: ((up :: _) as prev') =>
      let cur :=
        if Ascii.eqb c a then diag
        else Nat.min (Nat.min (diag + 1) (left + 1)) (up + 1) in
      cur :: lev_row c str1' prev' cur
  | _, _ => []
  end.

Fixpoint lev_rows (str1 str2 : list ascii) (i : nat) (prev : list nat)
  : list nat :=
  match str2 with
  | [] => prev
  | c :: str2' =>
      lev_rows str1 str2' (S i) (S i :: lev_row c str1 prev (S i))
  end.

(** [levenshteinDistance(str1, str2)]: the last entry of the last row. *)
Definition levenshteinDistance (str1 str2 : string) : nat :=
  let l1 := list_ascii_of_string str1 in
  let l2 := list_ascii_of_string str2 in
  List.last (lev_rows l1 l2 0 (seq 0 (S (List.length l1)))) 0%nat.

(** [calculateTextSimilarity(str1, str2)]. *)
Definition calculateTextSimilarity (str1 str2 : string) : Q :=
  if String.eqb str1 str2 then 1
  else if (String.length str1 =? 0)%nat || (String.length str2 =? 0)%nat
  then 0
  else
    let longer :=
      if (String.length str2 <? String.length str1)%nat then str1 else str2 in
    let shorter :=
      if (String.length str2 <? String.length str1)%nat then str2 else str1 in
    let editDistance := levenshteinDistance longer shorter in
    (inject_Z (Z.of_nat (String.length longer)) -
     inject_Z (Z.of_nat editDistance))
    / inject_Z (Z.of_nat (String.length longer)).

(** The spam patterns of [checkContentQuality], in their order. *)
Inductive SpamPattern :=
| RepeatedCharacters   (* /(.)\1{5,}/ *)
| LongNumbers          (* /[0-9]{10,}/ *)
| Urls                 (* /www\.|http|\.com/i *)
| CommercialTerms.     (* /buy|sale|cheap|free|win|prize/i *)

Definition spamPatterns : list SpamPattern :=
  [RepeatedCharacters; LongNumbers; Urls; CommercialTerms].

Definition profanityWords : list string := ["spam"; "test"; "fake"].

Definition validCategories : list string :=
  ["CAFE"; "VIEWPOINT"; "ART"; "PARK"; "HISTORICAL"; "HIDDEN_GEM"].

(** The answers of the awaited reads of one verification; [None] is a
    read that rejected. *)
Record Reads := mkReads {
  recentSubmissions : option (list Spot.t);
  duplicateImages : option bool;
  nearbySpots : option (list (string * Spot.t));
  userDoc : option (option User.t);
  todaySubmissions : option nat;
  now : Z
}.

Section Checks.

(** [getDistance] (haversine, metres), and the built-ins
    [String.prototype.toLowerCase], [String.prototype.trim] and
    [RegExp.prototype.test] for the four spam patterns. *)
Variable getDistance : Q -> Q -> Q -> Q -> Q.
Variable toLowerCase : string -> string.
Variable trim : string -> string.
Variable regex_test : SpamPattern -> string -> bool.

Record Movement := mkMovement {
  suspicious : bool;
  reason : option string
}.

(** [analyzeMovementPattern(submissions, newSpot)]. *)
Definition analyzeMovementPattern (submissions : list Spot.t)
    (newSpot : Spot.t) : Movement :=
  match submissions with
  | [] => mkMovement false None
  | lastSubmission :: _ =>
      let timeDiff :=
        Spot.createdAt newSpot - Spot.createdAt lastSubmission in
      if timeDiff <? 60000
      then mkMovement true (Some "too_fast_submission")
      else
        let distance :=
          getDistance (Spot.latitude lastSubmission)
            (Spot.longitude lastSubmission)
            (Spot.latitude newSpot) (Spot.longitude newSpot) in
        if Js.Qltb TELEPORT_DISTANCE distance && (timeDiff <? 300000)
        then mkMovement true (Some "teleportation_detected")
        else
          let speedMPS :=
            (distance / (inject_Z timeDiff / 1000))%Q in
          if Js.Qltb MAX_SPEED_MPS speedMPS
          then mkMovement true (Some "unrealistic_speed")
          else mkMovement false None
  end.

(** [checkLocationAccuracy(db, spotData)]; [recent] is the answer of
    the query for the submitter's last five spots of the last 24 h. *)
Definition checkLocationAccuracy (recent : option (list Spot.t))
    (spotData : Spot.t) : CheckResult :=
  match recent with
  | None => mkCheckResult (clamp100 50) ["location_check_error"] []
  | Some submissions =>
      let c1 :=
        match submissions with
        | [] => mkCheckResult 60 ["first_submission"] []
        | _ :: _ =>
            if suspicious (analyzeMovementPattern submissions spotData)
            then mkCheckResult 0 ["unrealistic_movement_detected"]
                         ["suspicious_movement"]
            else mkCheckResult 80 ["movement_pattern_ok"] []
        end in
      let metadata := Spot.locationMetadata spotData in
      let c2 :=
        if Js.truthy_bool (metadata ≫= Spot.isMockLocation)
        then mkCheckResult (Z.min (score c1) 10)
               (reasons c1 ++ ["mock_location_detected"])
               (flags c1 ++ ["mock_location_detected"])
        else c1 in
      let accuracy := Js.or_frac (metadata ≫= Spot.accuracy) 999 in
      let c3 :=
        if Qle_bool accuracy EXCELLENT_ACCURACY
        then mkCheckResult (Z.min 100 (score c2 + 20))
               (reasons c2 ++ ["excellent_gps_accuracy"]) (flags c2)
        else if Qle_bool accuracy GOOD_ACCURACY
        then mkCheckResult (Z.min 100 (score c2 + 10))
               (reasons c2 ++ ["good_gps_accuracy"]) (flags c2)
        else if Js.Qltb POOR_ACCURACY accuracy
        then mkCheckResult (Z.max 0 (score c2 - 20))
               (reasons c2 ++ ["poor_gps_accuracy"]) (flags c2)
        else c2 in
      mkCheckResult (clamp100 (score c3)) (reasons c3) (flags c3)
  end.

Definition truthy_frac (x : option Q) : bool :=
  match x with Some v => negb (Qeq_bool v 0) | None => false end.

(** [checkPhotoVerification(db, spotData)]; [duplicates] answers
    whether the query for another spot with the same image hash
    returned a document. *)
Definition checkPhotoVerification (duplicates : option bool)
    (spotData : Spot.t) : CheckResult :=
  if negb (Js.truthy_str (Spot.primaryImageUrl spotData))
     && match Spot.imageUrls spotData with
        | None | Some [] => true
        | Some (_ :: _) => false
        end
  then mkCheckResult 20 ["no_photo_provided"] []
  else
    let c0 := mkCheckResult 60 ["photo_provided"] [] in
    let photoMetadata := Spot.photoMetadata spotData in
    (* the image hash *)
    let hashed : CheckResult * bool (* returned *) * bool (* thrown *) :=
      if Js.truthy_str (photoMetadata ≫= Spot.hash)
      then match duplicates with
           | None => (c0, false, true)
           | Some true =>
               (mkCheckResult 0 (reasons c0 ++ ["duplicate_image_detected"])
                        (flags c0 ++ ["duplicate_image"]), true, false)
           | Some false =>
               (mkCheckResult (score c0 + 20) (reasons c0 ++ ["unique_image"])
                        (flags c0), false, false)
           end
      else (c0, false, false) in
    let '(c1, returned, thrown) := hashed in
    if returned then c1
    else if thrown
    then mkCheckResult (clamp100 40) (reasons c1 ++ ["photo_check_error"])
                 (flags c1)
    else
      let c3 :=
        match photoMetadata ≫= Spot.exif with
        | None => c1
        | Some exifData =>
            let c2 :=
              match Spot.dateTimeOriginal exifData with
              | Some photoTime =>
                  if negb (photoTime =? 0)
                     && (Z.abs (photoTime - Spot.createdAt spotData)
                         <? 3600000)
                  then mkCheckResult (score c1 + 10)
                         (reasons c1 ++ ["recent_photo"]) (flags c1)
                  else c1
              | None => c1
              end in
            if truthy_frac (Spot.gpsLatitude exifData)
               && truthy_frac (Spot.gpsLongitude exifData)
            then
              let exifDistance :=
                getDistance (Js.or_frac (Spot.gpsLatitude exifData) 0)
                  (Js.or_frac (Spot.gpsLongitude exifData) 0)
                  (Spot.latitude spotData) (Spot.longitude spotData) in
              if Js.Qltb exifDistance 100
              then mkCheckResult (score c2 + 10)
                     (reasons c2 ++ ["exif_location_match"]) (flags c2)
              else mkCheckResult (score c2 - 10)
                     (reasons c2 ++ ["exif_location_mismatch"]) (flags c2)
            else c2
        end in
      mkCheckResult (clamp100 (score c3)) (reasons c3) (flags c3).

(** State of the loop of [checkDuplicateSpots] over the nearby
    documents. *)
Record DupState := mkDupState {
  d_result : CheckResult;
  d_found : nat;
  d_thrown : bool
}.

(** The loop body, with its [continue], its [break] and the
    [TypeError] of [undefined.toLowerCase()]. *)
Fixpoint duplicate_loop (spotData : Spot.t) (docs : list (string * Spot.t))
    (st : DupState) : DupState :=
  match docs with
  | [] => st
  | (docId, existingSpot) :: docs' =>
      if bool_decide (Some docId = Spot.id spotData)
      then duplicate_loop spotData docs' st
      else
        let c := d_result st in
        let distance :=
          getDistance (Spot.latitude existingSpot)
            (Spot.longitude existingSpot)
            (Spot.latitude spotData) (Spot.longitude spotData) in
        if Js.Qltb distance 50 then
          match Spot.title spotData, Spot.title existingSpot with
          | Some t1, Some t2 =>
              let titleSimilarity :=
                calculateTextSimilarity (toLowerCase t1) (toLowerCase t2) in
              if Js.Qltb (8 # 10) titleSimilarity
              then mkDupState
                     (mkCheckResult 0 (reasons c ++ ["duplicate_spot_detected"])
                              (flags c ++ ["potential_duplicate"]))
                     (S (d_found st)) false
              else if Js.Qltb distance 25
              then duplicate_loop spotData docs'
                     (mkDupState
                        (mkCheckResult (score c - 30)
                           (reasons c ++ ["very_close_spot_exists"])
                           (flags c))
                        (S (d_found st)) false)
              else duplicate_loop spotData docs'
                     (mkDupState c (S (d_found st)) false)
          | _, _ => mkDupState c (S (d_found st)) true
          end
        else if Js.Qltb distance 100
        then duplicate_loop spotData docs'
               (mkDupState
                  (mkCheckResult (score c - 10)
                     (reasons c ++ ["nearby_spot_exists"]) (flags c))
                  (d_found st) false)
        else duplicate_loop spotData docs' st
  end.

(** [checkDuplicateSpots(db, spotData)]; [nearby] is the answer of the
    bounding-box query. *)
Definition checkDuplicateSpots (nearby : option (list (string * Spot.t)))
    (spotData : Spot.t) : CheckResult :=
  let c0 := mkCheckResult 80 [] [] in
  match nearby with
  | None => mkCheckResult (clamp100 60) ["duplicate_check_error"] []
  | Some docs =>
      let st := duplicate_loop spotData docs (mkDupState c0 0 false) in
      let c := d_result st in
      if d_thrown st
      then mkCheckResult (clamp100 60) (reasons c ++ ["duplicate_check_error"])
                   (flags c)
      else
        let c' :=
          if (d_found st =? 0)%nat
          then mkCheckResult (score c) (reasons c ++ ["no_nearby_duplicates"])
                       (flags c)
          else c in
        mkCheckResult (clamp100 (score c')) (reasons c') (flags c')
  end.

(** [checkUserTrust(db, userId)]; [doc] is the answer of the read of
    the user document, [today] the size of today's submissions. *)
Definition checkUserTrust (clock : Z) (doc : option (option User.t))
    (today : option nat) : CheckResult :=
  match doc with
  | None => mkCheckResult (clamp100 40) ["trust_check_error"] []
  | Some None => mkCheckResult 30 ["new_user_account"] []
  | Some (Some userData) =>
      if Js.truthy_bool (User.isShadowBanned userData)
      then mkCheckResult 0 ["shadow_banned_user"] ["shadow_banned_user"]
      else
        let trustScore := Js.or_frac (User.trustScore userData) 1 in
        let c0 := mkCheckResult (Js.round (trustScore * 100)) [] [] in
        let c1 :=
          match User.createdAt userData with
          | Some created =>
              if NEW_USER_GRACE_PERIOD <? clock - created
              then mkCheckResult (score c0 + 10)
                     (reasons c0 ++ ["established_account"]) (flags c0)
              else c0
          | None => c0
          end in
        let totalSubmissions :=
          Js.or_num (User.spotSubmissions userData) 0 in
        let approvedCount :=
          Js.or_num (User.spotApprovedCount userData) 0 in
        let c2 :=
          if 0 <? totalSubmissions then
            let approvalRate :=
              (inject_Z approvedCount / inject_Z totalSubmissions)%Q in
            if Js.Qltb (8 # 10) approvalRate
            then mkCheckResult (score c1 + 15)
                   (reasons c1 ++ ["high_approval_rate"]) (flags c1)
            else if Js.Qltb approvalRate (3 # 10)
            then mkCheckResult (score c1 - 20)
                   (reasons c1 ++ ["low_approval_rate"])
                   (if Js.Qltb approvalRate SHADOW_BAN_REJECTION_THRESHOLD
                       && (5 <=? totalSubmissions)
                    then flags c1 ++ ["shadow_ban_candidate"]
                    else flags c1)
            else c1
          else c1 in
        match today with
        | None =>
            mkCheckResult (clamp100 40) (reasons c2 ++ ["trust_check_error"])
                    (flags c2)
        | Some size =>
            let c3 :=
              if (MAX_SUBMISSIONS_PER_DAY <=? size)%nat
              then mkCheckResult (Z.min (score c2) 20)
                     (reasons c2 ++ ["too_many_submissions_today"])
                     (flags c2 ++ ["rate_limit_exceeded"])
              else c2 in
            mkCheckResult (clamp100 (score c3)) (reasons c3) (flags c3)
        end
  end.

(** [checkContentQuality(spotData)]. *)
Definition checkContentQuality (spotData : Spot.t) : CheckResult :=
  let title := trim (Js.or_str (Spot.title spotData) "") in
  let c1 :=
    if (String.length title <? 5)%nat
    then mkCheckResult (70 - 30) ["title_too_short"] []
    else if (100 <? String.length title)%nat
    then mkCheckResult (70 - 10) ["title_too_long"] []
    else mkCheckResult 70 ["title_length_ok"] [] in
  let titleLower := toLowerCase title in
  let c2 :=
    if existsb (fun pattern => regex_test pattern titleLower) spamPatterns
    then mkCheckResult (score c1 - 20)
           (reasons c1 ++ ["spam_detected_in_title"]) (flags c1)
    else c1 in
  let description := trim (Js.or_str (Spot.description spotData) "") in
  let c3 :=
    if (String.length description <? 10)%nat
    then mkCheckResult (score c2 - 15)
           (reasons c2 ++ ["description_too_short"]) (flags c2)
    else if (500 <? String.length description)%nat
    then mkCheckResult (score c2 - 5)
           (reasons c2 ++ ["description_too_long"]) (flags c2)
    else mkCheckResult (score c2)
           (reasons c2 ++ ["description_length_ok"]) (flags c2) in
  let fullText := toLowerCase (title ++ " " ++ description) in
  let c4 :=
    if existsb (fun word => JsStr.includes fullText word) profanityWords
    then mkCheckResult (score c3 - 15)
           (reasons c3 ++ ["inappropriate_content"]) (flags c3)
    else c3 in
  let c5 :=
    if match Spot.category spotData with
       | Some cat => existsb (String.eqb cat) validCategories
       | None => false
       end
    then c4
    else mkCheckResult (score c4 - 10) (reasons c4 ++ ["invalid_category"])
                 (flags c4) in
  mkCheckResult (clamp100 (score c5)) (reasons c5) (flags c5).

Record Scores := mkScores {
  locationAccuracy : Z;
  photoVerification : Z;
  duplicateDetection : Z;
  userTrust : Z;
  contentQuality : Z
}.

Record VerificationResult := mkResult {
  status : Status;
  totalScore : Z;
  resultReasons : list string;
  resultFlags : list string;
  detailedScores : Scores
}.

(** The weighted sum of the sub-scores, before the division by 100. *)
Definition weighted (s : Scores) : Z :=
  locationAccuracy s * W_LOCATION_ACCURACY
  + photoVerification s * W_PHOTO_VERIFICATION
  + duplicateDetection s * W_DUPLICATE_DETECTION
  + userTrust s * W_USER_TRUST
  + contentQuality s * W_CONTENT_QUALITY.

(** [performSpotVerification(db, spotId, spotData)]. *)
Definition performSpotVerification (rd : Reads) (spotData : Spot.t)
  : VerificationResult :=
  let locationScore :=
    checkLocationAccuracy (recentSubmissions rd) spotData in
  let photoScore := checkPhotoVerification (duplicateImages rd) spotData in
  let duplicateScore := checkDuplicateSpots (nearbySpots rd) spotData in
  let trustScore :=
    checkUserTrust (now rd) (userDoc rd) (todaySubmissions rd) in
  let contentScore := checkContentQuality spotData in
  let scores :=
    mkScores (score locationScore) (score photoScore)
             (score duplicateScore) (score trustScore)
             (score contentScore) in
  let allReasons : list string :=
    (reasons locationScore ++ reasons photoScore ++ reasons duplicateScore
     ++ reasons trustScore ++ reasons contentScore)%list in
  let allFlags : list string :=
    (flags locationScore ++ flags photoScore ++ flags duplicateScore
     ++ flags trustScore ++ flags contentScore)%list in
  let total := Js.round (inject_Z (weighted scores) / 100) in
  let st :=
    match allFlags with
    | _ :: _ => FLAGGED
    | [] =>
        if AUTO_APPROVE_THRESHOLD <=? total then AUTO_APPROVED
        else if total <? MANUAL_REVIEW_THRESHOLD then PENDING
        else PENDING
    end in
  mkResult st total
    (List.filter (fun r => negb (String.eqb r "")) allReasons)
    allFlags scores.

End Checks.

(** [updateUserTrustScore(db, userId, verificationResult)]: the
    transaction on the user document. *)
Definition updateUserTrustScore (users : gmap string User.t)
    (userId : string) (st : Status) : gmap string User.t :=
  match users !! userId with
  | None => users
  | Some userData =>
      let currentTrust := Js.or_frac (User.trustScore userData) 1 in
      let submissions := Js.or_num (User.spotSubmissions userData) 0 in
      let approved := Js.or_num (User.spotApprovedCount userData) 0 in
      let rejected := Js.or_num (User.spotRejectedCount userData) 0 in
      let '(newApproved, newRejected, newTrust) :=
        match st with
        | AUTO_APPROVED =>
            (approved + 1, rejected, Qmin 1 (currentTrust + (2 # 100)))
        | REJECTED =>
            (approved, rejected + 1, Qmax 0 (currentTrust - (5 # 100)))
        | _ => (approved, rejected, currentTrust)
        end in
      let updated :=
        User.set_trustScore (Some newTrust)
          (User.set_spotRejectedCount (Some newRejected)
             (User.set_spotApprovedCount (Some newApproved)
                (User.set_spotSubmissions (Some (submissions + 1))
                   userData))) in
      let totalAfterUpdate := submissions + 1 in
      let banned :=
        (5 <=? totalAfterUpdate)
        && Qle_bool SHADOW_BAN_REJECTION_THRESHOLD
             (inject_Z newRejected / inject_Z totalAfterUpdate) in
      let updated' :=
        if banned then User.set_isShadowBanned (Some true) updated
        else updated in
      <[userId := updated']> users
  end.

End Verification.

(** ** Migration utilities ([functions.backup-current/migration.js]) *)

Module Migration.

(** The update that [cleanupMigration] applies to every user document:
    six fields are deleted. *)
Definition cleanup_user (u : User.t) : User.t :=
  User.set_xpPending None
    (User.set_isShadowBanned None
       (User.set_spotRejectedCount None
          (User.set_spotApprovedCount None
             (User.set_spotSubmissions None
                (User.set_trustScore None u))))).

(** [exports.cleanupMigration], on the users collection.  [superadmin]
    is the caller's [auth.token.superadmin] claim; the file does not
    import [HttpsError], so what the guard throws is not one. *)
Definition cleanupMigration (superadmin : bool) (st : Store.t)
  : Result unit * Store.t :=
  if negb superadmin then (throw JsError, st)
  else (ret tt, Store.set_users (cleanup_user <$> Store.users st) st).

End Migration.

(** ** The ledger invariant of the specification *)

Module Ledger.

(** Replay of the ledger of one user, starting from zero: each entry of
    the user adds its amount.  The entries are taken in the order of
    the ledger, which is the order of their server timestamps. *)
Definition replay (userId : string) (txs : list Tx.t) : Z :=
  fold_left (fun acc t => acc + Tx.amount t)
    (filter (fun t : Tx.t => Tx.userId t = userId) txs) 0.

(** The stored [xpPoints] of a user document, 0 when the field is absent. *)
Definition xpPoints_of (u : User.t) : Z := default 0 (User.xpPoints u).

(** The replay reproduces the [xpPoints] of every user. *)
Definition consistent (st : Store.t) : Prop :=
  forall userId u,
    Store.users st !! userId = Some u ->
    replay userId (Store.xpTransactions st) = xpPoints_of u.

End Ledger.

(** ** Notions of the redemption protocol *)

Module SpecTerms.

(** The user holds an un-used redemption of the reward. *)
Definition holds_unused (st : Store.t) (userId rewardId : string) : Prop :=
  exists d : Redemption.doc,
    In d (Store.redemptions st)
    /\ Redemption.parent d = userId
    /\ Redemption.rewardId (Redemption.data d) = rewardId
    /\ Redemption.used (Redemption.data d) = false.

(** The reward exists, is active, has not expired and is below its cap. *)
Definition reward_live (now : Z) (st : Store.t) (rewardId : string) : Prop :=
  exists reward : Reward.t,
    Store.doc_get rewardId (Store.rewards st) = Some reward
    /\ Js.truthy_bool (Reward.active reward) = true
    /\ Functions.reward_expired now (Reward.expiresAt reward) = false
    /\ Functions.reward_sold_out reward = false.

(** The GPS accuracy that the location check works with:
    [spotData.locationMetadata?.accuracy || 999]. *)
Definition reported_accuracy (spotData : Spot.t) : Q :=
  Js.or_frac (Spot.locationMetadata spotData ≫= Spot.accuracy) 999.

(** What a handler hands back to its caller, without the store. *)
Definition reply_of {A} (r : Result (A * Store.t)) : Result A :=
  match r with
  | inl e => inl e
  | inr (a, _) => inr a
  end.

End SpecTerms.

(** ** Concrete stores and requests *)

Module Sample.

(** A user with no XP yet, and a store that holds only this user. *)
Definition newcomer : User.t := User.set_xpPoints (Some 0) User.empty.

Definition store_newcomer : Store.t :=
  Store.mk {["u1" := newcomer]} [] [] [] ∅ [].

Definition grant_request : Functions.GrantRequest :=
  Functions.mkGrantRequest (Some "admin1") (Some "u1") (Some 50)
    (Some "bonus").

(** A reward that can be redeemed once, a user with 100 XP to spend. *)
Definition one_shot_reward : Reward.t :=
  Reward.mk (Some "Free coffee") (Some "sp1") (Some true) None (Some 1)
    (Some 0) (Some 10) None.

Definition open_reward : Reward.t :=
  Reward.mk (Some "Free coffee") (Some "sp1") (Some true) None None
    (Some 0) (Some 10) None.

Definition spender : User.t :=
  User.set_xp (Some 100) (User.set_xpPoints (Some 40) User.empty).

Definition store_one_shot : Store.t :=
  Store.mk {["u1" := spender]} [] [] [("reward00001", one_shot_reward)]
    ∅ [].

Definition store_open : Store.t :=
  Store.mk {["u1" := spender]} [] [] [("reward00001", open_reward)] ∅ [].

Definition redeem_request : Functions.RedeemRequest :=
  Functions.mkRedeemRequest (Some "u1")
    (Some "mysteriSpots://reward/reward00001").

(** The redemption that user [u1] holds after redeeming the reward, the
    sponsor of the reward, and a store with both. *)
Definition held : Redemption.t :=
  Redemption.mk "reward00001" (Some "Free coffee") (Some "sp1") 10 1000
    false None None "mysteriSpots://reward/reward00001"
    "mysteriSpots://redemption/red1" "u1".

Definition sponsor1 : Sponsor.t :=
  Sponsor.mk (Some "k1") (Some 1) (Some 5) None (Some "owner1") None.

Definition store_held : Store.t :=
  Store.mk {["u1" := spender]} [] [Redemption.mkdoc "u1" "red1" held]
    [("reward00001", open_reward)] {["sp1" := sponsor1]} [].

Definition validate_request : Functions.ValidateRequest :=
  Functions.mkValidateRequest (Some "owner1")
    (Some "mysteriSpots://redemption/red1").

(** 101 users, [u000] to [u100], who each hold one un-used redemption,
    [r000] to [r100], of the reward of sponsor [sp1]. *)
Definition digit (n : nat) : ascii := ascii_of_nat (48 + n).

Definition number3 (n : nat) : string :=
  String (digit (n / 100))
    (String (digit (n / 10 mod 10)) (String (digit (n mod 10)) "")).

Definition queued (n : nat) : Redemption.doc :=
  Redemption.mkdoc ("u" ++ number3 n) ("r" ++ number3 n)
    (Redemption.mk "reward00001" (Some "Free coffee") (Some "sp1") 10
       (Z.of_nat n) false None None "mysteriSpots://reward/reward00001"
       ("mysteriSpots://redemption/r" ++ number3 n) ("u" ++ number3 n)).

Definition crowded_store : Store.t :=
  Store.mk
    (list_to_map (map (fun n => ("u" ++ number3 n, spender)) (seq 0 101)))
    [] (map queued (seq 0 101)) [("reward00001", open_reward)]
    {["sp1" := sponsor1]} [].

Definition crowded_request : Functions.ValidateRequest :=
  Functions.mkValidateRequest (Some "owner1")
    (Some "mysteriSpots://redemption/r100").

(** Spots of user [u1] with a given creation time and GPS accuracy, and
    a distance function for places that all coincide. *)
Definition spot_at (created : Z) (accuracy : option Q) : Spot.t :=
  Spot.mk (Some "s1") "u1" created 0%Q 0%Q
    (Some (Spot.mkLocationMetadata accuracy None))
    (Some "Cafe Central") (Some "A quiet place to sit") (Some "CAFE")
    None None None.

Definition same_place (lat1 lon1 lat2 lon2 : Q) : Q := 0%Q.

(** A first submission of a trusted user: 15 m GPS accuracy, a photo with
    a hash that no other spot has, nothing nearby, a valid category.
    The spam patterns do not match its title. *)
Definition first_spot : Spot.t :=
  Spot.mk (Some "s1") "u1" 1700000000000 0%Q 0%Q
    (Some (Spot.mkLocationMetadata (Some 15%Q) None))
    (Some "Cafe Central with the blue front door")
    (Some "A quiet place to sit and read, open until late.")
    (Some "CAFE") (Some "https://img/1.jpg") None
    (Some (Spot.mkPhotoMetadata (Some "h1") None)).

Definition trusted : User.t :=
  User.set_trustScore (Some 1%Q)
    (User.mk None None None None None None None None None None None
       (Some 1699999000000)).

Definition first_reads : Verification.Reads :=
  Verification.mkReads (Some []) (Some false) (Some []) (Some (Some trusted))
    (Some 1%nat) 1700000001000.

Definition no_spam (p : Verification.SpamPattern) (s : string) : bool := false.

(** A user with 500 XP on the ledger. *)
Definition veteran : User.t := User.set_xpPoints (Some 500) User.empty.

Definition store_veteran : Store.t :=
  Store.mk {["u1" := veteran]}
    [Tx.mk "u1" "SPOT_APPROVED" 500 "seed" None (Some 0) (Some 500) (Some 1)
       (Some 3) (Some true) 1 "AWARD" None]
    [] [] ∅ [].

(** A user whose trust score has reached 0, and a shadow-banned user. *)
Definition distrusted : User.t :=
  User.set_trustScore (Some 0%Q)
    (User.set_spotSubmissions (Some 2) User.empty).

Definition banned : User.t :=
  User.set_isShadowBanned (Some true)
    (User.set_trustScore (Some (1 # 2))
       (User.set_spotRejectedCount (Some 4)
          (User.set_spotSubmissions (Some 5) User.empty))).

Definition store_banned : Store.t :=
  Store.mk {["u1" := banned]} [] [] [] ∅ [].

(** Stand-ins for the keyed hash and for the serialisation of a sponsor
    QR code. *)
Definition hmac (key data : string) : string :=
  "hmac(" ++ key ++ "," ++ data ++ ")".

Definition num_str (z : Z) : string := pretty z.

Definition encode (p : Functions.QrPayload) : string :=
  "v=" ++ pretty (Functions.qr_v p) ++ ";sid=" ++ Functions.qr_sid p
  ++ ";ts=" ++ pretty (Functions.qr_ts p) ++ ";nonce="
  ++ Functions.qr_nonce p ++ ";sig=" ++ Functions.qr_sig p.

(** The code that sponsor [sp1] is issued under QR version 1. *)
Definition issued_code : string :=
  encode (Functions.mkQrPayload 1 "sp1" 1000 "n1"
            (hmac "k1" "1|sp1|1000|n1")).

(** A store in which a reward carries that code. *)
Definition coded_reward : Reward.t :=
  Reward.mk (Some "Free coffee") (Some "sp1") (Some true) None None
    (Some 0) (Some 10) (Some issued_code).

Definition store_sponsor : Store.t :=
  Store.mk {["u1" := spender]} [] [] [("reward00001", coded_reward)]
    {["sp1" := sponsor1]} [].

End Sample.

(** ** The creation trigger of the verification module *)

Module VerificationTrigger.

(** The string under which a status is stored. *)
Definition status_name (s : Verification.Status) : string :=
  match s with
  | Verification.PENDING => "PENDING"
  | Verification.AUTO_APPROVED => "AUTO_APPROVED"
  | Verification.APPROVED => "APPROVED"
  | Verification.REJECTED => "REJECTED"
  | Verification.FLAGGED => "FLAGGED"
  end.

(** The [updateData] that [updateSpotVerification] writes to the spot:
    [xpReleased] is only set for an automatic approval. *)
Record SpotUpdate := mkSpotUpdate {
  verificationStatus : string;
  verificationScore : Z;
  verificationReasons : list string;
  verificationFlags : list string;
  xpReleased : option bool
}.

(** The document that [sendAdminNotification] adds. *)
Record AdminNotification := mkAdminNotification {
  n_type : string;
  n_spotId : string;
  n_spotTitle : option string;
  n_userId : string;
  n_verificationScore : Z;
  n_flags : list string;
  n_reasons : list string;
  n_priority : string
}.

(** What one run of the trigger writes: the update of the spot, the user
    documents, the entry of [verificationLogs] and the admin
    notification. *)
Record Effects := mkEffects {
  spotUpdate : option SpotUpdate;
  users : gmap string User.t;
  verificationLog : option (string * Verification.VerificationResult);
  adminNotification : option AdminNotification
}.

(** [updateSpotVerification(db, spotId, verificationResult)]: the update
    of the spot document. *)
Definition updateSpotVerification (r : Verification.VerificationResult)
  : SpotUpdate :=
  mkSpotUpdate (status_name (Verification.status r))
    (Verification.totalScore r) (Verification.resultReasons r)
    (Verification.resultFlags r)
    (match Verification.status r with
     | Verification.AUTO_APPROVED => Some true
     | _ => None
     end).

(** [sendAdminNotification(db, spotId, spotData, verificationResult)]. *)
Definition sendAdminNotification (spotId : string) (spotData : Spot.t)
    (r : Verification.VerificationResult) : AdminNotification :=
  mkAdminNotification "SPOT_REVIEW_REQUIRED" spotId (Spot.title spotData)
    (Spot.createdBy spotData) (Verification.totalScore r)
    (Verification.resultFlags r) (Verification.resultReasons r)
    (match Verification.resultFlags r with
     | _ :: _ => "HIGH"
     | [] => "NORMAL"
     end).

Section Trigger.

Variable getDistance : Q -> Q -> Q -> Q -> Q.
Variable toLowerCase : string -> string.
Variable trim : string -> string.
Variable regex_test : Verification.SpamPattern -> string -> bool.

(** [verifySpotSubmissionNew], the handler of the creation of
    [spots/{spotId}].  [event] is the data of the new document with its
    stored [verificationStatus], [None] when the event carries no data.
    The writes of the model do not fail, so the [catch] branch of the
    handler is not entered. *)
Definition verifySpotSubmissionNew (rd : Verification.Reads)
    (spotId : string) (event : option (Spot.t * option string))
    (userDocs : gmap string User.t) : Effects :=
  match event with
  | None => mkEffects None userDocs None None
  | Some (spotData, stored) =>
      if negb (bool_decide (stored = Some "PENDING"))
      then mkEffects None userDocs None None
      else
        let verificationResult :=
          Verification.performSpotVerification getDistance toLowerCase trim
            regex_test rd spotData in
        mkEffects
          (Some (updateSpotVerification verificationResult))
          (Verification.updateUserTrustScore userDocs
             (Spot.createdBy spotData)
             (Verification.status verificationResult))
          (Some (spotId, verificationResult))
          (match Verification.status verificationResult with
           | Verification.PENDING | Verification.FLAGGED =>
               Some (sendAdminNotification spotId spotData verificationResult)
           | _ => None
           end)
  end.

End Trigger.

End VerificationTrigger.

(** ** Signals read off a spot *)

Module Signals.

(** The spot has a photo: [primaryImageUrl] or a non-empty [imageUrls]. *)
Definition has_photo (spotData : Spot.t) : bool :=
  Js.truthy_str (Spot.primaryImageUrl spotData)
  || match Spot.imageUrls spotData with
     | Some (_ :: _) => true
     | _ => false
     end.

(** The spot carries an image hash: [photoMetadata?.hash] is truthy. *)
Definition has_hash (spotData : Spot.t) : bool :=
  Js.truthy_str (Spot.photoMetadata spotData ≫= Spot.hash).

End Signals.

Module Sample2.

(** A spot with a photo and an image hash. *)
Definition hashed_spot : Spot.t := Sample.first_spot.

(** The reads of a verification in which another spot has the same image
    hash. *)
Definition duplicate_reads : Verification.Reads :=
  Verification.mkReads (Some []) (Some true) (Some [])
    (Some (Some Sample.trusted)) (Some 1%nat) 1700000001000.

(** The reads of a verification of a spot of a shadow-banned user. *)
Definition banned_reads : Verification.Reads :=
  Verification.mkReads (Some []) (Some false) (Some [])
    (Some (Some Sample.banned)) (Some 1%nat) 1700000001000.

(** The user documents with the trusted user alone. *)
Definition trusted_users : gmap string User.t := {["u1" := Sample.trusted]}.

End Sample2.

(** ** XP progress ([functions.backup-current/xpManagement.js]) *)

Module XpProgress.

(** [getXPForNextLevel(currentLevel)]:
    [Math.pow(nextLevel - 1, 2) * 100] with [nextLevel = currentLevel + 1]. *)
Definition getXPForNextLevel (currentLevel : Z) : Z :=
  let nextLevel := currentLevel + 1 in
  (nextLevel - 1) ^ 2 * 100.

(** The object that [getXPProgress] returns. *)
Record Progress := mkProgress {
  currentXP : Z;
  pendingXP : Z;
  totalXP : Z;
  currentLevel : Z;
  nextLevel : Z;
  progressInLevel : Z;
  xpNeededForNext : Z;
  progressPercentage : Q
}.

(** The computation of [getXPProgress] on the user document. *)
Definition progress_of (userData : User.t) : Progress :=
  let currentXP := Js.or_num (User.xpPoints userData) 0 in
  let pendingXP := Js.or_num (User.xpPending userData) 0 in
  let currentLevel := Js.or_num (User.level userData) 1 in
  let nextLevelXP := getXPForNextLevel currentLevel in
  let currentLevelXP :=
    if currentLevel =? 1 then 0 else getXPForNextLevel (currentLevel - 1) in
  let progressInLevel := currentXP - currentLevelXP in
  let xpNeededForNext := nextLevelXP - currentXP in
  mkProgress currentXP pendingXP (currentXP + pendingXP) currentLevel
    (currentLevel + 1) progressInLevel (Z.max 0 xpNeededForNext)
    (Qmin 100
       (inject_Z progressInLevel / inject_Z (nextLevelXP - currentLevelXP)
        * 100)).

(** [exports.getXPProgress]: whatever is thrown inside its [try] block,
    the not-found of a missing user included, is reported as internal. *)
Definition getXPProgress (st : Store.t) (auth : option string)
  : Result Progress :=
  match auth with
  | None => throw (HttpsError Unauthenticated)
  | Some userId =>
      match Store.users st !! userId with
      | None => throw (HttpsError Internal)
      | Some userData => ret (progress_of userData)
      end
  end.

End XpProgress.

(** ** The update trigger of [xpManagement.js] *)

Module SpotXp.

(** The fields of [spots/{spotId}] that the trigger reads or writes. *)
Record SpotDoc := mk {
  createdBy : string;
  title : option string;
  verificationStatus : option string;
  xpReward : option Z;
  xpReleased : option bool;
  xpDenied : option bool;
  xpDenialReason : option string
}.

Definition set_xpReleased (v : option bool) (d : SpotDoc) : SpotDoc :=
  mk (createdBy d) (title d) (verificationStatus d) (xpReward d) v
     (xpDenied d) (xpDenialReason d).

Definition set_verificationStatus (v : option string) (d : SpotDoc)
  : SpotDoc :=
  mk (createdBy d) (title d) v (xpReward d) (xpReleased d)
     (xpDenied d) (xpDenialReason d).

Definition set_denied (reason : string) (d : SpotDoc) : SpotDoc :=
  mk (createdBy d) (title d) (verificationStatus d) (xpReward d)
     (xpReleased d) (Some true) (Some reason).

(** The text of [`${afterData.title}`]. *)
Definition title_text (d : SpotDoc) : string := default "undefined" (title d).

(** [exports.handleSpotVerificationUpdate]: the handler of an update of
    [spots/{spotId}], from [beforeData] to [afterData].  It returns the
    store and the spot document as the handler leaves them.  An
    exception of [releaseSpotXP] is caught and logged. *)
Definition handleSpotVerificationUpdate (now : Z) (st : Store.t)
    (spotId : string) (beforeData afterData : SpotDoc) : Store.t * SpotDoc :=
  if bool_decide (verificationStatus beforeData = verificationStatus afterData)
  then (st, afterData)
  else
    let newStatus := verificationStatus afterData in
    let userId := createdBy afterData in
    let xpAmount := Js.or_num (xpReward afterData) 100 in
    if bool_decide (newStatus = Some "AUTO_APPROVED")
       || bool_decide (newStatus = Some "APPROVED")
    then
      match
        XpManagement.releaseSpotXP now st userId spotId xpAmount
          ("Spot approved: " ++ title_text afterData)
      with
      | inl _ => (st, afterData)
      | inr (_, st') => (st', set_xpReleased (Some true) afterData)
      end
    else if bool_decide (newStatus = Some "REJECTED")
    then
      (XpManagement.logXPDenial now st userId spotId xpAmount
         "Spot rejected during verification",
       set_denied "Spot verification failed" afterData)
    else (st, afterData).

End SpotXp.

Module Sample3.

(** A spot of user [u1] with a reward of 120 XP, before and after its
    automatic approval. *)
Definition pending_spot : SpotXp.SpotDoc :=
  SpotXp.mk "u1" (Some "Cafe Central") (Some "PENDING") (Some 120) None None
    None.

Definition approved_spot : SpotXp.SpotDoc :=
  SpotXp.set_verificationStatus (Some "AUTO_APPROVED") pending_spot.

Definition rejected_spot : SpotXp.SpotDoc :=
  SpotXp.set_verificationStatus (Some "REJECTED") pending_spot.

(** A request for the XP of a visit of spot [s1], and one for a
    challenge. *)
Definition visit_request : XpManagement.AwardRequest :=
  XpManagement.mkAwardRequest (Some "u1") (Some "VISIT_SPOT") (Some 50)
    (Metadata.mk None (Some "s1") None None None None).

Definition challenge_request : XpManagement.AwardRequest :=
  XpManagement.mkAwardRequest (Some "u1") (Some "COMPLETE_CHALLENGE")
    (Some 200) (Metadata.mk None None (Some "c1") None None None).

(** A user at level 3 of the square-root formula, with 450 XP. *)
Definition level3_user : User.t :=
  User.set_level (Some 3) (User.set_xpPoints (Some 450) User.empty).

End Sample3.

(** ** Invariants used in the proofs *)

Module Invariant.

(** A row of the edit-distance matrix of [levenshteinDistance]: it has one
    entry per column, and the entry of column [k] of row [i] is at most
    [max i k]. *)
Definition row_ok (n i : nat) (row : list nat) : Prop :=
  List.length row = S n
  /\ forall k x, nth_error row k = Some x -> (x <= Nat.max i k)%nat.

(** The cached level of a user is the level of the stored [xpPoints]. *)
Definition level_coherent (st : Store.t) (userId : string) : Prop :=
  exists (u : User.t) (xp : Z),
    Store.users st !! userId = Some u
    /\ User.xpPoints u = Some xp
    /\ User.level u = Some (XpManagement.calculateLevel xp).

End Invariant.

(** ** Sponsor QR settings (the functions bundle) *)

Module QrSettings.

(** The two answers of [updateQRSettings]: [{success: true}], and
    [{success: false, error}]. *)
Inductive SettingsReply :=
| SettingsOk
| SettingsRejected (error : string).

(** [updateQRSettings], for an expiry given as a whole number of
    minutes.  The update of a missing sponsor document rejects, which
    the handler reports as a failure. *)
Definition updateQRSettings (st : Store.t) (auth : option string)
    (expiryMinutes : option Z) : Result SettingsReply * Store.t :=
  match auth with
  | None => (throw (HttpsError Unauthenticated), st)
  | Some sponsorId =>
      if negb (Js.truthy_num expiryMinutes)
         || (Js.or_num expiryMinutes 0 <? 1)
         || (60 <? Js.or_num expiryMinutes 0)
      then (ret (SettingsRejected "Expiry must be between 1 and 60 minutes"),
            st)
      else
        match Store.sponsors st !! sponsorId with
        | None => (ret (SettingsRejected "Failed to update settings"), st)
        | Some sponsor =>
            (ret SettingsOk,
             Functions.set_sponsor sponsorId
               (Sponsor.mk (Sponsor.qrSecret sponsor)
                  (Sponsor.qrVersion sponsor) expiryMinutes
                  (Sponsor.lastQrNonce sponsor)
                  (Sponsor.ownerUserId sponsor) (Sponsor.userId sponsor))
               st)
        end
  end.

End QrSettings.

(** ** Spot reports (the functions bundle) *)

Module Reports.

(** [spotReports/{auto id}].  The review fields, which [reportSpot]
    creates empty, are left out. *)
Record Report := mkReport {
  spotId : string;
  reportedBy : string;
  reason : string;
  description : string;
  createdAt : Z;
  status : string
}.

(** The fields of [spots/{spotId}] that reporting reads or writes. *)
Record SpotRec := mkSpotRec {
  createdBy : string;
  verificationStatus : option string;
  flagReason : option string
}.

(** The [flagData] of [checkSpotForAutoFlag]. *)
Record FlagData := mkFlagData {
  f_reason : string;
  f_reportCount : nat;
  f_recentReportCount : nat
}.

(** [adminNotifications/{auto id}] of type [SPOT_FLAGGED]. *)
Record SpotFlagged := mkSpotFlagged {
  n_spotId : string;
  n_priority : string;
  n_metadata : FlagData
}.

(** The collections involved; [spotReports] in creation order, each
    document with its id. *)
Record State := mkState {
  reports : list (string * Report);
  spots : gmap string SpotRec;
  adminNotifications : list SpotFlagged
}.

Definition validReasons : list string :=
  ["FAKE"; "WRONG_LOCATION"; "SPAM"; "OFFENSIVE"; "DANGEROUS"; "DUPLICATE"].

(** The [reasonCounts] object that the loop of
    [checkForConsensusReports] builds:
    [reasonCounts[reason] = (reasonCounts[reason] || 0) + 1]. *)
Definition reasonCounts (reportDocs : list Report) : gmap string nat :=
  foldl (fun (m : gmap string nat) d =>
           <[reason d := (default 0%nat (m !! reason d) + 1)%nat]> m)
        ∅ reportDocs.

(** [checkForConsensusReports(reportDocs)]. *)
Definition checkForConsensusReports (reportDocs : list Report) : bool :=
  if (length reportDocs <? 2)%nat then false
  else existsb (fun count => (2 <=? count)%nat)
         (map snd (map_to_list (reasonCounts reportDocs))).

(** [flagSpotForReview(spotId, flagData)]: the update of a missing spot
    document rejects, which is caught before the notification is
    added. *)
Definition flagSpotForReview (st : State) (spot : string)
    (flagData : FlagData) : State :=
  match spots st !! spot with
  | None => st
  | Some s =>
      mkState (reports st)
        (<[spot := mkSpotRec (createdBy s) (Some "FLAGGED")
                     (Some (f_reason flagData))]> (spots st))
        (adminNotifications st ++ [mkSpotFlagged spot "HIGH" flagData])
  end.

(** [checkSpotForAutoFlag(spotId)]; [clock] is [Date.now()]. *)
Definition checkSpotForAutoFlag (clock : Z) (st : State) (spot : string)
  : State :=
  let recentReports :=
    List.filter (fun d : string * Report =>
                   String.eqb (spotId (snd d)) spot
                   && (clock - 24 * 60 * 60 * 1000 <? createdAt (snd d)))
                (reports st) in
  let reportCount := length recentReports in
  let allReports :=
    List.filter (fun d : string * Report => String.eqb (spotId (snd d)) spot)
                (reports st) in
  let totalReports := length allReports in
  let shouldFlag :=
    (3 <=? reportCount)%nat || (5 <=? totalReports)%nat
    || checkForConsensusReports (map snd allReports) in
  if shouldFlag
  then flagSpotForReview st spot
         (mkFlagData "Multiple user reports" totalReports reportCount)
  else st.

(** The [try] block of [reportSpot]; [now] is the server timestamp of
    the new report and [newId] its generated id. *)
Definition reportSpot_try (now clock : Z) (newId : string) (st : State)
    (userId spot rsn descr : string) : Result (string * State) :=
  match
    List.filter (fun d : string * Report =>
                   String.eqb (spotId (snd d)) spot
                   && String.eqb (reportedBy (snd d)) userId)
                (reports st)
  with
  | _ :: _ => throw (HttpsError AlreadyExists)
  | [] =>
      match spots st !! spot with
      | None => throw (HttpsError NotFound)
      | Some spotData =>
          throw_when String.eqb (createdBy spotData) userId
            with HttpsError PermissionDenied ;;
          let reportData :=
            mkReport spot userId rsn (String.substring 0 500 descr) now
              "PENDING" in
          let st1 :=
            mkState (reports st ++ [(newId, reportData)]) (spots st)
              (adminNotifications st) in
          ret (newId, checkSpotForAutoFlag clock st1 spot)
      end
  end.

Section Handler.

Variable code_str : ErrorCode -> string.

(** [reportSpot]. *)
Definition reportSpot (now clock : Z) (newId : string) (st : State)
    (auth spot rsn descr : option string) : Result string * State :=
  match auth with
  | None => (throw (HttpsError Unauthenticated), st)
  | Some userId =>
      if negb (Js.truthy_str spot) || negb (Js.truthy_str rsn)
      then (throw (HttpsError InvalidArgument), st)
      else if negb (existsb (String.eqb (Js.or_str rsn "")) validReasons)
      then (throw (HttpsError InvalidArgument), st)
      else
        match
          Functions.rethrow_functions code_str
            (reportSpot_try now clock newId st userId (Js.or_str spot "")
               (Js.or_str rsn "") (default "" descr))
        with
        | inl e => (inl e, st)
        | inr (id, st') => (inr id, st')
        end
  end.

End Handler.

(** No user has two reports on one spot. *)
Definition one_report_per_user (st : State) : Prop :=
  NoDup (map (fun d : string * Report =>
                (spotId (snd d), reportedBy (snd d))) (reports st)).

End Reports.

Module Sample4.

(** A spot of user [u1], approved, with one report by [u2]. *)
Definition reported_spot : Reports.SpotRec :=
  Reports.mkSpotRec "u1" (Some "APPROVED") None.

Definition first_report : Reports.Report :=
  Reports.mkReport "s1" "u2" "SPAM" "advertising" 1000 "PENDING".

Definition reported_state : Reports.State :=
  Reports.mkState [("rep1", first_report)] {["s1" := reported_spot]} [].

Definition unreported_state : Reports.State :=
  Reports.mkState [] {["s1" := reported_spot]} [].

End Sample4.

(** ** Badges (the functions bundle) *)

Module Badges.

(** [badgeDefinitions/{badgeId}]. *)
Record BadgeDef := mkBadgeDef {
  unlockType : option string;
  requiredXP : option Z;
  requiredLevel : option Z;
  milestoneType : option string;
  requiredCount : option Z;
  title : option string;
  description : option string;
  type : option string;
  level : option Z;
  imageUrl : option string
}.

(** [users/{userId}/badges/{badgeId}]. *)
Record UserBadge := mkUserBadge {
  badgeId : string;
  badgeTitle : string;
  badgeDescription : string;
  badgeType : string;
  badgeLevel : Z;
  badgeImageUrl : string;
  earnedAt : Z
}.

(** The document that [unlockBadge] sets. *)
Definition unlocked (now : Z) (id : string) (badgeData : BadgeDef)
  : UserBadge :=
  mkUserBadge id (Js.or_str (title badgeData) "")
    (Js.or_str (description badgeData) "")
    (Js.or_str (type badgeData) "achievement")
    (Js.or_num (level badgeData) 1)
    (Js.or_str (imageUrl badgeData) "") now.

(** The unlock conditions of one badge definition; [userData] is the
    data of the user document, absent when there is no such document. *)
Definition shouldUnlock (badge : BadgeDef) (xp lvl : Z)
    (userData : option User.t) : bool :=
  if bool_decide (unlockType badge = Some "xp")
     && (Js.or_num (requiredXP badge) 0 <=? xp)
  then true
  else if bool_decide (unlockType badge = Some "level")
          && (Js.or_num (requiredLevel badge) 0 <=? lvl)
  then true
  else if bool_decide (unlockType badge = Some "milestone")
  then
    if bool_decide (milestoneType badge = Some "spotsDiscovered")
       && (Js.or_num (requiredCount badge) 0
           <=? Js.or_num (userData ≫= User.spotsDiscovered) 0)
    then true
    else if bool_decide (milestoneType badge = Some "challengesCompleted")
            && (Js.or_num (requiredCount badge) 0
                <=? Js.or_num (userData ≫= User.challengesCompleted) 0)
    then true
    else false
  else false.

(** [existingBadgeIds]: the [badgeId] fields of the user's badge
    documents. *)
Definition existingBadgeIds (badges : gmap string UserBadge) : gset string :=
  list_to_set ((fun d : string * UserBadge => badgeId (snd d))
               <$> map_to_list badges).

(** One round of the loop of [checkAndUnlockBadges]. *)
Definition unlock_step (now : Z) (existing : gset string) (xp lvl : Z)
    (userData : option User.t) (acc : gmap string UserBadge)
    (d : string * BadgeDef) : gmap string UserBadge :=
  if bool_decide (fst d ∈ existing) then acc
  else if shouldUnlock (snd d) xp lvl userData
  then <[fst d := unlocked now (fst d) (snd d)]> acc
  else acc.

(** [checkAndUnlockBadges(userId, xp, level)] on the badge documents of
    the user: [defs] are the badge definitions with their ids and
    [userData] the user document. *)
Definition checkAndUnlockBadges (now : Z) (defs : list (string * BadgeDef))
    (userData : option User.t) (badges : gmap string UserBadge)
    (xp lvl : Z) : gmap string UserBadge :=
  match defs with
  | [] => badges
  | _ :: _ =>
      foldl (unlock_step now (existingBadgeIds badges) xp lvl userData)
            badges defs
  end.

(** Every badge document carries its own id. *)
Definition consistent (badges : gmap string UserBadge) : Prop :=
  forall id b, badges !! id = Some b -> badgeId b = id.

End Badges.

Module Sample5.

Definition xp_badge (required : Z) : Badges.BadgeDef :=
  Badges.mkBadgeDef (Some "xp") (Some required) None None None
    (Some "Collector") None None None None.

Definition explorer_badge : Badges.BadgeDef :=
  Badges.mkBadgeDef (Some "milestone") None None (Some "spotsDiscovered")
    (Some 3) (Some "Explorer") None None None None.

Definition badge_defs : list (string * Badges.BadgeDef) :=
  [("b100", xp_badge 100); ("b1000", xp_badge 1000);
   ("explorer", explorer_badge)].

Definition explorer : User.t :=
  User.set_spotsDiscovered (Some 4) User.empty.

Definition no_badges : gmap string Badges.UserBadge := ∅.

End Sample5.

(** ** The callable [awardXP] of the functions bundle *)

Module BundleAward.

(** [xpHistory/{auto id}]; the free-form [metadata] object is left out. *)
Record History := mkHistory {
  h_userId : string;
  h_amount : Z;
  h_reason : string;
  h_previousXP : Z;
  h_newXP : Z;
  h_awardedBy : string;
  h_timestamp : Z
}.

Record Request := mkRequest {
  auth : option string;
  userId : option string;
  amount : option Z;
  reason : option string
}.

Record Reply := mkReply {
  previousXP : Z;
  newXP : Z;
  awardedAmount : Z;
  leveledUp : bool;
  newLevel : Z
}.

(** [awardXP] of the bundle, on the store and the [xpHistory]
    collection.  Its [calculateLevel] is the later declaration of the
    bundle.  Whatever is thrown inside the [try] block is reported as
    internal. *)
Definition awardXP (now : Z) (st : Store.t) (xpHistory : list History)
    (req : Request) : Result Reply * Store.t * list History :=
  match auth req with
  | None => (throw (HttpsError Unauthenticated), st, xpHistory)
  | Some caller =>
      if negb (Js.truthy_str (userId req))
         || negb (Js.truthy_num (amount req))
         || negb (Js.truthy_str (reason req))
      then (throw (HttpsError InvalidArgument), st, xpHistory)
      else if Js.or_num (amount req) 0 <=? 0
      then (throw (HttpsError InvalidArgument), st, xpHistory)
      else
        let uid := Js.or_str (userId req) "" in
        let amt := Js.or_num (amount req) 0 in
        match Store.users st !! uid with
        | None => (throw (HttpsError Internal), st, xpHistory)
        | Some userData =>
            let currentXP := Js.or_num (User.xp userData) 0 in
            let newXP := currentXP + amt in
            let newLevel := Functions.calculateLevel newXP in
            let oldLevel := Functions.calculateLevel currentXP in
            let userData' :=
              User.set_level (Some newLevel)
                (User.set_xp (Some newXP) userData) in
            (ret (mkReply currentXP newXP amt (oldLevel <? newLevel)
                    newLevel),
             Store.set_users (<[uid := userData']> (Store.users st)) st,
             (xpHistory
              ++ [mkHistory uid amt (Js.or_str (reason req) "") currentXP
                    newXP caller now])%list)
        end
  end.

End BundleAward.

(** ** Migration of users ([functions.backup-current/migration.js]) *)

Module UserMigration.

(** The [updates] of [determineUserMigrationData]. *)
Record Updates := mkUpdates {
  trustScore : Q;
  spotSubmissions : Z;
  spotApprovedCount : Z;
  spotRejectedCount : Z;
  isShadowBanned : bool;
  xpPending : Z
}.

Definition half_year : Z := 180 * 24 * 60 * 60 * 1000.

(** [determineUserMigrationData(db, userId, userData)].  [clock] is
    [Date.now()]; [spots] is the size of the query for the spots of the
    user, absent when the query throws, in which case the defaults are
    kept; [createdAt] and [lastActiveAt] are the millisecond values of
    the user document. *)
Definition determineUserMigrationData (clock : Z) (spots : option Z)
    (createdAt lastActiveAt : option Z) : Updates :=
  match spots with
  | None => mkUpdates 1 0 0 0 false 0
  | Some size =>
      let trust1 :=
        if 0 <? size
        then Qmin 1 (1 + inject_Z size * (1 # 100))
        else 1%Q in
      let accountAge := clock - Js.or_num createdAt 0 in
      let lastActive := Js.or_num lastActiveAt (Js.or_num createdAt 0) in
      let inactivityPeriod := clock - lastActive in
      let trust2 :=
        if (half_year <? accountAge) && (half_year <? inactivityPeriod)
        then Qmax (7 # 10) (trust1 - (1 # 10))
        else trust1 in
      mkUpdates trust2 size size 0 false 0
  end.

(** The update of one user document. *)
Definition apply_updates (up : Updates) (u : User.t) : User.t :=
  User.set_xpPending (Some (xpPending up))
    (User.set_isShadowBanned (Some (isShadowBanned up))
       (User.set_spotRejectedCount (Some (spotRejectedCount up))
          (User.set_spotApprovedCount (Some (spotApprovedCount up))
             (User.set_spotSubmissions (Some (spotSubmissions up))
                (User.set_trustScore (Some (trustScore up)) u))))).

(** What the loop of [migrateExistingUsers] does with one user: a user
    that has a [trustScore] is skipped. *)
Definition migrate_user (clock : Z) (spotsOf : string -> option Z)
    (lastActiveOf : string -> option Z) (userId : string) (u : User.t)
  : User.t :=
  match User.trustScore u with
  | Some _ => u
  | None =>
      apply_updates
        (determineUserMigrationData clock (spotsOf userId)
           (User.createdAt u) (lastActiveOf userId))
        u
  end.

(** [exports.migrateExistingUsers], on the users collection; the reply
    is the number of users migrated.  [superadmin] is the caller's claim;
    as in [cleanupMigration], what the guard throws is not an
    [HttpsError]. *)
Definition migrateExistingUsers (superadmin : bool) (clock : Z)
    (spotsOf : string -> option Z) (lastActiveOf : string -> option Z)
    (st : Store.t) : Result nat * Store.t :=
  if negb superadmin then (throw JsError, st)
  else
    (ret (length
            (List.filter
               (fun d : string * User.t =>
                  negb (Functions.is_Some_b (User.trustScore (snd d))))
               (map_to_list (Store.users st)))),
     Store.set_users
       (map_imap (fun userId u =>
                    Some (migrate_user clock spotsOf lastActiveOf userId u))
                 (Store.users st))
       st).

End UserMigration.

(** ** Properties *)

Import Functions.

(** *** Level formulas *)

(** The square-root formula yields the level [l] on the XP band
    [100 (l-1)^2 <= xp < 100 l^2], as the comment of the source says
    (level 1: 0-99, level 2: 100-399, level 3: 400-899). *)
Lemma calculateLevel_sqrt_band (xp : Z) :
  0 <= xp ->
  let l := XpManagement.calculateLevel xp in
  100 * (l - 1) * (l - 1) <= xp < 100 * l * l.
Proof.
  intros Hxp l. subst l. unfold XpManagement.calculateLevel.
  destruct (Z.ltb_spec xp 0) as [Hneg | _]; [lia |].
  assert (Hq : 0 <= xp / 100) by (apply Z.div_pos; lia).
  pose proof (Z.sqrt_spec (xp / 100) Hq) as [Hlo Hhi].
  pose proof (Z.div_mod xp 100 ltac:(lia)) as Hdm.
  pose proof (Z.mod_pos_bound xp 100 ltac:(lia)) as Hmod.
  set (s := Z.sqrt (xp / 100)) in *.
  replace (s + 1 - 1) with s by lia.
  unfold Z.succ in Hhi. nia.
Qed.

(** The linear formula yields the level [l] on [500 (l-1) <= xp < 500 l]. *)
Lemma calculateLevel_linear_band (xp : Z) :
  let l := Functions.calculateLevel xp in
  500 * (l - 1) <= xp < 500 * l.
Proof.
  intros l. subst l. unfold Functions.calculateLevel.
  pose proof (Z.div_mod xp 500 ltac:(lia)) as Hdm.
  pose proof (Z.mod_pos_bound xp 500 ltac:(lia)) as Hmod.
  lia.
Qed.

Example level_at_100 :
  XpManagement.calculateLevel 100 = 2 /\ Functions.calculateLevel 100 = 1.
Proof. split; reflexivity. Qed.

Example level_at_10000 :
  XpManagement.calculateLevel 10000 = 11 /\ Functions.calculateLevel 10000 = 21.
Proof. split; reflexivity. Qed.

(** C3: some non-negative XP total gets different levels from the two
    level functions of the repository, [floor(sqrt(xp/100))+1] and
    [floor(xp/500)+1]. *)
Theorem level_formulas_disagree :
  exists xp : Z,
    0 <= xp /\ XpManagement.calculateLevel xp <> Functions.calculateLevel xp.
Proof.
  exists 100. split; [lia |]. vm_compute. discriminate.
Qed.

(** *** The XP ledger *)

Lemma replay_app userId txs1 txs2 :
  Ledger.replay userId (txs1 ++ txs2)
  = Ledger.replay userId txs1
    + Ledger.replay userId txs2.
Proof.
  unfold Ledger.replay. rewrite filter_app, fold_left_app.
  generalize (fold_left (fun acc t => acc + Tx.amount t)
                (filter (fun t : Tx.t => Tx.userId t = userId) txs1) 0).
  induction (filter (fun t : Tx.t => Tx.userId t = userId) txs2)
    as [| t l IH] using rev_ind; intros z; simpl; [lia |].
  rewrite !fold_left_app. simpl. rewrite IH. lia.
Qed.

Lemma replay_single userId t :
  Ledger.replay userId [t]
  = if decide (Tx.userId t = userId) then Tx.amount t else 0.
Proof.
  unfold Ledger.replay. rewrite filter_cons, filter_nil.
  destruct (decide (Tx.userId t = userId)); reflexivity.
Qed.

(** [releaseSpotXP] credits [xpPoints] and appends the matching entry:
    it keeps the ledger consistent when the user's [xpPoints] field is
    set. *)
Lemma releaseSpotXP_consistent now st userId spotId amount description r st' :
  Ledger.consistent st ->
  (forall u, Store.users st !! userId = Some u -> User.xpPoints u <> None) ->
  XpManagement.releaseSpotXP now st userId spotId amount description
  = inr (r, st') ->
  Ledger.consistent st'.
Proof.
  intros Hc Hset. unfold XpManagement.releaseSpotXP.
  destruct (Store.users st !! userId) as [u |] eqn:Hu; [| discriminate].
  intros [= <- <-]. intros uid u' Hu'. simpl in *.
  rewrite replay_app, replay_single. simpl.
  destruct (decide (userId = uid)) as [-> | Hne].
  - rewrite lookup_insert_eq in Hu'. injection Hu' as <-.
    rewrite (Hc uid u Hu). unfold Ledger.xpPoints_of. simpl.
    specialize (Hset u eq_refl).
    destruct (User.xpPoints u) as [x |]; [| congruence]. simpl.
    destruct (Z.eqb_spec x 0); lia.
  - rewrite lookup_insert_ne in Hu' by done.
    rewrite (Hc uid u' Hu'). lia.
Qed.

(** So does [awardUserXP], when the metadata does not replace the user
    or the amount of the entry. *)
Lemma awardUserXP_consistent now st userId action amount metadata r st' :
  Ledger.consistent st ->
  (forall u, Store.users st !! userId = Some u -> User.xpPoints u <> None) ->
  Metadata.userId metadata = None ->
  Metadata.amount metadata = None ->
  XpManagement.awardUserXP now st userId action amount metadata
  = inr (r, st') ->
  Ledger.consistent st'.
Proof.
  intros Hc Hset Hmu Hma. unfold XpManagement.awardUserXP.
  destruct (Store.users st !! userId) as [u |] eqn:Hu; [| discriminate].
  intros [= <- <-]. intros uid u' Hu'. simpl in *.
  rewrite replay_app, replay_single. unfold XpManagement.award_entry.
  simpl. rewrite Hmu, Hma. simpl.
  destruct (decide (userId = uid)) as [-> | Hne].
  - rewrite lookup_insert_eq in Hu'. injection Hu' as <-.
    rewrite (Hc uid u Hu). unfold Ledger.xpPoints_of.
    specialize (Hset u eq_refl).
    assert (Hb : User.xpPoints
                   (XpManagement.bump_counter action u
                      (User.set_level
                         (Some (XpManagement.calculateLevel
                                  (Js.or_num (User.xpPoints u) 0 + amount)))
                         (User.set_xpPoints
                            (Some (Js.or_num (User.xpPoints u) 0 + amount)) u)))
                 = Some (Js.or_num (User.xpPoints u) 0 + amount)).
    { unfold XpManagement.bump_counter.
      destruct (String.eqb action "VISIT_SPOT"); [reflexivity |].
      destruct (String.eqb action "COMPLETE_CHALLENGE"); reflexivity. }
    rewrite Hb. simpl.
    destruct (User.xpPoints u) as [x |]; [| congruence]. simpl.
    destruct (Z.eqb_spec x 0); lia.
  - rewrite lookup_insert_ne in Hu' by done.
    rewrite (Hc uid u' Hu'). lia.
Qed.

(** An adjustment that the floor at 0 cuts short is logged with the
    amount that was asked for. *)
Example adjustUserXP_floor :
  let out :=
    XpManagement.adjustUserXP 2 true Sample.store_veteran
      (XpManagement.mkAdjustRequest (Some "admin1") (Some "u1")
         (Some (-1000000)) (Some "correction")) in
  fst out = inr (XpManagement.mkAdjustReply 500 0 1)
  /\ (User.xpPoints <$> Store.users (snd out) !! "u1") = Some (Some 0)
  /\ map Tx.amount (Store.xpTransactions (snd out)) = [500; -1000000].
Proof. repeat split. Qed.

(** [adminGrantXP] never writes to the ledger. *)
Lemma adminGrantXP_ledger_untouched code_str st req :
  Store.xpTransactions (snd (adminGrantXP code_str st req))
  = Store.xpTransactions st.
Proof.
  unfold adminGrantXP, finish.
  destruct (adminGrantXP_try st req) as [e | [a st']] eqn:Htry.
  - destruct e as [c |]; unfold rethrow_coded;
      [destruct (Js.truthy_str (Some (code_str c))) |]; reflexivity.
  - simpl. revert Htry. unfold adminGrantXP_try, throw, ret.
    repeat (case_match; try discriminate). intros [= <- <-]. reflexivity.
Qed.

(** C1: a grant of 50 XP by [adminGrantXP] to a user whose ledger is empty
    raises [xpPoints] to 50 and leaves the ledger empty, so the replay of
    the ledger from zero gives 0 and not the user's [xpPoints]. *)
Theorem adminGrantXP_bypasses_ledger :
  forall code_str : ErrorCode -> string,
    let st := Sample.store_newcomer in
    let out := adminGrantXP code_str st Sample.grant_request in
    Ledger.consistent st
    /\ fst out = inr (mkGrantReply 0 50 50)
    /\ (User.xpPoints <$> Store.users (snd out) !! "u1") = Some (Some 50)
    /\ Store.xpTransactions (snd out) = []
    /\ Ledger.replay "u1" (Store.xpTransactions (snd out)) = 0
    /\ ~ Ledger.consistent (snd out).
Proof.
  intros code_str st out.
  assert (Hout : out = (inr (mkGrantReply 0 50 50),
                        Store.set_users
                          (<["u1" := User.set_xp (Some 50)
                                       (User.set_xpPoints (Some 50)
                                          Sample.newcomer)]>
                             (Store.users st)) st)) by reflexivity.
  rewrite Hout. simpl. repeat split.
  - intros uid u Hu. subst st. simpl in Hu.
    apply lookup_singleton_Some in Hu as [<- <-]. reflexivity.
  - intros Hc. specialize (Hc "u1" _ (lookup_insert_eq _ _ _)).
    vm_compute in Hc. discriminate.
Qed.

(** *** QR redemption *)

Example extractRewardId_deep_link :
  extractRewardId "mysteriSpots://reward/reward00001" = Some "reward00001".
Proof. reflexivity. Qed.

Example extractRewardId_legacy :
  extractRewardId "REWARD_abc_1700000000_x9" = Some "abc".
Proof. reflexivity. Qed.

Example extractRewardId_plain :
  extractRewardId "reward00001" = Some "reward00001"
  /\ extractRewardId "short" = None.
Proof. split; reflexivity. Qed.

Example redeem_once :
  SpecTerms.reply_of
    (redeemByQR_try 1000 "red1" Sample.store_open Sample.redeem_request)
  = inr (mkRedeemReply "red1" 10 90 1).
Proof. reflexivity. Qed.

(** What a successful run of the [try] block of [redeemByQR] has read
    and written. *)
Lemma redeemByQR_try_success now newId st req r st' :
  redeemByQR_try now newId st req = inr (r, st') ->
  exists userId qrCode rewardId reward userData,
    rq_auth req = Some userId
    /\ rq_qrCode req = Some qrCode
    /\ extractRewardId qrCode = Some rewardId
    /\ Store.doc_get rewardId (Store.rewards st) = Some reward
    /\ Store.users st !! userId = Some userData
    /\ existingRedemption st userId rewardId = []
    /\ let xpCost := Js.or_num (Reward.xpRequired reward) 0 in
       let newXP := Js.or_num (User.xp userData) 0 - xpCost in
       xpCost <= Js.or_num (User.xp userData) 0
       /\ r = mkRedeemReply newId xpCost newXP (Functions.calculateLevel newXP)
       /\ Store.users st'
          = <[userId := User.set_level (Some (Functions.calculateLevel newXP))
                          (User.set_xp (Some newXP) userData)]> (Store.users st)
       /\ Store.xpTransactions st' = Store.xpTransactions st
       /\ Store.redemptions st'
          = Store.redemption_create
              (Redemption.mkdoc userId newId
                 (Redemption.mk rewardId (Reward.title reward)
                    (Reward.sponsorId reward) xpCost now false None None
                    qrCode ("mysteriSpots://redemption/" ++ newId) userId))
              (Store.redemptions st).
Proof.
  unfold redeemByQR_try, throw, ret.
  destruct (rq_auth req) as [userId |]; [| discriminate].
  destruct (rq_qrCode req) as [qrCode |] eqn:Hcode; [| discriminate].
  destruct (JsStr.blank (Some qrCode)); [discriminate |]. simpl default.
  destruct (extractRewardId qrCode) as [rewardId |] eqn:Hid; [| discriminate].
  destruct (Store.doc_get rewardId (Store.rewards st)) as [reward |] eqn:Hrw;
    [| discriminate].
  destruct (negb (Js.truthy_bool (Reward.active reward))); [discriminate |].
  destruct (reward_expired now (Reward.expiresAt reward)); [discriminate |].
  destruct (reward_sold_out reward); [discriminate |].
  destruct (existingRedemption st userId rewardId) eqn:Hex; [| discriminate].
  destruct (Store.users st !! userId) as [userData |] eqn:Hu; [| discriminate].
  destruct (Z.ltb_spec (Js.or_num (User.xp userData) 0)
              (Js.or_num (Reward.xpRequired reward) 0)); [discriminate |].
  destruct (negb (is_Some_b (Reward.title reward))
            || negb (is_Some_b (Reward.sponsorId reward))); [discriminate |].
  intros [= <- <-].
  exists userId, qrCode, rewardId, reward, userData.
  repeat split; auto.
Qed.

(** A failed call of [redeemByQR] leaves the store as it was. *)
Lemma redeemByQR_failure_frame code_str now newId st req e :
  redeemByQR_try now newId st req = inl e ->
  is_thrown (fst (redeemByQR code_str now newId st req)) = true
  /\ snd (redeemByQR code_str now newId st req) = st.
Proof.
  intros Htry. unfold redeemByQR. rewrite Htry.
  destruct e as [c |]; simpl; [| split; reflexivity].
  destruct (String.prefix "functions/" (code_str c)); split; reflexivity.
Qed.

(** [redeemByQR] never writes [xpPoints]. *)
Lemma redeemByQR_xpPoints code_str now newId st req uid :
  User.xpPoints <$> Store.users (snd (redeemByQR code_str now newId st req)) !! uid
  = User.xpPoints <$> Store.users st !! uid.
Proof.
  destruct (redeemByQR_try now newId st req) as [e | [r st']] eqn:Htry.
  - destruct (redeemByQR_failure_frame code_str _ _ _ _ _ Htry) as [_ ->].
    reflexivity.
  - unfold redeemByQR. rewrite Htry. simpl.
    apply redeemByQR_try_success in Htry
      as (userId & qrCode & rewardId & reward & userData & _ & _ & _ & _
          & Hu & _ & _ & _ & Husers & _).
    rewrite Husers.
    destruct (decide (userId = uid)) as [-> | Hne].
    + rewrite lookup_insert_eq, Hu. reflexivity.
    + rewrite lookup_insert_ne by done. reflexivity.
Qed.

(** The reply of [redeemByQR] depends on the user documents only through
    their [xp] field. *)
Lemma redeemByQR_reply_ext now newId st1 st2 req :
  Store.rewards st1 = Store.rewards st2 ->
  Store.redemptions st1 = Store.redemptions st2 ->
  (forall uid, User.xp <$> Store.users st1 !! uid
               = User.xp <$> Store.users st2 !! uid) ->
  SpecTerms.reply_of (redeemByQR_try now newId st1 req)
  = SpecTerms.reply_of (redeemByQR_try now newId st2 req).
Proof.
  intros Hrw Hrd Hxp. unfold redeemByQR_try, existingRedemption, throw, ret.
  rewrite Hrw, Hrd.
  destruct (rq_auth req) as [userId |]; [| reflexivity].
  destruct (JsStr.blank (rq_qrCode req)); [reflexivity |].
  destruct (extractRewardId (default "" (rq_qrCode req))) as [rewardId |];
    [| reflexivity].
  destruct (Store.doc_get rewardId (Store.rewards st2)) as [reward |];
    [| reflexivity].
  destruct (negb (Js.truthy_bool (Reward.active reward))); [reflexivity |].
  destruct (reward_expired now (Reward.expiresAt reward)); [reflexivity |].
  destruct (reward_sold_out reward); [reflexivity |].
  destruct (firstn 1 _); [| reflexivity].
  specialize (Hxp userId).
  destruct (Store.users st1 !! userId) as [u1 |],
           (Store.users st2 !! userId) as [u2 |];
    simpl in Hxp; try discriminate; [| reflexivity].
  injection Hxp as Hxp. rewrite Hxp.
  destruct (Js.or_num (User.xp u2) 0 <? Js.or_num (Reward.xpRequired reward) 0);
    [reflexivity |].
  destruct (negb (is_Some_b (Reward.title reward))
            || negb (is_Some_b (Reward.sponsorId reward))); reflexivity.
Qed.

Lemma bump_counter_xp action userData u :
  User.xp (XpManagement.bump_counter action userData u) = User.xp u.
Proof.
  unfold XpManagement.bump_counter.
  destruct (String.eqb action "VISIT_SPOT"); [reflexivity |].
  destruct (String.eqb action "COMPLETE_CHALLENGE"); reflexivity.
Qed.

Lemma bump_counter_xpPoints action userData u :
  User.xpPoints (XpManagement.bump_counter action userData u)
  = User.xpPoints u.
Proof.
  unfold XpManagement.bump_counter.
  destruct (String.eqb action "VISIT_SPOT"); [reflexivity |].
  destruct (String.eqb action "COMPLETE_CHALLENGE"); reflexivity.
Qed.

(** What [awardUserXP] and [releaseSpotXP] read and write: they credit
    [xpPoints], and leave the [xp] field, the rewards and the redemptions
    as they are. *)
Lemma awardUserXP_frame now st userId action amount metadata r st' :
  XpManagement.awardUserXP now st userId action amount metadata
  = inr (r, st') ->
  (exists u u',
      Store.users st !! userId = Some u
      /\ Store.users st' !! userId = Some u'
      /\ User.xpPoints u' = Some (Js.or_num (User.xpPoints u) 0 + amount))
  /\ Store.rewards st' = Store.rewards st
  /\ Store.redemptions st' = Store.redemptions st
  /\ (forall uid, User.xp <$> Store.users st' !! uid
                  = User.xp <$> Store.users st !! uid).
Proof.
  unfold XpManagement.awardUserXP.
  destruct (Store.users st !! userId) as [u |] eqn:Hu; [| discriminate].
  intros [= <- <-]. simpl. repeat split.
  - eexists _, _. split; [reflexivity |].
    rewrite lookup_insert_eq. split; [reflexivity |].
    apply bump_counter_xpPoints.
  - intros uid. destruct (decide (userId = uid)) as [-> | Hne].
    + rewrite lookup_insert_eq, Hu. simpl. rewrite bump_counter_xp.
      reflexivity.
    + rewrite lookup_insert_ne by done. reflexivity.
Qed.

Lemma releaseSpotXP_frame now st userId spotId amount description r st' :
  XpManagement.releaseSpotXP now st userId spotId amount description
  = inr (r, st') ->
  (exists u u',
      Store.users st !! userId = Some u
      /\ Store.users st' !! userId = Some u'
      /\ User.xpPoints u' = Some (Js.or_num (User.xpPoints u) 0 + amount))
  /\ Store.rewards st' = Store.rewards st
  /\ Store.redemptions st' = Store.redemptions st
  /\ (forall uid, User.xp <$> Store.users st' !! uid
                  = User.xp <$> Store.users st !! uid).
Proof.
  unfold XpManagement.releaseSpotXP.
  destruct (Store.users st !! userId) as [u |] eqn:Hu; [| discriminate].
  intros [= <- <-]. simpl. repeat split.
  - eexists _, _. split; [reflexivity |].
    rewrite lookup_insert_eq. split; reflexivity.
  - intros uid. destruct (decide (userId = uid)) as [-> | Hne].
    + rewrite lookup_insert_eq, Hu. reflexivity.
    + rewrite lookup_insert_ne by done. reflexivity.
Qed.


Lemma existingRedemption_holds st userId rewardId :
  SpecTerms.holds_unused st userId rewardId ->
  existingRedemption st userId rewardId <> [].
Proof.
  intros (d & Hin & Hp & Hr & Hu). unfold existingRedemption.
  set (f := fun d : Redemption.doc => _ && _ && _).
  assert (Hd : In d (List.filter f (Store.redemptions st))).
  { apply List.filter_In. split; [exact Hin |]. subst f. simpl.
    rewrite Hp, Hr, Hu, !String.eqb_refl. reflexivity. }
  destruct (List.filter f (Store.redemptions st)); [destruct Hd |].
  discriminate.
Qed.




(** *** Sponsor-side validation *)

Example extractRedemptionId_forms :
  extractRedemptionId "mysteriSpots://redemption/red1" = Some "red1"
  /\ extractRedemptionId "u1/red1" = Some "red1"
  /\ extractRedemptionId "red1" = None.
Proof. repeat split. Qed.

Example validate_once :
  SpecTerms.reply_of
    (validateRedemption_try 2000 Sample.store_held Sample.validate_request)
  = inr (mkValidateReply "red1" (Some "Free coffee") "u1" 1000 10).
Proof. reflexivity. Qed.

(** The checks of [validateRedemption] see only the first 100 documents
    of the collection group. *)
Lemma validateRedemption_read_first_100 st req :
  validateRedemption_read
    (Store.set_redemptions (firstn 100 (Store.redemptions st)) st) req
  = validateRedemption_read st req.
Proof.
  unfold validateRedemption_read. simpl.
  rewrite firstn_firstn. reflexivity.
Qed.

(** A record that the checks let through is un-used in the snapshot. *)
Lemma validateRedemption_read_unused st req p :
  validateRedemption_read st req = inr p ->
  Redemption.used (pm_redemption p) = false.
Proof.
  unfold validateRedemption_read, throw, ret.
  repeat (case_match; try discriminate).
  intros [= <-]. simpl. assumption.
Qed.

(** A failed call of [validateRedemption] leaves the store as it was. *)
Lemma validateRedemption_failure_frame code_str now st req e :
  validateRedemption_try now st req = inl e ->
  validateRedemption code_str now st req
  = (rethrow_functions code_str (inl e), st).
Proof.
  intros Htry. unfold validateRedemption. rewrite Htry.
  destruct e as [c |]; simpl; [| reflexivity].
  destruct (String.prefix "functions/" (code_str c)); reflexivity.
Qed.

(** Run without interference, [validateRedemption] refuses a record that
    is already marked used: the [try] block throws already-exists, and
    nothing is written. *)
Lemma validateRedemption_used_refused
    now st sponsorUserId code redemptionId d sponsorId sponsorData :
  JsStr.blank (Some code) = false ->
  extractRedemptionId code = Some redemptionId ->
  List.find (fun d => String.eqb (Redemption.id d) redemptionId)
            (firstn 100 (Store.redemptions st)) = Some d ->
  Redemption.sponsorId (Redemption.data d) = Some sponsorId ->
  Store.sponsors st !! sponsorId = Some sponsorData ->
  sponsorOwnerId sponsorData = Some sponsorUserId ->
  Redemption.used (Redemption.data d) = true ->
  validateRedemption_try now st
    (mkValidateRequest (Some sponsorUserId) (Some code))
  = inl (HttpsError AlreadyExists).
Proof.
  intros Hblank Hid Hfind Hsp Hdoc Hown Hused.
  unfold validateRedemption_try, validateRedemption_read, throw.
  cbn [vq_auth vq_redemptionQRCode]. rewrite Hblank.
  cbn [from_option id]. rewrite Hid, Hfind, Hsp, Hdoc, Hown, Hused.
  rewrite bool_decide_eq_true_2 by reflexivity. reflexivity.
Qed.

(** The update of a redemption document rewrites the document at the
    given path and no other. *)
Lemma redemption_update_spec parent id f l l' :
  Store.redemption_update parent id f l = Some l' ->
  exists l1 d l2,
    l = (l1 ++ d :: l2)%list
    /\ Redemption.parent d = parent /\ Redemption.id d = id
    /\ l' = (l1 ++ Redemption.mkdoc parent id (f (Redemption.data d)) :: l2)%list.
Proof.
  revert l'. induction l as [| d l IH]; intros l'; simpl; [discriminate |].
  destruct (Store.same_path parent id d) eqn:Hsame.
  - intros [= <-]. unfold Store.same_path in Hsame.
    apply andb_true_iff in Hsame as [Hp Hi].
    apply String.eqb_eq in Hp, Hi.
    exists [], d, l. rewrite Hp, Hi. repeat split; auto.
  - destruct (Store.redemption_update parent id f l) as [l0 |] eqn:Hupd;
      [| discriminate].
    intros [= <-]. destruct (IH l0 eq_refl) as (l1 & d' & l2 & -> & Hp & Hi & ->).
    exists (d :: l1), d', l2. repeat split; auto.
Qed.

(** C4: two calls of [validateRedemption] for one un-used record, each of
    which has read the record before the other has written it.  Both pass
    the used check, and both updates are applied: the record is marked
    used at 1000 and again at 2000.  The check is not repeated with the
    write; had it been, the second call would have been refused. *)
Theorem validateRedemption_marks_used_twice :
  let st0 := Sample.store_held in
  let req := Sample.validate_request in
  exists p r1 st1 r2 st2,
    validateRedemption_read st0 req = inr p
    /\ validateRedemption_write 1000 p st0 = inr (r1, st1)
    /\ validateRedemption_write 2000 p st1 = inr (r2, st2)
    /\ map Redemption.data (Store.redemptions st1)
       = [mark_used 1000 "owner1" Sample.held]
    /\ map Redemption.data (Store.redemptions st2)
       = [mark_used 2000 "owner1" Sample.held]
    /\ length (Store.notifications st2) = 2%nat
    /\ validateRedemption_read st1 req = inl (HttpsError AlreadyExists).
Proof.
  intros st0 req. eexists _, _, _, _, _.
  split; [reflexivity |]. split; [reflexivity |]. split; [reflexivity |].
  repeat split.
Qed.

Example crowded_store_in_name_order :
  forallb (fun p => Store.path_leb (fst p) (snd p))
    (combine (Store.redemptions Sample.crowded_store)
             (tl (Store.redemptions Sample.crowded_store))) = true.
Proof. vm_compute. reflexivity. Qed.


(** *** Sponsor QR rotation *)

(** [validateQRCode] reads the rewards only. *)
Lemma validateQRCode_reads_rewards st1 st2 auth qrCode :
  Store.rewards st1 = Store.rewards st2 ->
  validateQRCode_try st1 auth qrCode = validateQRCode_try st2 auth qrCode.
Proof.
  intros H. unfold validateQRCode_try. rewrite H. reflexivity.
Qed.

(** [regenerateSponsorQR] writes the sponsor document only. *)
Lemma regenerateSponsorQR_rewards hmac num enc now secret nonce st auth :
  Store.rewards
    (snd (regenerateSponsorQR hmac num enc now secret nonce st auth))
  = Store.rewards st.
Proof.
  unfold regenerateSponsorQR, generateQRDataForSponsor, set_sponsor.
  destruct auth as [sponsorId |]; [| reflexivity].
  destruct (Store.sponsors st !! sponsorId); [| reflexivity].
  simpl. rewrite lookup_insert_eq. reflexivity.
Qed.

(** Whatever code is presented, rotating a sponsor's QR version changes
    nothing in the answer of [validateQRCode]. *)
Lemma validateQRCode_ignores_rotation
    hmac num enc now secret nonce st sponsorAuth auth qrCode :
  validateQRCode_try
    (snd (regenerateSponsorQR hmac num enc now secret nonce st sponsorAuth))
    auth qrCode
  = validateQRCode_try st auth qrCode.
Proof.
  apply validateQRCode_reads_rewards, regenerateSponsorQR_rewards.
Qed.


(** *** Spot verification *)

Import Verification.

Example levenshtein_kitten_sitting :
  levenshteinDistance "kitten" "sitting" = 3%nat
  /\ levenshteinDistance "sitting" "kitten" = 3%nat
  /\ levenshteinDistance "abc" "" = 3%nat.
Proof. repeat split. Qed.

Example similarity_close_titles :
  (calculateTextSimilarity "coffee shop" "coffee shot" == 10 # 11)%Q.
Proof. reflexivity. Qed.

(** The scenario of a first submission: the sub-scores are 80, 80, 80,
    100 and 70, the score is 83 and the spot is approved. *)
Example first_submission_is_approved :
  let r := performSpotVerification Sample.same_place id id Sample.no_spam
             Sample.first_reads Sample.first_spot in
  detailedScores r = mkScores 80 80 80 100 70
  /\ totalScore r = 83
  /\ resultFlags r = []
  /\ status r = AUTO_APPROVED.
Proof. vm_compute. repeat split. Qed.

Lemma clamp100_bounds x : 0 <= clamp100 x <= 100.
Proof. unfold clamp100, Js.clamp. lia. Qed.

Lemma clamp100_id x : 0 <= x <= 100 -> clamp100 x = x.
Proof. unfold clamp100, Js.clamp. lia. Qed.

(** [Math.round] of a count of hundredths. *)
Lemma round_hundredths (n : Z) :
  Js.round (inject_Z n / 100) = (n + 50) / 100.
Proof.
  unfold Js.round, Qfloor, Qplus, Qdiv, Qmult, Qinv, inject_Z.
  cbn [Qnum Qden].
  change (Z.pos (1 * 100 * 2)) with (100 * 2).
  change (1 * Z.pos (1 * 100)) with 100.
  replace (n * 1 * 2 + 100) with ((n + 50) * 2) by lia.
  apply Z.div_mul_cancel_r; lia.
Qed.

Section CheckBounds.

Variable getDistance : Q -> Q -> Q -> Q -> Q.
Variable toLowerCase : string -> string.
Variable trim : string -> string.
Variable regex_test : SpamPattern -> string -> bool.

Lemma checkLocationAccuracy_bounds recent spotData :
  0 <= score (checkLocationAccuracy getDistance recent spotData) <= 100.
Proof.
  unfold checkLocationAccuracy.
  destruct recent; simpl; apply clamp100_bounds.
Qed.

Lemma checkPhotoVerification_bounds duplicates spotData :
  0 <= score (checkPhotoVerification getDistance duplicates spotData) <= 100.
Proof.
  unfold checkPhotoVerification.
  destruct (negb _ && _); [simpl; lia |].
  destruct (Js.truthy_str _); [destruct duplicates as [[|] |] |];
    simpl; try lia; apply clamp100_bounds.
Qed.

Lemma checkDuplicateSpots_bounds nearby spotData :
  0 <= score (checkDuplicateSpots getDistance toLowerCase nearby spotData)
    <= 100.
Proof.
  unfold checkDuplicateSpots.
  destruct nearby; [| apply clamp100_bounds].
  destruct (d_thrown _); simpl; apply clamp100_bounds.
Qed.

Lemma checkUserTrust_bounds clock doc today :
  0 <= score (checkUserTrust clock doc today) <= 100.
Proof.
  unfold checkUserTrust.
  destruct doc as [[userData |] |]; [| simpl; lia | apply clamp100_bounds].
  destruct (Js.truthy_bool _); [simpl; lia |].
  destruct today; simpl; apply clamp100_bounds.
Qed.

Lemma checkContentQuality_bounds spotData :
  0 <= score (checkContentQuality toLowerCase trim regex_test spotData)
    <= 100.
Proof. unfold checkContentQuality. simpl. apply clamp100_bounds. Qed.

End CheckBounds.

(** C8: the overall score is the rounded weighted mean of the five
    sub-scores, [round((30 l + 20 p + 20 d + 20 t + 10 c) / 100)], every
    sub-score lies in [0, 100], and the status is FLAGGED as soon as any
    check raised a flag, else AUTO_APPROVED exactly from a score of 80 on,
    else PENDING. *)
Theorem verification_score_and_status
    (getDistance : Q -> Q -> Q -> Q -> Q) (toLowerCase trim : string -> string)
    (regex_test : SpamPattern -> string -> bool)
    (rd : Reads) (spotData : Spot.t) :
  let r := performSpotVerification getDistance toLowerCase trim regex_test
             rd spotData in
  let s := detailedScores r in
  let sum := locationAccuracy s * 30 + photoVerification s * 20
             + duplicateDetection s * 20 + userTrust s * 20
             + contentQuality s * 10 in
  totalScore r = Js.round (inject_Z sum / 100)
  /\ totalScore r = (sum + 50) / 100
  /\ 0 <= locationAccuracy s <= 100
  /\ 0 <= photoVerification s <= 100
  /\ 0 <= duplicateDetection s <= 100
  /\ 0 <= userTrust s <= 100
  /\ 0 <= contentQuality s <= 100
  /\ 0 <= totalScore r <= 100
  /\ status r
     = match resultFlags r with
       | _ :: _ => FLAGGED
       | [] => if 80 <=? totalScore r then AUTO_APPROVED else PENDING
       end.
Proof.
  intros r s sum.
  pose proof (checkLocationAccuracy_bounds getDistance
                (recentSubmissions rd) spotData) as Hl.
  pose proof (checkPhotoVerification_bounds getDistance
                (duplicateImages rd) spotData) as Hp.
  pose proof (checkDuplicateSpots_bounds getDistance toLowerCase
                (nearbySpots rd) spotData) as Hd.
  pose proof (checkUserTrust_bounds (now rd) (userDoc rd)
                (todaySubmissions rd)) as Ht.
  pose proof (checkContentQuality_bounds toLowerCase trim regex_test
                spotData) as Hc.
  assert (Hsum : totalScore r = Js.round (inject_Z sum / 100)) by reflexivity.
  assert (Hdiv : totalScore r = (sum + 50) / 100)
    by (rewrite Hsum; apply round_hundredths).
  assert (Hrange : 0 <= sum <= 10000).
  { subst sum s r. cbn [detailedScores performSpotVerification
      locationAccuracy photoVerification duplicateDetection userTrust
      contentQuality]. lia. }
  split; [exact Hsum |]. split; [exact Hdiv |].
  split; [exact Hl |]. split; [exact Hp |]. split; [exact Hd |].
  split; [exact Ht |]. split; [exact Hc |]. split.
  - rewrite Hdiv. split.
    + apply Z.div_pos; lia.
    + assert ((sum + 50) / 100 < 101)
        by (apply Z.div_lt_upper_bound; lia).
      lia.
  - subst r. unfold performSpotVerification.
    cbn [status resultFlags totalScore].
    destruct (_ ++ _)%list; [| reflexivity].
    unfold AUTO_APPROVE_THRESHOLD, MANUAL_REVIEW_THRESHOLD.
    destruct (80 <=? _); [reflexivity |]. destruct (_ <? 50); reflexivity.
Qed.




(** *** The trust record *)

Example trust_after_approval :
  (User.trustScore
     <$> updateUserTrustScore {["u1" := Sample.banned]} "u1" AUTO_APPROVED
         !! "u1")
  = Some (Some (Qmin 1 ((1 # 2) + (2 # 100)))).
Proof. reflexivity. Qed.

(** The fields that [updateUserTrustScore] writes. *)
Lemma updateUserTrustScore_lookup users userId u st :
  users !! userId = Some u ->
  exists u',
    updateUserTrustScore users userId st !! userId = Some u'
    /\ User.spotSubmissions u'
       = Some (Js.or_num (User.spotSubmissions u) 0 + 1)
    /\ User.spotRejectedCount u'
       = Some (Js.or_num (User.spotRejectedCount u) 0
               + match st with REJECTED => 1 | _ => 0 end)
    /\ User.trustScore u'
       = Some (let t := Js.or_frac (User.trustScore u) 1 in
               match st with
               | AUTO_APPROVED => Qmin 1 (t + (2 # 100))
               | REJECTED => Qmax 0 (t - (5 # 100))
               | _ => t
               end)
    /\ User.isShadowBanned u'
       = (if (5 <=? Js.or_num (User.spotSubmissions u) 0 + 1)
             && Qle_bool (7 # 10)
                  (inject_Z (Js.or_num (User.spotRejectedCount u) 0
                             + match st with REJECTED => 1 | _ => 0 end)
                   / inject_Z (Js.or_num (User.spotSubmissions u) 0 + 1))
          then Some true else User.isShadowBanned u).
Proof.
  intros Hu. unfold updateUserTrustScore. rewrite Hu.
  unfold SHADOW_BAN_REJECTION_THRESHOLD.
  destruct st; cbn beta iota zeta;
    rewrite lookup_insert_eq, ?Z.add_0_r;
    eexists; (split; [reflexivity |]);
    match goal with
    | |- context [if ?b then _ else _] => destruct b
    end; repeat split.
Qed.




(** ** Further properties *)

Import Invariant.

(** *** Text similarity *)

Lemma length_list_ascii_of_string s :
  List.length (list_ascii_of_string s) = String.length s.
Proof. induction s as [| c s IH]; simpl; congruence. Qed.

Lemma last_seq n : List.last (seq 0 (S n)) 0%nat = n.
Proof.
  rewrite seq_S. rewrite List.last_last. reflexivity.
Qed.

Lemma lev_rows_nil_l str2 i :
  lev_rows [] str2 i [i] = [(i + List.length str2)%nat].
Proof.
  revert i. induction str2 as [| c str2 IH]; intros i; simpl.
  - f_equal. lia.
  - rewrite IH. f_equal. lia.
Qed.

(** X1: against the empty string the edit distance is the length of the
    other string, on either side. *)
Theorem levenshteinDistance_empty (s : string) :
  levenshteinDistance s "" = String.length s
  /\ levenshteinDistance "" s = String.length s.
Proof.
  unfold levenshteinDistance. split.
  - simpl. rewrite length_list_ascii_of_string. apply last_seq.
  - simpl. rewrite lev_rows_nil_l. simpl.
    apply length_list_ascii_of_string.
Qed.

Lemma lev_row_ok c str1 :
  forall prev left i j,
    List.length prev = S (List.length str1) ->
    (forall k x, nth_error prev k = Some x -> (x <= Nat.max i (j + k))%nat) ->
    List.length (lev_row c str1 prev left) = List.length str1
    /\ forall k x,
         nth_error (lev_row c str1 prev left) k = Some x ->
         (x <= Nat.max (S i) (S j + k))%nat.
Proof.
  induction str1 as [| a str1 IH]; intros prev left i j Hlen Hprev.
  - split; [reflexivity |]. intros [| k] x; discriminate.
  - destruct prev as [| diag [| up rest]]; simpl in Hlen; try lia.
    simpl.
    set (cur := if Ascii.eqb c a then diag
                else Nat.min (Nat.min (diag + 1) (left + 1)) (up + 1)).
    assert (Hdiag : (diag <= Nat.max i j)%nat).
    { specialize (Hprev 0%nat diag eq_refl). rewrite Nat.add_0_r in Hprev.
      exact Hprev. }
    assert (Hcur : (cur <= Nat.max (S i) (S j))%nat).
    { subst cur. destruct (Ascii.eqb c a); lia. }
    destruct (IH (up :: rest) cur i (S j)) as [Hl Hk].
    + simpl. lia.
    + intros k x Hx. specialize (Hprev (S k) x Hx). lia.
    + split; [simpl; lia |].
      intros [| k] x Hx; simpl in Hx.
      * injection Hx as <-. rewrite Nat.add_0_r. exact Hcur.
      * specialize (Hk k x Hx). lia.
Qed.

Lemma lev_rows_ok str1 str2 :
  forall i prev,
    row_ok (List.length str1) i prev ->
    row_ok (List.length str1) (i + List.length str2)
      (lev_rows str1 str2 i prev).
Proof.
  induction str2 as [| c str2 IH]; intros i prev Hrow; simpl.
  - rewrite Nat.add_0_r. exact Hrow.
  - replace (i + S (List.length str2))%nat
      with (S i + List.length str2)%nat by lia.
    apply IH. destruct Hrow as [Hlen Hprev].
    destruct (lev_row_ok c str1 prev (S i) i 0%nat Hlen) as [Hl Hk].
    { intros k x Hx. simpl. apply Hprev. exact Hx. }
    split; [simpl; lia |].
    intros [| k] x Hx; simpl in Hx.
    + injection Hx as <-. lia.
    + specialize (Hk k x Hx). simpl in Hk. exact Hk.
Qed.

Lemma nth_error_last {A} (l : list A) (d : A) n :
  List.length l = S n -> nth_error l n = Some (List.last l d).
Proof.
  revert n. induction l as [| x l IH]; intros n Hlen; [discriminate |].
  destruct l as [| y l].
  - simpl in Hlen. injection Hlen as <-. reflexivity.
  - destruct n as [| n]; [simpl in Hlen; lia |].
    simpl in Hlen. change (nth_error (y :: l) n = Some (List.last (y :: l) d)).
    apply IH. simpl. lia.
Qed.

Lemma nth_error_seq_start n :
  forall s k x, nth_error (seq s n) k = Some x -> x = (s + k)%nat.
Proof.
  induction n as [| n IH]; intros s [| k] x; simpl; try discriminate.
  - intros [= <-]. lia.
  - intros Hx. apply IH in Hx. lia.
Qed.

(** The edit distance is at most the length of the longer string. *)
Lemma levenshteinDistance_le_max (str1 str2 : string) :
  (levenshteinDistance str1 str2
   <= Nat.max (String.length str1) (String.length str2))%nat.
Proof.
  unfold levenshteinDistance.
  set (l1 := list_ascii_of_string str1).
  set (l2 := list_ascii_of_string str2).
  assert (Hrow0 : row_ok (List.length l1) 0 (seq 0 (S (List.length l1)))).
  { split; [apply length_seq |].
    intros k x Hx. apply nth_error_seq_start in Hx. lia. }
  destruct (lev_rows_ok l1 l2 0 _ Hrow0) as [Hlen Hk].
  specialize (Hk (List.length l1) _ (nth_error_last _ 0%nat _ Hlen)).
  rewrite <- (length_list_ascii_of_string str1),
    <- (length_list_ascii_of_string str2). fold l1 l2. lia.
Qed.

(** X2: the similarity of two titles lies between 0 and 1. *)
Theorem calculateTextSimilarity_range (str1 str2 : string) :
  (0 <= calculateTextSimilarity str1 str2 <= 1)%Q.
Proof.
  unfold calculateTextSimilarity.
  destruct (String.eqb str1 str2); [split; discriminate |].
  destruct ((String.length str1 =? 0)%nat || (String.length str2 =? 0)%nat)
    eqn:Hempty; [split; discriminate |].
  apply orb_false_iff in Hempty as [H1 H2].
  apply Nat.eqb_neq in H1, H2.
  set (longer := if (String.length str2 <? String.length str1)%nat
                 then str1 else str2).
  set (shorter := if (String.length str2 <? String.length str1)%nat
                  then str2 else str1).
  pose proof (levenshteinDistance_le_max longer shorter) as Hed.
  assert (Hmax : Nat.max (String.length longer) (String.length shorter)
                 = String.length longer).
  { subst longer shorter.
    destruct (Nat.ltb_spec (String.length str2) (String.length str1)); lia. }
  rewrite Hmax in Hed.
  assert (Hpos : (0 < String.length longer)%nat).
  { subst longer.
    destruct (String.length str2 <? String.length str1)%nat; lia. }
  set (len := String.length longer) in *.
  set (ed := levenshteinDistance longer shorter) in *.
  assert (Hlq : (0 < inject_Z (Z.of_nat len))%Q).
  { rewrite <- (Zlt_Qlt 0). lia. }
  assert (Hsub : (inject_Z (Z.of_nat len) - inject_Z (Z.of_nat ed)
                  == inject_Z (Z.of_nat len - Z.of_nat ed))%Q).
  { unfold Qminus. rewrite <- inject_Z_opp, <- inject_Z_plus. reflexivity. }
  rewrite Hsub. split.
  - apply Qle_shift_div_l; [exact Hlq |]. rewrite Qmult_0_l.
    rewrite <- (Zle_Qle 0). lia.
  - apply Qle_shift_div_r; [exact Hlq |]. rewrite Qmult_1_l.
    rewrite <- Zle_Qle. lia.
Qed.

(** *** Hard stops and the ceiling of the score *)

Section HardStops.

Variable getDistance : Q -> Q -> Q -> Q -> Q.
Variable toLowerCase : string -> string.
Variable trim : string -> string.
Variable regex_test : SpamPattern -> string -> bool.

Let verify := performSpotVerification getDistance toLowerCase trim regex_test.

Lemma flagged_of_flag (rd : Reads) (spotData : Spot.t) :
  resultFlags (verify rd spotData) <> [] ->
  status (verify rd spotData) = FLAGGED.
Proof.
  unfold verify, performSpotVerification. cbn [resultFlags status].
  destruct (_ ++ _)%list; [congruence | reflexivity].
Qed.

Lemma duplicate_loop_le_80 spotData docs st :
  score (d_result st) <= 80 ->
  score (d_result (duplicate_loop getDistance toLowerCase spotData docs st))
  <= 80.
Proof.
  revert st. induction docs as [| [docId existingSpot] docs IH]; intros st Hst;
    simpl; [exact Hst |].
  repeat case_match; try apply IH; simpl; lia.
Qed.

Lemma checkDuplicateSpots_le_80 nearby spotData :
  score (checkDuplicateSpots getDistance toLowerCase nearby spotData) <= 80.
Proof.
  unfold checkDuplicateSpots.
  destruct nearby as [docs |]; [| vm_compute; discriminate].
  pose proof (duplicate_loop_le_80 spotData docs
                (mkDupState (mkCheckResult 80 [] []) 0 false)
                ltac:(simpl; lia)) as Hloop.
  destruct (d_thrown _); [vm_compute; discriminate |].
  destruct (d_found _ =? 0)%nat; simpl; unfold clamp100, Js.clamp; lia.
Qed.

Lemma checkContentQuality_le_70 spotData :
  score (checkContentQuality toLowerCase trim regex_test spotData) <= 70.
Proof.
  assert (Hif : forall (b : bool) (c1 c2 : CheckResult),
             score (if b then c1 else c2)
             = if b then score c1 else score c2)
    by (intros []; reflexivity).
  unfold checkContentQuality. cbv zeta. cbn [score].
  repeat (rewrite Hif; cbn [score]).
  unfold clamp100, Js.clamp.
  repeat match goal with
         | |- context [if ?b then _ else _] => destruct b
         end; lia.
Qed.

End HardStops.

(** X3: when a spot has a photo with an image hash and another spot
    carries the same hash, the photo sub-score is 0, the flag
    [duplicate_image] is raised and the spot is FLAGGED, whatever the
    other checks find. *)
Theorem duplicate_image_is_flagged
    (getDistance : Q -> Q -> Q -> Q -> Q) (toLowerCase trim : string -> string)
    (regex_test : SpamPattern -> string -> bool)
    (rd : Reads) (spotData : Spot.t) :
  Signals.has_photo spotData = true ->
  Signals.has_hash spotData = true ->
  duplicateImages rd = Some true ->
  let r := performSpotVerification getDistance toLowerCase trim regex_test
             rd spotData in
  photoVerification (detailedScores r) = 0
  /\ In "duplicate_image" (resultFlags r)
  /\ status r = FLAGGED.
Proof.
  intros Hphoto Hhash Hdup r.
  assert (Hcheck :
    checkPhotoVerification getDistance (duplicateImages rd) spotData
    = mkCheckResult 0 ["photo_provided"; "duplicate_image_detected"]
        ["duplicate_image"]).
  { unfold checkPhotoVerification, Signals.has_photo, Signals.has_hash in *.
    rewrite Hdup.
    destruct (Js.truthy_str (Spot.primaryImageUrl spotData));
      destruct (Spot.imageUrls spotData) as [[| url urls] |];
      simpl in Hphoto; try discriminate; simpl negb; cbn [andb];
      rewrite Hhash; reflexivity. }
  assert (Hflag : In "duplicate_image" (resultFlags r)).
  { subst r. unfold performSpotVerification. cbn [resultFlags].
    rewrite Hcheck. cbn [flags].
    apply in_or_app. right. apply in_or_app. left. left. reflexivity. }
  split; [| split; [exact Hflag |]].
  - subst r. unfold performSpotVerification.
    cbn [detailedScores photoVerification]. rewrite Hcheck. reflexivity.
  - apply flagged_of_flag. intros Hnil. fold r in Hnil.
    rewrite Hnil in Hflag. destruct Hflag.
Qed.

Lemma duplicate_image_is_flagged_witness :
  let r := performSpotVerification Sample.same_place id id Sample.no_spam
             Sample2.duplicate_reads Sample2.hashed_spot in
  photoVerification (detailedScores r) = 0 /\ status r = FLAGGED.
Proof.
  destruct (duplicate_image_is_flagged Sample.same_place id id Sample.no_spam
              Sample2.duplicate_reads Sample2.hashed_spot
              eq_refl eq_refl eq_refl) as (Hscore & _ & Hstatus).
  split; [exact Hscore | exact Hstatus].
Defined.

(** X4: a spot of a shadow-banned user gets the user-trust sub-score 0
    and the flag [shadow_banned_user], and is FLAGGED, whatever the other
    checks find. *)
Theorem shadow_banned_submitter_is_flagged
    (getDistance : Q -> Q -> Q -> Q -> Q) (toLowerCase trim : string -> string)
    (regex_test : SpamPattern -> string -> bool)
    (rd : Reads) (spotData : Spot.t) (userData : User.t) :
  userDoc rd = Some (Some userData) ->
  User.isShadowBanned userData = Some true ->
  let r := performSpotVerification getDistance toLowerCase trim regex_test
             rd spotData in
  userTrust (detailedScores r) = 0
  /\ In "shadow_banned_user" (resultFlags r)
  /\ status r = FLAGGED.
Proof.
  intros Hdoc Hban r.
  assert (Hcheck :
    checkUserTrust (now rd) (userDoc rd) (todaySubmissions rd)
    = mkCheckResult 0 ["shadow_banned_user"] ["shadow_banned_user"]).
  { unfold checkUserTrust. rewrite Hdoc, Hban. reflexivity. }
  assert (Hflag : In "shadow_banned_user" (resultFlags r)).
  { subst r. unfold performSpotVerification. cbn [resultFlags].
    rewrite Hcheck. cbn [flags].
    apply in_or_app. right. apply in_or_app. right.
    apply in_or_app. right. apply in_or_app. left. left. reflexivity. }
  split; [| split; [exact Hflag |]].
  - subst r. unfold performSpotVerification.
    cbn [detailedScores userTrust]. rewrite Hcheck. reflexivity.
  - apply flagged_of_flag. intros Hnil. fold r in Hnil.
    rewrite Hnil in Hflag. destruct Hflag.
Qed.

Lemma shadow_banned_submitter_is_flagged_witness :
  let r := performSpotVerification Sample.same_place id id Sample.no_spam
             Sample2.banned_reads Sample.first_spot in
  userTrust (detailedScores r) = 0 /\ status r = FLAGGED.
Proof.
  destruct (shadow_banned_submitter_is_flagged Sample.same_place id id
              Sample.no_spam Sample2.banned_reads Sample.first_spot
              Sample.banned eq_refl eq_refl) as (Hscore & _ & Hstatus).
  split; [exact Hscore | exact Hstatus].
Defined.


(** *** The creation trigger *)

Import VerificationTrigger.

(** The outcome of the scoring is never REJECTED nor APPROVED. *)
Lemma performSpotVerification_status
    (getDistance : Q -> Q -> Q -> Q -> Q) (toLowerCase trim : string -> string)
    (regex_test : SpamPattern -> string -> bool)
    (rd : Reads) (spotData : Spot.t) :
  let r := performSpotVerification getDistance toLowerCase trim regex_test
             rd spotData in
  status r = PENDING \/ status r = AUTO_APPROVED \/ status r = FLAGGED.
Proof.
  intros r. subst r. unfold performSpotVerification. cbn [status].
  destruct (_ ++ _)%list; [| auto].
  destruct (_ <=? _); [auto |]. destruct (_ <? _); auto.
Qed.



(** *** Levels and progress *)

Import XpProgress.

(** [calculateLevel] grows with the XP. *)
Lemma calculateLevel_mono (a b : Z) :
  a <= b -> XpManagement.calculateLevel a <= XpManagement.calculateLevel b.
Proof.
  intros Hab. unfold XpManagement.calculateLevel.
  destruct (Z.ltb_spec a 0), (Z.ltb_spec b 0); try lia.
  - pose proof (Z.sqrt_nonneg (b / 100)). lia.
  - assert (a / 100 <= b / 100) by (apply Z.div_le_mono; lia).
    pose proof (Z.sqrt_le_mono _ _ H1). lia.
Qed.

(** A level is the only one whose band contains the XP. *)
Lemma calculateLevel_unique (xp l : Z) :
  1 <= l -> 100 * (l - 1) * (l - 1) <= xp < 100 * l * l ->
  XpManagement.calculateLevel xp = l.
Proof.
  intros Hl Hband.
  assert (Hxp : 0 <= xp) by nia.
  pose proof (calculateLevel_sqrt_band xp Hxp) as Hb. cbv zeta in Hb.
  assert (H1 : 1 <= XpManagement.calculateLevel xp).
  { unfold XpManagement.calculateLevel.
    destruct (xp <? 0); [lia |].
    pose proof (Z.sqrt_nonneg (xp / 100)). lia. }
  set (k := XpManagement.calculateLevel xp) in *.
  destruct (Z.lt_trichotomy k l) as [Hlt | [Heq | Hgt]]; [| exact Heq |].
  - exfalso. assert (k <= l - 1) by lia. nia.
  - exfalso. assert (l <= k - 1) by lia. nia.
Qed.





(** *** Awards, adjustments and the approval trigger *)

Lemma bump_counter_level action userData u :
  User.level (XpManagement.bump_counter action userData u) = User.level u.
Proof.
  unfold XpManagement.bump_counter.
  destruct (String.eqb action "VISIT_SPOT"); [reflexivity |].
  destruct (String.eqb action "COMPLETE_CHALLENGE"); reflexivity.
Qed.

(** X9: the three writers of [xpPoints] in [xpManagement.js] store, with
    the new total, the level of that total: after a successful
    [releaseSpotXP], [awardUserXP] or [adjustUserXP] the cached level of
    the user is coherent with the stored [xpPoints]. *)
Theorem xp_writers_keep_level_coherent
    now st userId spotId amount description action metadata isAdmin req :
  match XpManagement.releaseSpotXP now st userId spotId amount description with
  | inr (_, st') => level_coherent st' userId
  | inl _ => True
  end
  /\ match XpManagement.awardUserXP now st userId action amount metadata with
     | inr (_, st') => level_coherent st' userId
     | inl _ => True
     end
  /\ match XpManagement.adjustUserXP now isAdmin st req with
     | (inr _, st') =>
         level_coherent st' (Js.or_str (XpManagement.ad_userId req) "")
     | (inl _, _) => True
     end.
Proof.
  split; [| split].
  - unfold XpManagement.releaseSpotXP.
    destruct (Store.users st !! userId) as [u |]; [| exact I].
    unfold ret, level_coherent. cbv beta iota zeta.
    cbn [Store.users Store.set_users Store.set_xpTransactions].
    eexists _, _. rewrite lookup_insert_eq. repeat split.
  - unfold XpManagement.awardUserXP.
    destruct (Store.users st !! userId) as [u |]; [| exact I].
    unfold ret, level_coherent. cbv beta iota zeta.
    cbn [Store.users Store.set_users Store.set_xpTransactions].
    eexists _, _. rewrite lookup_insert_eq.
    split; [reflexivity |].
    rewrite bump_counter_xpPoints, bump_counter_level. split; reflexivity.
  - unfold XpManagement.adjustUserXP.
    destruct (XpManagement.ad_auth req); [| exact I].
    destruct (negb isAdmin); [exact I |].
    destruct (_ || _); [exact I |].
    destruct (Store.users st !! _) as [u |]; [| exact I].
    unfold ret, level_coherent. cbv beta iota zeta.
    cbn [Store.users Store.set_users Store.set_xpTransactions].
    eexists _, _. rewrite lookup_insert_eq. repeat split.
Qed.

(** The duplicate check on a ledger that got one more entry. *)
Lemma checkForDuplicateAward_snoc st st' userId action r e :
  Store.xpTransactions st' = (Store.xpTransactions st ++ [e])%list ->
  XpManagement.checkForDuplicateAward st userId action r = None ->
  XpManagement.checkForDuplicateAward st' userId action r
  = if decide (Tx.userId e = userId /\ Tx.action e = action /\
               Tx.spotId e = Some r /\ Tx.type e = "AWARD")
    then Some (Tx.amount e) else None.
Proof.
  intros Htx. unfold XpManagement.checkForDuplicateAward.
  rewrite Htx, filter_app.
  destruct (filter _ (Store.xpTransactions st)) as [| t l]; [| discriminate].
  intros _. rewrite filter_cons, filter_nil. simpl.
  destruct (decide _); reflexivity.
Qed.



(** X11: the duplicate check compares the resource with the [spotId] of
    the ledger entries only.  An award that names a challenge and no spot
    is therefore not recognised when the request comes again: the second
    call credits the same amount once more. *)
Theorem awardXP_challenge_award_repeats
    now now' st st' req c x t l lu :
  Js.truthy_str (Metadata.spotId (XpManagement.aw_metadata req)) = false ->
  Metadata.challengeId (XpManagement.aw_metadata req) = Some c ->
  c <> "" ->
  XpManagement.awardXP now st req = (inr (XpManagement.Awarded x t l lu), st') ->
  exists l' lu' st'',
    XpManagement.awardXP now' st' req
    = (inr (XpManagement.Awarded x (t + x) l' lu'), st'')
    /\ length (Store.xpTransactions st'')
       = S (S (length (Store.xpTransactions st))).
Proof.
  intros Hspot Hch Hne. unfold XpManagement.awardXP.
  destruct (XpManagement.aw_auth req) as [userId |]; [| discriminate].
  destruct (_ || _); [discriminate |].
  destruct (_ <? _); [discriminate |].
  rewrite Hspot, Hch.
  assert (Htruthy : Js.truthy_str (Some c) = true).
  { simpl. destruct (String.eqb_spec c ""); [contradiction | reflexivity]. }
  rewrite Htruthy.
  destruct (XpManagement.checkForDuplicateAward st userId _ c)
    as [a |] eqn:Hdup; [discriminate |].
  destruct (XpManagement.awardUserXP now st userId _ _ _)
    as [e | [r st1]] eqn:Haward; [discriminate |].
  intros [= <- <- <- <- <-].
  unfold XpManagement.awardUserXP in Haward.
  destruct (Store.users st !! userId) as [u |]; [| discriminate].
  injection Haward as <- <-.
  match goal with
  | |- context [XpManagement.checkForDuplicateAward
                  (Store.set_xpTransactions (_ ++ [?e]) ?s0) _ _ _] =>
      rewrite (checkForDuplicateAward_snoc st
                 (Store.set_xpTransactions (Store.xpTransactions st ++ [e]) s0)
                 userId _ c e eq_refl Hdup)
  end.
  unfold XpManagement.award_entry at 1. cbn [Tx.userId Tx.action Tx.spotId
    Tx.type Tx.amount].
  destruct (decide _) as [(_ & _ & Hs & _) | _].
  { exfalso. unfold XpManagement.award_entry in Hs. cbn [Tx.spotId] in Hs.
    rewrite Hs in Hspot. rewrite Htruthy in Hspot. discriminate. }
  unfold XpManagement.awardUserXP. cbn [Store.users Store.set_users
    Store.set_xpTransactions]. rewrite lookup_insert_eq.
  cbn [XpManagement.newTotalXP XpManagement.newLevel XpManagement.leveledUp].
  rewrite bump_counter_xpPoints. cbn [User.xpPoints User.set_level
    User.set_xpPoints].
  set (x := Js.or_num (XpManagement.aw_amount req) 0).
  set (t := Js.or_num (User.xpPoints u) 0 + x).
  assert (Ht : Js.or_num (Some t) 0 = t).
  { simpl. destruct (Z.eqb_spec t 0); congruence. }
  rewrite Ht. eexists _, _, _. split; [reflexivity |].
  cbn [Store.xpTransactions Store.set_xpTransactions Store.set_users].
  rewrite !length_app. simpl. lia.
Qed.

Lemma awardXP_challenge_award_repeats_witness :
  exists l' lu' st'',
    XpManagement.awardXP 2
      (snd (XpManagement.awardXP 1 Sample.store_veteran
              Sample3.challenge_request))
      Sample3.challenge_request
    = (inr (XpManagement.Awarded 200 (700 + 200) l' lu'), st'')
    /\ length (Store.xpTransactions st'')
       = S (S (length (Store.xpTransactions Sample.store_veteran))).
Proof.
  apply (awardXP_challenge_award_repeats 1 2 Sample.store_veteran _
           Sample3.challenge_request "c1" 200 700 3 false);
    [reflexivity | reflexivity | discriminate |].
  vm_compute. reflexivity.
Defined.

Lemma MAX_XP_AMOUNTS_le_200 action :
  0 < Js.or_num (XpManagement.MAX_XP_AMOUNTS action) 100 <= 200.
Proof.
  unfold XpManagement.MAX_XP_AMOUNTS.
  repeat (destruct (String.eqb action _); [simpl; lia |]). simpl. lia.
Qed.


(** X13: [adjustUserXP] of [xpManagement.js] changes a balance only for
    an authenticated caller whom [checkAdminPermissions] accepts; the new
    balance is the old one plus the adjustment, floored at 0, and the
    ledger entry appended records the adjustment asked for and the
    administrator.  Every refused call leaves the store as it was, and a
    caller who is not an administrator is refused with
    permission-denied. *)
Theorem adjustUserXP_admin_only_and_floored now isAdmin st req :
  match XpManagement.adjustUserXP now isAdmin st req with
  | (inr r, st') =>
      isAdmin = true
      /\ (exists adminUid e,
             XpManagement.ad_auth req = Some adminUid
             /\ Store.xpTransactions st'
                = (Store.xpTransactions st ++ [e])%list
             /\ Tx.type e = "ADMIN"
             /\ Tx.adminId e = Some adminUid
             /\ Tx.amount e = Js.or_num (XpManagement.ad_adjustment req) 0)
      /\ XpManagement.ad_newXP r
         = Z.max 0 (XpManagement.ad_previousXP r
                    + Js.or_num (XpManagement.ad_adjustment req) 0)
      /\ 0 <= XpManagement.ad_newXP r
      /\ XpManagement.ad_newLevel r
         = XpManagement.calculateLevel (XpManagement.ad_newXP r)
  | (inl e, st') =>
      st' = st
      /\ (XpManagement.ad_auth req <> None -> isAdmin = false ->
          e = HttpsError PermissionDenied)
  end.
Proof.
  unfold XpManagement.adjustUserXP.
  destruct (XpManagement.ad_auth req) as [adminUid |].
  2: { split; [reflexivity | congruence]. }
  destruct isAdmin; simpl negb; cbv iota.
  2: { split; reflexivity. }
  destruct (_ || _).
  { split; [reflexivity | discriminate]. }
  destruct (Store.users st !! _) as [u |].
  2: { split; [reflexivity | discriminate]. }
  simpl. split; [reflexivity |]. split.
  - eexists _, _. repeat split.
  - repeat split. lia.
Qed.

Import SpotXp.

Lemma or_num_Some_sum (a b : Z) : Js.or_num (Some (a + b)) 0 = a + b.
Proof. simpl. destruct (Z.eqb_spec (a + b) 0); congruence. Qed.

(** The trigger on a change of status to an approving one, for a
    submitter whose user document exists. *)
Lemma handleSpotVerificationUpdate_approving
    now st spotId beforeData afterData u :
  verificationStatus beforeData <> verificationStatus afterData ->
  verificationStatus afterData = Some "AUTO_APPROVED"
  \/ verificationStatus afterData = Some "APPROVED" ->
  Store.users st !! createdBy afterData = Some u ->
  exists r st',
    XpManagement.releaseSpotXP now st (createdBy afterData) spotId
      (Js.or_num (xpReward afterData) 100)
      ("Spot approved: " ++ title_text afterData) = inr (r, st')
    /\ handleSpotVerificationUpdate now st spotId beforeData afterData
       = (st', set_xpReleased (Some true) afterData).
Proof.
  intros Hchg Happ Hu. unfold handleSpotVerificationUpdate.
  rewrite bool_decide_eq_false_2 by exact Hchg.
  assert (Hb : bool_decide (verificationStatus afterData = Some "AUTO_APPROVED")
               || bool_decide (verificationStatus afterData = Some "APPROVED")
               = true).
  { destruct Happ as [-> | ->]; reflexivity. }
  cbv zeta. rewrite Hb.
  unfold XpManagement.releaseSpotXP. rewrite Hu.
  eexists _, _. split; reflexivity.
Qed.

(** X14: every change of the verification status of a spot to
    AUTO_APPROVED or APPROVED releases the XP of the spot to its
    submitter: [xpPoints] grows by [xpReward || 100], the pending XP
    shrinks by as much (not below 0), one AWARD entry for the spot is
    appended to the ledger and the spot is marked [xpReleased].  The
    trigger does not read [xpReleased]: its effect on the store is the
    same whatever the flag was. *)
Theorem approval_releases_xp_whatever_the_flag
    now st spotId beforeData afterData u :
  verificationStatus beforeData <> verificationStatus afterData ->
  verificationStatus afterData = Some "AUTO_APPROVED"
  \/ verificationStatus afterData = Some "APPROVED" ->
  Store.users st !! createdBy afterData = Some u ->
  let amount := Js.or_num (xpReward afterData) 100 in
  let out := handleSpotVerificationUpdate now st spotId beforeData afterData in
  (exists u',
      Store.users (fst out) !! createdBy afterData = Some u'
      /\ User.xpPoints u' = Some (Js.or_num (User.xpPoints u) 0 + amount)
      /\ User.xpPending u'
         = Some (Z.max 0 (Js.or_num (User.xpPending u) 0 - amount)))
  /\ (exists e,
         Store.xpTransactions (fst out)
         = (Store.xpTransactions st ++ [e])%list
         /\ Tx.userId e = createdBy afterData
         /\ Tx.type e = "AWARD"
         /\ Tx.action e = "SPOT_APPROVED"
         /\ Tx.spotId e = Some spotId
         /\ Tx.amount e = amount)
  /\ snd out = set_xpReleased (Some true) afterData
  /\ (forall flag flag',
         fst (handleSpotVerificationUpdate now st spotId
                (set_xpReleased flag' beforeData)
                (set_xpReleased flag afterData))
         = fst out).
Proof.
  intros Hchg Happ Hu amount out.
  destruct (handleSpotVerificationUpdate_approving now st spotId beforeData
              afterData u Hchg Happ Hu) as (r & st' & Hrel & Hout).
  subst out. rewrite Hout. cbn [fst snd].
  assert (Hflag : forall flag flag',
             fst (handleSpotVerificationUpdate now st spotId
                    (set_xpReleased flag' beforeData)
                    (set_xpReleased flag afterData)) = st').
  { intros flag flag'.
    destruct (handleSpotVerificationUpdate_approving now st spotId
                (set_xpReleased flag' beforeData)
                (set_xpReleased flag afterData) u Hchg Happ Hu)
      as (r2 & st2 & Hrel2 & Hout2).
    rewrite Hout2. cbn [fst].
    change (XpManagement.releaseSpotXP now st (createdBy afterData) spotId
              (Js.or_num (xpReward afterData) 100)
              ("Spot approved: " ++ title_text afterData) = inr (r2, st2))
      in Hrel2.
    congruence. }
  unfold XpManagement.releaseSpotXP in Hrel. rewrite Hu in Hrel.
  injection Hrel as _ <-.
  cbn [Store.users Store.set_users Store.set_xpTransactions
       Store.xpTransactions].
  rewrite lookup_insert_eq.
  split; [eexists; repeat split |].
  split; [eexists; repeat split |].
  split; [reflexivity | exact Hflag].
Qed.

Lemma approval_releases_xp_whatever_the_flag_witness :
  exists u',
    Store.users
      (fst (handleSpotVerificationUpdate 5 Sample.store_veteran "s1"
              Sample3.pending_spot Sample3.approved_spot)) !! "u1" = Some u'
    /\ User.xpPoints u' = Some 620.
Proof.
  destruct (approval_releases_xp_whatever_the_flag 5 Sample.store_veteran
              "s1" Sample3.pending_spot Sample3.approved_spot Sample.veteran
              ltac:(discriminate) ltac:(left; reflexivity)
              ltac:(vm_compute; reflexivity))
    as ((u' & Hu' & Hxp & _) & _).
  exists u'. split; [exact Hu' | exact Hxp].
Defined.

(** X15: nothing in the trigger remembers a release.  When a spot that
    was approved automatically, and whose XP was released, is approved
    by hand afterwards, the XP is released a second time: the submitter
    ends with twice the reward and the ledger with two entries more. *)
Theorem second_approval_releases_xp_again now1 now2 st spotId d0 d1 u :
  verificationStatus d0 <> Some "AUTO_APPROVED" ->
  verificationStatus d1 = Some "AUTO_APPROVED" ->
  Store.users st !! createdBy d1 = Some u ->
  let amount := Js.or_num (xpReward d1) 100 in
  let out1 := handleSpotVerificationUpdate now1 st spotId d0 d1 in
  let d2 := set_verificationStatus (Some "APPROVED") (snd out1) in
  let out2 := handleSpotVerificationUpdate now2 (fst out1) spotId (snd out1) d2 in
  xpReleased (snd out1) = Some true
  /\ (exists u'',
         Store.users (fst out2) !! createdBy d1 = Some u''
         /\ User.xpPoints u''
            = Some (Js.or_num (User.xpPoints u) 0 + amount + amount))
  /\ length (Store.xpTransactions (fst out2))
     = S (S (length (Store.xpTransactions st))).
Proof.
  intros H0 H1 Hu. cbv zeta.
  assert (Hchg : verificationStatus d0 <> verificationStatus d1) by congruence.
  destruct (handleSpotVerificationUpdate_approving now1 st spotId d0 d1 u
              Hchg (or_introl H1) Hu) as (r1 & st1 & Hrel1 & Hout1).
  rewrite Hout1. cbn [fst snd].
  set (amount := Js.or_num (xpReward d1) 100).
  set (d2 := set_verificationStatus (Some "APPROVED")
               (set_xpReleased (Some true) d1)).
  split; [reflexivity |].
  unfold XpManagement.releaseSpotXP in Hrel1. rewrite Hu in Hrel1.
  injection Hrel1 as _ Hst1.
  assert (Hu1 : exists u1,
             Store.users st1 !! createdBy d2 = Some u1
             /\ User.xpPoints u1
                = Some (Js.or_num (User.xpPoints u) 0 + amount)).
  { subst st1 d2. cbn [createdBy set_verificationStatus set_xpReleased
                       Store.users Store.set_users Store.set_xpTransactions].
    rewrite lookup_insert_eq. eexists. split; reflexivity. }
  destruct Hu1 as (u1 & Hu1 & Hxp1).
  assert (Hchg2 : verificationStatus (set_xpReleased (Some true) d1)
                  <> verificationStatus d2).
  { subst d2. cbn [verificationStatus set_verificationStatus set_xpReleased].
    rewrite H1. discriminate. }
  destruct (handleSpotVerificationUpdate_approving now2 st1 spotId
              (set_xpReleased (Some true) d1) d2 u1 Hchg2
              (or_intror eq_refl) Hu1) as (r2 & st2 & Hrel2 & Hout2).
  rewrite Hout2. cbn [fst].
  unfold XpManagement.releaseSpotXP in Hrel2. rewrite Hu1 in Hrel2.
  injection Hrel2 as _ <-.
  cbn [Store.users Store.set_users Store.set_xpTransactions
       Store.xpTransactions].
  split.
  - exists (User.set_level
              (Some (XpManagement.calculateLevel
                       (Js.or_num (User.xpPoints u1) 0
                        + Js.or_num (xpReward d2) 100)))
              (User.set_xpPending
                 (Some (Z.max 0 (Js.or_num (User.xpPending u1) 0
                                 - Js.or_num (xpReward d2) 100)))
                 (User.set_xpPoints
                    (Some (Js.or_num (User.xpPoints u1) 0
                           + Js.or_num (xpReward d2) 100)) u1))).
    split.
    + change (createdBy d2) with (createdBy d1).
      apply lookup_insert_eq.
    + cbn [User.xpPoints User.set_level User.set_xpPending User.set_xpPoints].
      rewrite Hxp1, or_num_Some_sum. reflexivity.
  - rewrite <- Hst1. cbn [Store.xpTransactions Store.set_xpTransactions
                          Store.set_users].
    rewrite !length_app. simpl. lia.
Qed.

Lemma second_approval_releases_xp_again_witness :
  let out1 :=
    handleSpotVerificationUpdate 5 Sample.store_veteran "s1"
      Sample3.pending_spot Sample3.approved_spot in
  let out2 :=
    handleSpotVerificationUpdate 6 (fst out1) "s1" (snd out1)
      (set_verificationStatus (Some "APPROVED") (snd out1)) in
  exists u'',
    Store.users (fst out2) !! "u1" = Some u''
    /\ User.xpPoints u'' = Some 740.
Proof.
  destruct (second_approval_releases_xp_again 5 6 Sample.store_veteran "s1"
              Sample3.pending_spot Sample3.approved_spot Sample.veteran
              ltac:(discriminate) ltac:(reflexivity)
              ltac:(vm_compute; reflexivity))
    as (_ & (u'' & Hu'' & Hxp) & _).
  exists u''. split; [exact Hu'' | exact Hxp].
Defined.

(** X16: a change of the verification status to REJECTED only logs: no
    user document changes, one DENIAL entry with the negated reward is
    appended to the ledger, the spot is marked [xpDenied], and the entry
    is never taken for an award by the duplicate check. *)
Theorem rejection_logs_a_denial_only now st spotId beforeData afterData :
  verificationStatus beforeData <> verificationStatus afterData ->
  verificationStatus afterData = Some "REJECTED" ->
  let out := handleSpotVerificationUpdate now st spotId beforeData afterData in
  Store.users (fst out) = Store.users st
  /\ (exists e,
         Store.xpTransactions (fst out)
         = (Store.xpTransactions st ++ [e])%list
         /\ Tx.userId e = createdBy afterData
         /\ Tx.type e = "DENIAL"
         /\ Tx.spotId e = Some spotId
         /\ Tx.amount e = - Js.or_num (xpReward afterData) 100)
  /\ xpDenied (snd out) = Some true
  /\ xpReleased (snd out) = xpReleased afterData
  /\ (forall userId action r,
         XpManagement.checkForDuplicateAward (fst out) userId action r
         = XpManagement.checkForDuplicateAward st userId action r).
Proof.
  intros Hchg Hrej out. subst out. unfold handleSpotVerificationUpdate.
  rewrite bool_decide_eq_false_2 by exact Hchg.
  cbv zeta. rewrite Hrej.
  rewrite (bool_decide_eq_false_2 (Some "REJECTED" = Some "AUTO_APPROVED"))
    by discriminate.
  rewrite (bool_decide_eq_false_2 (Some "REJECTED" = Some "APPROVED"))
    by discriminate.
  rewrite (bool_decide_eq_true_2 (Some "REJECTED" = Some "REJECTED"))
    by reflexivity.
  cbn [orb fst snd]. unfold XpManagement.logXPDenial.
  cbn [Store.users Store.set_xpTransactions Store.xpTransactions
       xpDenied xpReleased set_denied].
  split; [reflexivity |].
  split; [eexists; repeat split |].
  split; [reflexivity |]. split; [reflexivity |].
  intros userId action r. unfold XpManagement.checkForDuplicateAward.
  cbn [Store.xpTransactions Store.set_xpTransactions].
  rewrite filter_app, filter_cons, filter_nil.
  destruct (decide _) as [(_ & _ & _ & Hty) | _]; [discriminate Hty |].
  rewrite app_nil_r. reflexivity.
Qed.

Lemma rejection_logs_a_denial_only_witness :
  Store.users
    (fst (handleSpotVerificationUpdate 5 Sample.store_veteran "s1"
            Sample3.pending_spot Sample3.rejected_spot))
  = Store.users Sample.store_veteran.
Proof.
  apply (rejection_logs_a_denial_only 5 Sample.store_veteran "s1"
           Sample3.pending_spot Sample3.rejected_spot);
    [discriminate | reflexivity].
Defined.

(** X17: the trigger does nothing when the status did not change, when
    the new status is none of AUTO_APPROVED, APPROVED and REJECTED, and
    when the approved spot names a submitter without a user document: in
    that case the exception of [releaseSpotXP] is caught, and the spot is
    not marked [xpReleased]. *)
Theorem trigger_without_effect now st spotId beforeData afterData :
  verificationStatus beforeData = verificationStatus afterData
  \/ (verificationStatus afterData <> Some "AUTO_APPROVED"
      /\ verificationStatus afterData <> Some "APPROVED"
      /\ verificationStatus afterData <> Some "REJECTED")
  \/ ((verificationStatus afterData = Some "AUTO_APPROVED"
       \/ verificationStatus afterData = Some "APPROVED")
      /\ Store.users st !! createdBy afterData = None) ->
  handleSpotVerificationUpdate now st spotId beforeData afterData
  = (st, afterData).
Proof.
  intros Hcase. unfold handleSpotVerificationUpdate.
  destruct (bool_decide _) eqn:Hsame; [reflexivity |].
  apply bool_decide_eq_false in Hsame.
  destruct Hcase as [Heq | [(Ha & Hb & Hc) | (Happ & Hu)]].
  - contradiction.
  - cbv zeta. rewrite !bool_decide_eq_false_2 by assumption. reflexivity.
  - cbv zeta.
    assert (Hb : bool_decide (verificationStatus afterData
                              = Some "AUTO_APPROVED")
                 || bool_decide (verificationStatus afterData
                                 = Some "APPROVED") = true).
    { destruct Happ as [-> | ->]; reflexivity. }
    rewrite Hb. unfold XpManagement.releaseSpotXP. rewrite Hu. reflexivity.
Qed.

Lemma trigger_without_effect_witness :
  handleSpotVerificationUpdate 5 Sample.store_veteran "s1"
    Sample3.approved_spot Sample3.approved_spot
  = (Sample.store_veteran, Sample3.approved_spot).
Proof.
  apply (trigger_without_effect 5 Sample.store_veteran "s1"
           Sample3.approved_spot Sample3.approved_spot).
  left. reflexivity.
Defined.

(** *** Codes of rewards and redemptions *)

Lemma strip_prefix_app (p s : string) :
  JsStr.strip_prefix p (p ++ s) = Some s.
Proof.
  induction p as [| a p IH]; simpl; [destruct s; reflexivity |].
  rewrite Ascii.eqb_refl. exact IH.
Qed.

Lemma take_id_chars_all (s : string) :
  JsStr.all_chars JsStr.is_id_char s = true -> JsStr.take_id_chars s = s.
Proof.
  induction s as [| c s IH]; simpl; [reflexivity |].
  intros H. apply andb_true_iff in H as [Hc Hs].
  rewrite Hc, (IH Hs). reflexivity.
Qed.

(** The pattern matches where the literal stands in front of an id. *)
Lemma match_literal_id_here (lit id : string) :
  id <> "" ->
  JsStr.all_chars JsStr.is_id_char id = true ->
  JsStr.match_literal_id lit (lit ++ id) = Some id.
Proof.
  intros Hne Hall.
  assert (Hunfold : forall s,
             JsStr.match_literal_id lit s
             = match
                 match JsStr.strip_prefix lit s with
                 | Some rest =>
                     if String.eqb (JsStr.take_id_chars rest) ""
                     then None else Some (JsStr.take_id_chars rest)
                 | None => None
                 end
               with
               | Some run => Some run
               | None =>
                   match s with
                   | EmptyString => None
                   | String _ s' => JsStr.match_literal_id lit s'
                   end
               end).
  { intros s. destruct s; reflexivity. }
  rewrite Hunfold, strip_prefix_app, (take_id_chars_all id Hall).
  destruct (String.eqb_spec id ""); [contradiction | reflexivity].
Qed.

Lemma truthy_str_Some (s : string) :
  s <> "" -> Js.truthy_str (Some s) = true.
Proof.
  intros Hne. simpl. destruct (String.eqb_spec s ""); [contradiction |].
  reflexivity.
Qed.

(** X18: the deep links are read back to the id they were built from.
    For every non-empty id made of letters, digits, [_] and [-], the
    redemption code ["mysteriSpots://redemption/" + id], which
    [redeemByQR] stores and returns, is decoded by [validateRedemption]
    to that id, and the reward link ["mysteriSpots://reward/" + id] is
    decoded by [redeemByQR] to that id. *)
Theorem deep_link_round_trip (id : string) :
  id <> "" ->
  JsStr.all_chars JsStr.is_id_char id = true ->
  extractRedemptionId ("mysteriSpots://redemption/" ++ id) = Some id
  /\ extractRewardId ("mysteriSpots://reward/" ++ id) = Some id.
Proof.
  intros Hne Hall. split.
  - unfold extractRedemptionId.
    rewrite (match_literal_id_here "mysteriSpots://redemption/" id Hne Hall).
    cbv zeta.
    repeat first [ rewrite (truthy_str_Some id Hne)
                 | rewrite andb_false_l
                 | progress simpl negb
                 | progress cbv iota ].
    reflexivity.
  - unfold extractRewardId.
    rewrite (match_literal_id_here "mysteriSpots://reward/" id Hne Hall).
    cbv zeta.
    repeat first [ rewrite (truthy_str_Some id Hne)
                 | rewrite andb_false_l
                 | progress simpl negb
                 | progress cbv iota ].
    reflexivity.
Qed.

Lemma deep_link_round_trip_witness :
  extractRedemptionId ("mysteriSpots://redemption/" ++ "Ab3_x-9")
  = Some "Ab3_x-9"
  /\ extractRewardId ("mysteriSpots://reward/" ++ "Ab3_x-9") = Some "Ab3_x-9".
Proof.
  apply (deep_link_round_trip "Ab3_x-9"); [discriminate | reflexivity].
Defined.

(** *** Redemption, from the user's side *)

Lemma redemption_create_In d l : In d (Store.redemption_create d l).
Proof.
  induction l as [| d' l IH]; simpl; [left; reflexivity |].
  destruct (Store.path_leb d d'); [left; reflexivity | right; exact IH].
Qed.

Lemma redemption_create_length d l :
  length (Store.redemption_create d l) = S (length l).
Proof.
  induction l as [| d' l IH]; simpl; [reflexivity |].
  destruct (Store.path_leb d d'); simpl; [reflexivity |].
  rewrite IH. reflexivity.
Qed.

Lemma existingRedemption_nil st userId rewardId :
  existingRedemption st userId rewardId = [] ->
  ~ SpecTerms.holds_unused st userId rewardId.
Proof.
  intros Hnil Hh. exact (existingRedemption_holds st userId rewardId Hh Hnil).
Qed.

Lemma doc_get_update {A} id (f : A -> A) (l : list (string * A)) v :
  Store.doc_get id l = Some v ->
  Store.doc_get id (Store.doc_update id f l) = Some (f v).
Proof.
  induction l as [| [k w] l IH]; simpl; [discriminate |].
  destruct (String.eqb k id) eqn:Hk; simpl; rewrite Hk.
  - intros [= ->]. reflexivity.
  - exact IH.
Qed.

(** X19: what a successful [redeemByQR] leaves behind.  The balance it
    debits does not go below 0; the user then holds an un-used redemption
    of the reward, which they did not before; the redemption counter of
    the reward has advanced by one and stays within a cap
    [maxRedemptions] that was set; and the same request, made again on
    the resulting store, is refused whatever the time and the id drawn. *)
Theorem redeemByQR_success_postconditions now newId st req r st' :
  redeemByQR_try now newId st req = inr (r, st') ->
  0 <= rp_newXP r
  /\ exists userId rewardId reward,
      rq_auth req = Some userId
      /\ Store.doc_get rewardId (Store.rewards st) = Some reward
      /\ ~ SpecTerms.holds_unused st userId rewardId
      /\ SpecTerms.holds_unused st' userId rewardId
      /\ length (Store.redemptions st') = S (length (Store.redemptions st))
      /\ Store.doc_get rewardId (Store.rewards st')
         = Some (Reward.set_currentRedemptions
                   (increment (Reward.currentRedemptions reward)) reward)
      /\ (forall m c,
             Reward.maxRedemptions reward = Some m -> m <> 0 ->
             Reward.currentRedemptions reward = Some c -> c + 1 <= m)
      /\ (forall now' newId',
             exists e, redeemByQR_try now' newId' st' req = inl e).
Proof.
  intros Hok.
  assert (Hinv := redeemByQR_try_success now newId st req r st' Hok).
  destruct Hinv as (userId & qrCode & rewardId & reward & userData & Hauth
                    & Hcode & Hid & Hrw & Hu & Hex & Hrest).
  cbv zeta in Hrest.
  destruct Hrest as (Hcost & Hr & Husers & Htx & Hred).
  assert (Hheld : SpecTerms.holds_unused st' userId rewardId).
  { eexists. rewrite Hred. split; [apply redemption_create_In |].
    repeat split. }
  split; [rewrite Hr; simpl; lia |].
  exists userId, rewardId, reward.
  split; [exact Hauth |]. split; [exact Hrw |].
  split; [apply existingRedemption_nil; exact Hex |].
  split; [exact Hheld |].
  split; [rewrite Hred; apply redemption_create_length |].
  (* the reward document and its cap *)
  assert (Hsold : reward_sold_out reward = false
                  /\ Store.rewards st'
                     = Store.doc_update rewardId
                         (fun r0 => Reward.set_currentRedemptions
                                      (increment (Reward.currentRedemptions r0))
                                      r0)
                         (Store.rewards st)).
  { revert Hok. unfold redeemByQR_try, throw, ret.
    rewrite Hauth, Hcode. destruct (JsStr.blank (Some qrCode)); [discriminate |].
    cbn [from_option id]. rewrite Hid, Hrw.
    destruct (negb (Js.truthy_bool (Reward.active reward))); [discriminate |].
    destruct (reward_expired now (Reward.expiresAt reward)); [discriminate |].
    destruct (reward_sold_out reward); [discriminate |].
    rewrite Hex, Hu.
    destruct (_ <? _); [discriminate |].
    destruct (_ || _); [discriminate |].
    intros [= _ <-]. split; reflexivity. }
  destruct Hsold as [Hsold Hrewards].
  split.
  { rewrite Hrewards.
    exact (doc_get_update rewardId
             (fun r0 => Reward.set_currentRedemptions
                          (increment (Reward.currentRedemptions r0)) r0)
             _ reward Hrw). }
  split.
  - intros m c Hm Hm0 Hc. unfold reward_sold_out in Hsold.
    rewrite Hm, Hc in Hsold. simpl in Hsold.
    destruct (Z.eqb_spec m 0); [contradiction |]. simpl in Hsold.
    apply Z.leb_gt in Hsold. lia.
  - intros now' newId'.
    destruct (redeemByQR_try now' newId' st' req) as [e | [r2 st2]] eqn:H2;
      [exists e; reflexivity | exfalso].
    destruct (redeemByQR_try_success now' newId' st' req r2 st2 H2)
      as (userId2 & qrCode2 & rewardId2 & reward2 & userData2 & Hauth2
          & Hcode2 & Hid2 & _ & _ & Hex2 & _).
    rewrite Hauth in Hauth2. injection Hauth2 as <-.
    rewrite Hcode in Hcode2. injection Hcode2 as <-.
    rewrite Hid in Hid2. injection Hid2 as <-.
    exact (existingRedemption_holds st' userId rewardId Hheld Hex2).
Qed.

Lemma redeemByQR_success_postconditions_witness :
  exists r st',
    redeemByQR_try 1000 "red1" Sample.store_open Sample.redeem_request
    = inr (r, st')
    /\ 0 <= rp_newXP r
    /\ exists e,
        redeemByQR_try 2000 "red2" st' Sample.redeem_request = inl e.
Proof.
  eexists _, _. split; [vm_compute; reflexivity |].
  destruct (redeemByQR_success_postconditions 1000 "red1" Sample.store_open
              Sample.redeem_request _ _ ltac:(vm_compute; reflexivity))
    as (Hxp & userId & rewardId & reward & _ & _ & _ & _ & _ & _ & _
        & Hagain).
  split; [exact Hxp | exact (Hagain 2000 "red2")].
Defined.

(** *** Redemption, from the sponsor's side *)

(** What the reads and checks of [validateRedemption] have established
    when they let a request through. *)
Lemma validateRedemption_read_success st req p :
  validateRedemption_read st req = inr p ->
  exists caller code d sponsorId sponsorData,
    req = mkValidateRequest (Some caller) (Some code)
    /\ JsStr.blank (Some code) = false
    /\ extractRedemptionId code = Some (pm_redemptionId p)
    /\ List.find (fun d => String.eqb (Redemption.id d) (pm_redemptionId p))
                 (firstn 100 (Store.redemptions st)) = Some d
    /\ Redemption.sponsorId (Redemption.data d) = Some sponsorId
    /\ Store.sponsors st !! sponsorId = Some sponsorData
    /\ sponsorOwnerId sponsorData = Some caller
    /\ Redemption.used (Redemption.data d) = false
    /\ p = mkPendingMark (pm_redemptionId p) caller (Redemption.data d).
Proof.
  unfold validateRedemption_read, throw, ret. destruct req as [auth code].
  cbn [vq_auth vq_redemptionQRCode].
  destruct auth as [caller |]; [| discriminate].
  destruct code as [code |]; [| discriminate].
  destruct (JsStr.blank (Some code)) eqn:Hblank; [discriminate |].
  cbn [from_option id].
  destruct (extractRedemptionId code) as [rid |] eqn:Hid; [| discriminate].
  destruct (List.find _ _) as [d |] eqn:Hfind; [| discriminate].
  destruct (Redemption.sponsorId (Redemption.data d)) as [sponsorId |] eqn:Hsp;
    [| discriminate].
  destruct (Store.sponsors st !! sponsorId) as [sponsorData |] eqn:Hdoc;
    [| discriminate].
  destruct (bool_decide (sponsorOwnerId sponsorData = Some caller)) eqn:Hown;
    [| discriminate].
  destruct (Redemption.used (Redemption.data d)) eqn:Hused; [discriminate |].
  intros [= <-]. cbn [pm_redemptionId negb].
  apply bool_decide_eq_true in Hown.
  exists caller, code, d, sponsorId, sponsorData. repeat split; auto.
Qed.

(** The update of the document that the query found first. *)
Lemma redemption_update_found rid f n :
  forall l d,
    List.find (fun d => String.eqb (Redemption.id d) rid) (firstn n l)
    = Some d ->
    exists l',
      Store.redemption_update (Redemption.parent d) rid f l = Some l'
      /\ List.find (fun d => String.eqb (Redemption.id d) rid) (firstn n l')
         = Some (Redemption.mkdoc (Redemption.parent d) (Redemption.id d)
                   (f (Redemption.data d)))
      /\ length l' = length l.
Proof.
  induction n as [| n IH]; intros l d; [discriminate |].
  destruct l as [| x l]; [discriminate |]. simpl.
  destruct (String.eqb (Redemption.id x) rid) eqn:Hx.
  - intros [= <-]. unfold Store.same_path.
    rewrite String.eqb_refl, Hx. simpl. eexists. split; [reflexivity |].
    simpl. rewrite Hx. split; reflexivity.
  - intros Hfind. destruct (IH l d Hfind) as (l' & Hupd & Hfind' & Hlen).
    unfold Store.same_path. rewrite Hx, andb_false_r. rewrite Hupd. simpl.
    eexists. split; [reflexivity |]. simpl. rewrite Hx.
    split; [exact Hfind' | rewrite Hlen; reflexivity].
Qed.



(** *** Sponsor QR codes *)

Section QrFacts.

Variable hmac_sha256_hex : string -> string -> string.
Variable num_str : Z -> string.
Variable base64_json : QrPayload -> string.

(** X21: what [regenerateSponsorQR] does to a sponsor document.  For a
    sponsor that has a secret, the rotation keeps the secret and the
    expiry setting and advances [qrVersion] by one; for a sponsor without
    a secret, the code generation that follows the increment installs
    the fresh secret and sets the version back to 1 and the expiry to 5
    minutes.  Either way the code issued carries the stored version and
    is signed with the stored secret over [v|sid|ts|nonce], the nonce is
    recorded, the owner fields stay, and no other sponsor document
    changes. *)
Theorem sponsor_qr_rotation now newSecret nonce st sponsorId sp :
  Store.sponsors st !! sponsorId = Some sp ->
  let out :=
    regenerateSponsorQR hmac_sha256_hex num_str base64_json now newSecret
      nonce st (Some sponsorId) in
  exists sp',
    Store.sponsors (snd out) = <[sponsorId := sp']> (Store.sponsors st)
    /\ (if Js.truthy_str (Sponsor.qrSecret sp)
        then Sponsor.qrSecret sp' = Sponsor.qrSecret sp
             /\ Sponsor.qrVersion sp' = increment (Sponsor.qrVersion sp)
             /\ Sponsor.qrExpiryMinutes sp' = Sponsor.qrExpiryMinutes sp
        else Sponsor.qrSecret sp' = Some newSecret
             /\ Sponsor.qrVersion sp' = Some 1
             /\ Sponsor.qrExpiryMinutes sp' = Some 5)
    /\ Sponsor.lastQrNonce sp' = Some nonce
    /\ Sponsor.ownerUserId sp' = Sponsor.ownerUserId sp
    /\ Sponsor.userId sp' = Sponsor.userId sp
    /\ fst out
       = inr (QrIssued
                (base64_json
                   (mkQrPayload (Js.or_num (Sponsor.qrVersion sp') 1)
                      sponsorId now nonce
                      (hmac_sha256_hex (default "" (Sponsor.qrSecret sp'))
                         (num_str (Js.or_num (Sponsor.qrVersion sp') 1)
                          ++ "|" ++ sponsorId ++ "|" ++ num_str now ++ "|"
                          ++ nonce))))
                (Js.or_num (Sponsor.qrExpiryMinutes sp') 5 * 60) now).
Proof.
  intros Hsp out. subst out. unfold regenerateSponsorQR. rewrite Hsp.
  unfold generateQRDataForSponsor, set_sponsor.
  cbn [Store.sponsors Store.set_sponsors]. rewrite lookup_insert_eq.
  cbn [Sponsor.qrSecret Sponsor.qrVersion Sponsor.qrExpiryMinutes
       Sponsor.lastQrNonce Sponsor.ownerUserId Sponsor.userId].
  destruct (Js.truthy_str (Sponsor.qrSecret sp)) eqn:Hsecret;
    cbn [negb fst snd Store.sponsors Store.set_sponsors
         Sponsor.qrSecret Sponsor.qrVersion Sponsor.qrExpiryMinutes
         Sponsor.lastQrNonce Sponsor.ownerUserId Sponsor.userId];
    rewrite insert_insert_eq;
    eexists; (split; [reflexivity |]);
    cbn [Sponsor.qrSecret Sponsor.qrVersion Sponsor.qrExpiryMinutes
         Sponsor.lastQrNonce Sponsor.ownerUserId Sponsor.userId];
    repeat split.
Qed.

End QrFacts.

Lemma sponsor_qr_rotation_witness :
  exists sp',
    Store.sponsors
      (snd (regenerateSponsorQR Sample.hmac Sample.num_str Sample.encode
              2000 "k2" "n2" Sample.store_sponsor (Some "sp1")))
    = <["sp1" := sp']> (Store.sponsors Sample.store_sponsor)
    /\ Sponsor.qrSecret sp' = Some "k1"
    /\ Sponsor.qrVersion sp' = Some 2.
Proof.
  destruct (sponsor_qr_rotation Sample.hmac Sample.num_str Sample.encode
              2000 "k2" "n2" Sample.store_sponsor "sp1" Sample.sponsor1
              ltac:(vm_compute; reflexivity))
    as (sp' & Hst & Hcase & _).
  exists sp'. split; [exact Hst |].
  destruct Hcase as (Hs & Hv & _). split; [exact Hs | exact Hv].
Defined.

Import QrSettings.

(** X22: [updateQRSettings] accepts exactly the expiries from 1 to 60
    minutes.  For an existing sponsor an accepted setting is what the
    next code of a sponsor with a secret expires after, in seconds (60
    to 3600); for a sponsor without a secret the first code generation
    overwrites the setting with 5 minutes.  A refused setting changes
    nothing. *)
Theorem qr_expiry_setting
    (hmac_sha256_hex : string -> string -> string) (num_str : Z -> string)
    (base64_json : QrPayload -> string)
    now newSecret nonce st sponsorId sp mins :
  Store.sponsors st !! sponsorId = Some sp ->
  let out := updateQRSettings st (Some sponsorId) (Some mins) in
  if (1 <=? mins) && (mins <=? 60)
  then
    fst out = inr SettingsOk
    /\ exists qrData,
        fst (generateSponsorQR hmac_sha256_hex num_str base64_json now
               newSecret nonce (snd out) (Some sponsorId))
        = inr (QrIssued qrData
                 (if Js.truthy_str (Sponsor.qrSecret sp)
                  then mins * 60 else 300)
                 now)
  else
    fst out = inr (SettingsRejected "Expiry must be between 1 and 60 minutes")
    /\ snd out = st.
Proof.
  intros Hsp out. subst out. unfold updateQRSettings.
  cbn [Js.truthy_num Js.or_num].
  destruct (Z.leb_spec 1 mins) as [Hlo | Hlo];
    destruct (Z.leb_spec mins 60) as [Hhi | Hhi]; cbn [andb].
  - destruct (Z.eqb_spec mins 0) as [-> | _]; [lia |]. cbn [negb orb].
    destruct (Z.ltb_spec mins 1); [lia |].
    destruct (Z.ltb_spec 60 mins); [lia |]. cbn [orb].
    rewrite Hsp. cbn [fst snd]. split; [reflexivity |].
    unfold generateSponsorQR, generateQRDataForSponsor, set_sponsor.
    cbn [Store.sponsors Store.set_sponsors]. rewrite lookup_insert_eq.
    cbn [Sponsor.qrSecret Sponsor.qrVersion Sponsor.qrExpiryMinutes].
    destruct (Js.truthy_str (Sponsor.qrSecret sp));
      cbn [negb fst Sponsor.qrSecret Sponsor.qrVersion
           Sponsor.qrExpiryMinutes Js.or_num].
    + destruct (Z.eqb_spec mins 0); [lia |]. eexists. reflexivity.
    + eexists. reflexivity.
  - destruct (Z.eqb_spec mins 0) as [-> | _]; [lia |]. cbn [negb orb].
    destruct (Z.ltb_spec mins 1); [lia |].
    destruct (Z.ltb_spec 60 mins); [| lia]. cbn [orb]. split; reflexivity.
  - destruct (Z.eqb_spec mins 0) as [-> | _]; cbn [negb orb];
      [split; reflexivity |].
    destruct (Z.ltb_spec mins 1); [| lia]. cbn [orb]. split; reflexivity.
  - lia.
Qed.

Lemma qr_expiry_setting_witness :
  exists qrData,
    fst (generateSponsorQR Sample.hmac Sample.num_str Sample.encode 2000
           "k2" "n2"
           (snd (updateQRSettings Sample.store_sponsor (Some "sp1") (Some 15)))
           (Some "sp1"))
    = inr (QrIssued qrData 900 2000).
Proof.
  exact (proj2 (qr_expiry_setting Sample.hmac Sample.num_str Sample.encode
                  2000 "k2" "n2" Sample.store_sponsor "sp1" Sample.sponsor1
                  15 ltac:(vm_compute; reflexivity))).
Defined.

(** *** Administrative XP writers of the bundle *)

(** X23: [adminGrantXP] grants for every authenticated caller: its
    outcome does not depend on who calls, and no administrator check is
    made.  A successful grant writes the same new total, the current
    balance plus a positive amount, to both [xpPoints] and [xp], and
    leaves the stored level as it was; a refused one changes nothing. *)
Theorem adminGrantXP_any_caller_stale_level
    (code_str : ErrorCode -> string) st req caller other :
  gr_auth req = Some caller ->
  adminGrantXP code_str st
    (mkGrantRequest (Some other) (gr_userId req) (gr_xpAmount req)
       (gr_reason req))
  = adminGrantXP code_str st req
  /\ match adminGrantXP code_str st req with
     | (inr r, st') =>
         exists userId u u',
           gr_userId req = Some userId
           /\ Store.users st !! userId = Some u
           /\ Store.users st' = <[userId := u']> (Store.users st)
           /\ 0 < gr_xpGranted r
           /\ gr_newXP r = current_xp u + gr_xpGranted r
           /\ User.xpPoints u' = Some (gr_newXP r)
           /\ User.xp u' = Some (gr_newXP r)
           /\ User.level u' = User.level u
     | (inl _, st') => st' = st
     end.
Proof.
  intros Hauth. split.
  - unfold adminGrantXP, adminGrantXP_try.
    cbn [gr_auth gr_userId gr_xpAmount gr_reason]. rewrite Hauth. reflexivity.
  - unfold adminGrantXP, adminGrantXP_try, throw, ret. rewrite Hauth.
    cbn [is_Some_b negb].
    destruct (gr_userId req) as [userId |]; cbn [Js.truthy_str negb orb];
      [| unfold rethrow_coded; destruct (Js.truthy_str (Some (code_str _)));
      exact eq_refl].
    destruct (String.eqb_spec userId "") as [-> | Hne]; cbn [negb orb].
    { unfold rethrow_coded. destruct (Js.truthy_str (Some (code_str _)));
      exact eq_refl. }
    destruct (negb (Js.truthy_num (gr_xpAmount req))
              || negb (Js.truthy_str (gr_reason req))) eqn:Hargs.
    { unfold rethrow_coded. destruct (Js.truthy_str (Some (code_str _)));
      exact eq_refl. }
    destruct (Z.leb_spec (Js.or_num (gr_xpAmount req) 0) 0) as [Hle | Hpos].
    { unfold rethrow_coded. destruct (Js.truthy_str (Some (code_str _)));
      exact eq_refl. }
    assert (Hid : Js.or_str (Some userId) "" = userId).
    { simpl. destruct (String.eqb_spec userId ""); [contradiction |].
      reflexivity. }
    rewrite Hid.
    destruct (Store.users st !! userId) as [u |] eqn:Hu.
    2: { unfold rethrow_coded. destruct (Js.truthy_str (Some (code_str _)));
      exact eq_refl. }
    cbn [rethrow_coded finish gr_xpGranted gr_newXP].
    exists userId, u. eexists. repeat split; [exact Hu | exact Hpos].
Qed.

Lemma adminGrantXP_any_caller_stale_level_witness :
  adminGrantXP (fun _ => "invalid-argument") Sample.store_newcomer
    (mkGrantRequest (Some "someone") (gr_userId Sample.grant_request)
       (gr_xpAmount Sample.grant_request) (gr_reason Sample.grant_request))
  = adminGrantXP (fun _ => "invalid-argument") Sample.store_newcomer
      Sample.grant_request.
Proof.
  destruct Sample.grant_request as [auth uid amount reason] eqn:Hreq.
  destruct auth as [caller |]; [| discriminate Hreq].
  rewrite <- Hreq.
  exact (proj1 (adminGrantXP_any_caller_stale_level
                  (fun _ => "invalid-argument") Sample.store_newcomer
                  Sample.grant_request caller "someone"
                  ltac:(rewrite Hreq; reflexivity))).
Defined.

(** X24: [adjustUserXP] of the bundle changes a balance only for a caller
    whom [checkIsAdmin] accepts.  It writes the same new total, the
    current balance plus the adjustment floored at 0, to [xpPoints] and
    [xp], stores the level [floor(total / 500) + 1], and appends one
    ledger entry with the adjustment asked for, the administrator and the
    type given (ADJUSTMENT by default); a refused call changes nothing. *)
Theorem bundle_adjustUserXP_effects
    (code_str : ErrorCode -> string) now isAdmin st req :
  match Functions.adjustUserXP code_str now isAdmin st req with
  | (inr r, st') =>
      isAdmin = true
      /\ exists adminUid userId u u' e,
          aj_auth req = Some adminUid
          /\ aj_userId req = Some userId
          /\ Store.users st !! userId = Some u
          /\ Store.users st' = <[userId := u']> (Store.users st)
          /\ aj_newXP r = Z.max 0 (current_xp u + aj_adjustment r)
          /\ aj_xpAmount req = Some (aj_adjustment r)
          /\ User.xpPoints u' = Some (aj_newXP r)
          /\ User.xp u' = Some (aj_newXP r)
          /\ User.level u' = Some (aj_newXP r / 500 + 1)
          /\ Store.xpTransactions st'
             = (Store.xpTransactions st ++ [e])%list
          /\ Tx.userId e = userId
          /\ Tx.amount e = aj_adjustment r
          /\ Tx.adminId e = Some adminUid
          /\ Tx.type e = default "ADJUSTMENT" (aj_type req)
  | (inl _, st') => st' = st
  end.
Proof.
  unfold Functions.adjustUserXP, throw, ret.
  destruct (aj_auth req) as [adminUid |]; [| exact eq_refl].
  destruct (aj_xpAmount req) as [xpAmount |]; [| exact eq_refl].
  destruct (aj_userId req) as [userId |]; cbn [Js.truthy_str negb orb];
    [| exact eq_refl].
  destruct (String.eqb_spec userId "") as [-> | Hne]; cbn [negb orb];
    [exact eq_refl |].
  destruct (negb (Js.truthy_str (aj_reason req))); [exact eq_refl |].
  assert (Hid : Js.or_str (Some userId) "" = userId).
  { simpl. destruct (String.eqb_spec userId ""); [contradiction |].
    reflexivity. }
  rewrite Hid. unfold adjustUserXP_try, throw, ret.
  destruct isAdmin; cbn [negb].
  2: { unfold rethrow_coded. destruct (Js.truthy_str (Some (code_str _)));
      exact eq_refl. }
  destruct (Store.users st !! userId) as [u |] eqn:Hu.
  2: { unfold rethrow_coded. destruct (Js.truthy_str (Some (code_str _)));
      exact eq_refl. }
  cbn [rethrow_coded finish aj_newXP aj_adjustment].
  split; [reflexivity |].
  exists adminUid, userId, u. eexists _, _.
  repeat split; exact Hu.
Qed.

(** *** Spot reports *)

Import Reports.

Lemma or_str_Some_truthy (x : option string) :
  Js.truthy_str x = true -> x = Some (Js.or_str x "").
Proof.
  destruct x as [s |]; simpl; [| discriminate].
  destruct (String.eqb s ""); [discriminate | reflexivity].
Qed.

(** The spots, and the reports, that [checkSpotForAutoFlag] leaves. *)
Lemma checkSpotForAutoFlag_reports clock st spot :
  reports (checkSpotForAutoFlag clock st spot) = reports st.
Proof.
  unfold checkSpotForAutoFlag, flagSpotForReview. cbv zeta.
  destruct (_ || _); [| reflexivity].
  destruct (spots st !! spot); reflexivity.
Qed.

(** What a successful [try] block of [reportSpot] has done. *)
Lemma reportSpot_try_success now clock newId st userId spot rsn descr id st' :
  reportSpot_try now clock newId st userId spot rsn descr = inr (id, st') ->
  exists spotData,
    List.filter (fun d : string * Report =>
                   String.eqb (spotId (snd d)) spot
                   && String.eqb (reportedBy (snd d)) userId)
                (reports st) = []
    /\ spots st !! spot = Some spotData
    /\ createdBy spotData <> userId
    /\ id = newId
    /\ st' = checkSpotForAutoFlag clock
               (mkState
                  (reports st
                   ++ [(newId,
                        mkReport spot userId rsn
                          (String.substring 0 500 descr) now "PENDING")])
                  (spots st) (adminNotifications st))
               spot.
Proof.
  unfold reportSpot_try, throw, ret.
  destruct (List.filter _ (reports st)) eqn:Hex; [| discriminate].
  destruct (spots st !! spot) as [spotData |] eqn:Hspot; [| discriminate].
  destruct (String.eqb_spec (createdBy spotData) userId); [discriminate |].
  intros [= <- <-]. exists spotData. repeat split; auto.
Qed.

(** X25: [reportSpot] keeps at most one report per user and spot.  In a
    state where no user has two reports on one spot, a successful call
    has been made with one of the six valid reasons, on an existing spot
    that the caller did not create, and appends exactly one PENDING
    report of the caller (its description cut to 500 characters) after
    which still no user has two reports on one spot; a refused call
    changes nothing. *)
Theorem reportSpot_one_report_per_user
    (code_str : ErrorCode -> string) now clock newId st auth spot rsn descr :
  one_report_per_user st ->
  match reportSpot code_str now clock newId st auth spot rsn descr with
  | (inr id, st') =>
      one_report_per_user st'
      /\ exists userId sid r spotData,
          auth = Some userId /\ spot = Some sid /\ rsn = Some r
          /\ In r validReasons
          /\ spots st !! sid = Some spotData
          /\ createdBy spotData <> userId
          /\ reports st'
             = (reports st
                ++ [(newId,
                     mkReport sid userId r
                       (String.substring 0 500 (default "" descr)) now
                       "PENDING")])%list
  | (inl _, st') => st' = st
  end.
Proof.
  intros Hinv. unfold reportSpot.
  destruct auth as [userId |]; [| exact eq_refl].
  destruct (negb (Js.truthy_str spot) || negb (Js.truthy_str rsn)) eqn:Hargs;
    [exact eq_refl |].
  apply orb_false_iff in Hargs as [Hs Hr].
  apply negb_false_iff in Hs, Hr.
  destruct (existsb _ validReasons) eqn:Hvalid; cbn [negb];
    [| exact eq_refl].
  destruct (reportSpot_try now clock newId st userId _ _ _)
    as [e | [id st']] eqn:Htry.
  { unfold Functions.rethrow_functions. destruct e as [c |];
      [destruct (String.prefix _ _) |]; exact eq_refl. }
  cbn [Functions.rethrow_functions].
  destruct (reportSpot_try_success _ _ _ _ _ _ _ _ _ _ Htry)
    as (spotData & Hex & Hspot & Hown & -> & ->).
  split.
  - unfold one_report_per_user. rewrite checkSpotForAutoFlag_reports.
    cbn [reports]. rewrite map_app. cbn [map snd spotId reportedBy].
    apply NoDup_app. split; [exact Hinv |]. split.
    + intros p Hp Hnew. apply list_elem_of_singleton in Hnew. subst p.
      apply list_elem_of_In, in_map_iff in Hp as ([rid d] & Heq & Hin).
      cbn [snd] in Heq. injection Heq as Hsid Hby.
      assert (Hd : In (rid, d)
                     (List.filter (fun d : string * Report =>
                               String.eqb (spotId (snd d)) (Js.or_str spot "")
                               && String.eqb (reportedBy (snd d)) userId)
                        (reports st))).
      { apply List.filter_In. split; [exact Hin |]. cbn [snd].
        rewrite Hsid, Hby, !String.eqb_refl. reflexivity. }
      rewrite Hex in Hd. destruct Hd.
    + apply NoDup_singleton.
  - exists userId, (Js.or_str spot ""), (Js.or_str rsn ""), spotData.
    split; [reflexivity |].
    split; [apply or_str_Some_truthy; exact Hs |].
    split; [apply or_str_Some_truthy; exact Hr |].
    split.
    { apply existsb_exists in Hvalid as (x & Hin & Heq).
      apply String.eqb_eq in Heq. rewrite Heq. exact Hin. }
    split; [exact Hspot |]. split; [exact Hown |].
    rewrite checkSpotForAutoFlag_reports. reflexivity.
Qed.

Lemma reportSpot_one_report_per_user_witness :
  one_report_per_user
    (snd (reportSpot (fun _ => "") 2000 2000 "rep2" Sample4.reported_state
            (Some "u3") (Some "s1") (Some "FAKE") None)).
Proof.
  assert (Hinv : one_report_per_user Sample4.reported_state).
  { unfold one_report_per_user. simpl. apply NoDup_singleton. }
  pose proof (reportSpot_one_report_per_user (fun _ => "") 2000 2000 "rep2"
                Sample4.reported_state (Some "u3") (Some "s1") (Some "FAKE")
                None Hinv) as H.
  destruct (reportSpot (fun _ => "") 2000 2000 "rep2" Sample4.reported_state
              (Some "u3") (Some "s1") (Some "FAKE") None) as [[e | id] st'];
    cbn [snd].
  - rewrite H. exact Hinv.
  - exact (proj1 H).
Defined.

(** The count that the loop of [checkForConsensusReports] holds for a
    reason. *)
Lemma reasonCounts_lookup_gen (docs : list Report) (m : gmap string nat) r :
  foldl (fun (m : gmap string nat) d =>
           <[reason d := (default 0%nat (m !! reason d) + 1)%nat]> m)
        m docs !! r
  = match length (List.filter (fun d => String.eqb (reason d) r) docs) with
    | O => m !! r
    | S n => Some (default 0%nat (m !! r) + S n)%nat
    end.
Proof.
  revert m. induction docs as [| d docs IH]; intros m; [reflexivity |].
  cbn [foldl List.filter]. rewrite IH.
  destruct (String.eqb_spec (reason d) r) as [-> | Hne].
  - cbn [length]. rewrite lookup_insert_eq. cbn [from_option id].
    destruct (length _); f_equal; lia.
  - rewrite lookup_insert_ne by exact Hne. reflexivity.
Qed.

Lemma checkForConsensusReports_two (docs : list Report) r :
  (2 <= length (List.filter (fun d => String.eqb (reason d) r) docs))%nat ->
  checkForConsensusReports docs = true.
Proof.
  intros Htwo. unfold checkForConsensusReports.
  assert (Hlen : (2 <= length docs)%nat).
  { pose proof (List.filter_length_le
                  (fun d => String.eqb (reason d) r) docs). lia. }
  destruct (Nat.ltb_spec (length docs) 2); [lia |].
  apply existsb_exists.
  pose proof (reasonCounts_lookup_gen docs ∅ r) as Hc.
  destruct (length (List.filter _ docs)) as [| n] eqn:Hn; [lia |].
  rewrite lookup_empty in Hc. cbn [from_option id] in Hc.
  exists (S n). split; [| apply Nat.leb_le; lia].
  apply in_map_iff. exists (r, S n). split; [reflexivity |].
  apply list_elem_of_In, elem_of_map_to_list. exact Hc.
Qed.

Lemma filter_none {A} (f : A -> bool) (l : list A) :
  (forall x, In x l -> f x = false) -> List.filter f l = [].
Proof.
  induction l as [| x l IH]; intros Hf; [reflexivity |]. simpl.
  rewrite (Hf x (or_introl eq_refl)). apply IH.
  intros y Hy. apply Hf. right. exact Hy.
Qed.

(** X26: consensus flagging.  When a report is accepted whose reason
    repeats the reason of an earlier report on the same spot, the spot is
    set to FLAGGED (whatever its status was) and one SPOT_FLAGGED admin
    notification of priority HIGH is added; when the accepted report is
    the first one on the spot, neither the spot nor the notifications
    change. *)
Theorem repeated_reason_flags_the_spot
    now clock newId st userId spot rsn descr id st' :
  reportSpot_try now clock newId st userId spot rsn descr = inr (id, st') ->
  ((exists d, In d (reports st)
              /\ spotId (snd d) = spot /\ reason (snd d) = rsn) ->
   (exists s', spots st' !! spot = Some s'
               /\ verificationStatus s' = Some "FLAGGED")
   /\ exists n, adminNotifications st' = (adminNotifications st ++ [n])%list
                /\ n_spotId n = spot /\ n_priority n = "HIGH")
  /\ ((forall d, In d (reports st) -> spotId (snd d) <> spot) ->
      spots st' = spots st
      /\ adminNotifications st' = adminNotifications st).
Proof.
  intros Htry.
  destruct (reportSpot_try_success _ _ _ _ _ _ _ _ _ _ Htry)
    as (spotData & Hex & Hspot & Hown & -> & ->).
  unfold checkSpotForAutoFlag. cbv zeta. cbn [reports].
  rewrite !List.filter_app. cbn [List.filter snd spotId createdAt].
  rewrite String.eqb_refl. cbn [andb].
  split.
  - intros (d & Hin & Hsid & Hrsn).
    assert (Hcons : checkForConsensusReports
                      (map snd
                         (List.filter
                            (fun d : string * Report =>
                               String.eqb (spotId (snd d)) spot) (reports st)
                          ++ [(newId,
                               mkReport spot userId rsn
                                 (String.substring 0 500 descr) now
                                 "PENDING")])) = true).
    { apply (checkForConsensusReports_two _ rsn).
      rewrite map_app, List.filter_app, length_app.
      cbn [map snd List.filter reason]. rewrite String.eqb_refl.
      cbn [length].
      assert (Hd : In (snd d)
                     (List.filter (fun d0 => String.eqb (reason d0) rsn)
                        (map snd
                           (List.filter
                              (fun d0 : string * Report =>
                                 String.eqb (spotId (snd d0)) spot)
                              (reports st))))).
      { apply List.filter_In. split.
        - apply in_map. apply List.filter_In. split; [exact Hin |].
          rewrite Hsid. apply String.eqb_refl.
        - rewrite Hrsn. apply String.eqb_refl. }
      destruct (List.filter _ (map snd _)); [destruct Hd |]. simpl. lia. }
    rewrite Hcons, !orb_true_r.
    unfold flagSpotForReview. cbn [spots]. rewrite Hspot.
    cbn [spots adminNotifications]. rewrite lookup_insert_eq. split.
    + eexists. split; reflexivity.
    + eexists. repeat split.
  - intros Hnone.
    assert (Hall : List.filter
                     (fun d : string * Report =>
                        String.eqb (spotId (snd d)) spot) (reports st) = []).
    { apply filter_none. intros d Hin.
      apply String.eqb_neq. exact (Hnone d Hin). }
    assert (Hrecent : List.filter
                        (fun d : string * Report =>
                           String.eqb (spotId (snd d)) spot
                           && (clock - 24 * 60 * 60 * 1000
                               <? createdAt (snd d))) (reports st) = []).
    { apply filter_none. intros d Hin.
      apply andb_false_iff. left.
      apply String.eqb_neq. exact (Hnone d Hin). }
    rewrite Hall, Hrecent. cbn [app].
    destruct (_ <? now); cbn [length map Nat.leb orb];
      unfold checkForConsensusReports; cbn [length Nat.ltb Nat.leb];
      split; reflexivity.
Qed.

Lemma repeated_reason_flags_the_spot_witness :
  exists s',
    spots (snd (reportSpot (fun _ => "") 2000 2000 "rep2"
                  Sample4.reported_state (Some "u3") (Some "s1")
                  (Some "SPAM") None)) !! "s1" = Some s'
    /\ verificationStatus s' = Some "FLAGGED".
Proof.
  exact (proj1 (proj1 (repeated_reason_flags_the_spot 2000 2000 "rep2"
                         Sample4.reported_state "u3" "s1" "SPAM" "" "rep2" _
                         ltac:(vm_compute; reflexivity))
                  (ex_intro _ ("rep1", Sample4.first_report)
                     (conj (or_introl eq_refl) (conj eq_refl eq_refl))))).
Defined.

(** *** Badges *)

Import Badges.

Lemma elem_of_existingBadgeIds (badges : gmap string UserBadge) id :
  id ∈ existingBadgeIds badges
  <-> exists k b, badges !! k = Some b /\ badgeId b = id.
Proof.
  unfold existingBadgeIds. rewrite elem_of_list_to_set, list_elem_of_fmap.
  split.
  - intros ([k b] & Heq & Hin). apply elem_of_map_to_list in Hin.
    exists k, b. split; [exact Hin | symmetry; exact Heq].
  - intros (k & b & Hk & Hid). exists (k, b).
    split; [symmetry; exact Hid | apply elem_of_map_to_list; exact Hk].
Qed.

Section Loop.

Variable now : Z.
Variable existing : gset string.
Variable xp lvl : Z.
Variable userData : option User.t.

(** The loop keeps every document it finds. *)
Lemma unlock_loop_keeps defs : forall acc id,
  is_Some (acc !! id) ->
  is_Some (foldl (unlock_step now existing xp lvl userData) acc defs !! id).
Proof.
  induction defs as [| d defs IH]; intros acc id Hsome; [exact Hsome |].
  cbn [foldl]. apply IH. unfold unlock_step.
  destruct (bool_decide _); [exact Hsome |].
  destruct (shouldUnlock _ _ _ _); [| exact Hsome].
  destruct (decide (fst d = id)) as [-> | Hne].
  - rewrite lookup_insert_eq. eexists. reflexivity.
  - rewrite lookup_insert_ne by exact Hne. exact Hsome.
Qed.

(** It unlocks every badge that is not held and whose condition holds. *)
Lemma unlock_loop_unlocks defs : forall acc id badge,
  In (id, badge) defs ->
  id ∉ existing ->
  shouldUnlock badge xp lvl userData = true ->
  is_Some (foldl (unlock_step now existing xp lvl userData) acc defs !! id).
Proof.
  induction defs as [| d defs IH]; intros acc id badge Hin Hex Hun;
    [destruct Hin |].
  cbn [foldl]. destruct Hin as [-> | Hin].
  - apply unlock_loop_keeps. unfold unlock_step. cbn [fst snd].
    rewrite bool_decide_eq_false_2 by exact Hex. rewrite Hun.
    rewrite lookup_insert_eq. eexists. reflexivity.
  - exact (IH _ id badge Hin Hex Hun).
Qed.

(** A document it leaves was there before, or has just been unlocked. *)
Lemma unlock_loop_origin defs : forall acc id b,
  foldl (unlock_step now existing xp lvl userData) acc defs !! id = Some b ->
  acc !! id = Some b
  \/ (badgeId b = id /\ (id ∉ existing)
      /\ exists badge, In (id, badge) defs
                       /\ shouldUnlock badge xp lvl userData = true).
Proof.
  induction defs as [| d defs IH]; intros acc id b Hb; [left; exact Hb |].
  cbn [foldl] in Hb. destruct (IH _ id b Hb) as [Hacc | (Hid & Hex & badge & Hin & Hun)].
  - unfold unlock_step in Hacc.
    destruct (bool_decide (fst d ∈ existing)) eqn:Hd; [left; exact Hacc |].
    destruct (shouldUnlock (snd d) xp lvl userData) eqn:Hun;
      [| left; exact Hacc].
    destruct (decide (fst d = id)) as [Heq | Hne].
    + rewrite Heq, lookup_insert_eq in Hacc. injection Hacc as <-.
      right. apply bool_decide_eq_false in Hd. rewrite Heq in Hd.
      split; [reflexivity |]. split; [exact Hd |].
      exists (snd d). split; [| exact Hun].
      left. rewrite <- Heq. destruct d; reflexivity.
    + rewrite lookup_insert_ne in Hacc by exact Hne. left. exact Hacc.
  - right. split; [exact Hid |]. split; [exact Hex |].
    exists badge. split; [right; exact Hin | exact Hun].
Qed.

(** It leaves alone a document whose id is among the ids held. *)
Lemma unlock_loop_frame defs : forall acc id,
  id ∈ existing ->
  foldl (unlock_step now existing xp lvl userData) acc defs !! id = acc !! id.
Proof.
  induction defs as [| d defs IH]; intros acc id Hex; [reflexivity |].
  cbn [foldl]. rewrite (IH _ id Hex). unfold unlock_step.
  destruct (bool_decide (fst d ∈ existing)) eqn:Hd; [reflexivity |].
  destruct (shouldUnlock _ _ _ _); [| reflexivity].
  apply bool_decide_eq_false in Hd.
  rewrite lookup_insert_ne; [reflexivity |]. intros Heq. apply Hd.
  rewrite Heq. exact Hex.
Qed.

(** A round in which nothing is due changes nothing. *)
Lemma unlock_loop_nothing_due defs : forall acc,
  (forall id badge, In (id, badge) defs ->
                    id ∈ existing \/ shouldUnlock badge xp lvl userData = false) ->
  foldl (unlock_step now existing xp lvl userData) acc defs = acc.
Proof.
  induction defs as [| d defs IH]; intros acc Hdue; [reflexivity |].
  cbn [foldl].
  assert (Hstep : unlock_step now existing xp lvl userData acc d = acc).
  { unfold unlock_step. destruct d as [id badge]. cbn [fst snd].
    destruct (Hdue id badge (or_introl eq_refl)) as [Hex | Hun].
    - rewrite bool_decide_eq_true_2 by exact Hex. reflexivity.
    - destruct (bool_decide _); [reflexivity |]. rewrite Hun. reflexivity. }
  rewrite Hstep. apply IH. intros id badge Hin. apply Hdue. right. exact Hin.
Qed.

End Loop.

Lemma checkAndUnlockBadges_fold now defs userData badges xp lvl :
  checkAndUnlockBadges now defs userData badges xp lvl
  = foldl (unlock_step now (existingBadgeIds badges) xp lvl userData)
          badges defs.
Proof. destruct defs; reflexivity. Qed.

(** X27: [checkAndUnlockBadges] on badge documents that each carry
    their own id (as [unlockBadge] writes them): the documents found are
    kept as they are, every document after the run carries its own id
    again, and a second run with the same XP, level and user document,
    at any later time, changes nothing: a badge is unlocked once. *)
Theorem checkAndUnlockBadges_idempotent
    now now' defs userData badges xp lvl :
  consistent badges ->
  let badges' := checkAndUnlockBadges now defs userData badges xp lvl in
  (forall id b, badges !! id = Some b -> badges' !! id = Some b)
  /\ consistent badges'
  /\ checkAndUnlockBadges now' defs userData badges' xp lvl = badges'.
Proof.
  intros Hcons badges'. subst badges'.
  rewrite !checkAndUnlockBadges_fold.
  set (E := existingBadgeIds badges).
  set (B' := foldl (unlock_step now E xp lvl userData) badges defs).
  assert (Hkeep : forall id b, badges !! id = Some b -> B' !! id = Some b).
  { intros id b Hb. subst B'. rewrite unlock_loop_frame; [exact Hb |].
    apply elem_of_existingBadgeIds. exists id, b.
    split; [exact Hb | exact (Hcons id b Hb)]. }
  assert (Hcons' : consistent B').
  { intros id b Hb.
    destruct (unlock_loop_origin now E xp lvl userData defs badges id b Hb)
      as [Hold | (Hid & _)]; [exact (Hcons id b Hold) | exact Hid]. }
  split; [exact Hkeep |]. split; [exact Hcons' |].
  apply unlock_loop_nothing_due. intros id badge Hin.
  destruct (shouldUnlock badge xp lvl userData) eqn:Hun; [left | right; reflexivity].
  assert (Hsome : is_Some (B' !! id)).
  { destruct (decide (id ∈ E)) as [Hex | Hex].
    - apply elem_of_existingBadgeIds in Hex as (k & b & Hk & Hid).
      assert (Hk_id : k = id) by (rewrite <- (Hcons k b Hk); exact Hid).
      subst k. exists b. apply Hkeep. exact Hk.
    - exact (unlock_loop_unlocks now E xp lvl userData defs badges id badge
               Hin Hex Hun). }
  destruct Hsome as [b Hb]. apply elem_of_existingBadgeIds.
  exists id, b. split; [exact Hb | exact (Hcons' id b Hb)].
Qed.

Lemma checkAndUnlockBadges_idempotent_witness :
  checkAndUnlockBadges 20 Sample5.badge_defs (Some Sample5.explorer)
    (checkAndUnlockBadges 10 Sample5.badge_defs (Some Sample5.explorer)
       Sample5.no_badges 250 2)
    250 2
  = checkAndUnlockBadges 10 Sample5.badge_defs (Some Sample5.explorer)
      Sample5.no_badges 250 2.
Proof.
  refine (proj2 (proj2 (checkAndUnlockBadges_idempotent 10 20
                          Sample5.badge_defs (Some Sample5.explorer)
                          Sample5.no_badges 250 2 _))).
  intros id b Hb. unfold Sample5.no_badges in Hb.
  rewrite lookup_empty in Hb. discriminate Hb.
Defined.

Lemma shouldUnlock_mono badge xp xp' lvl lvl' userData :
  xp <= xp' -> lvl <= lvl' ->
  shouldUnlock badge xp lvl userData = true ->
  shouldUnlock badge xp' lvl' userData = true.
Proof.
  intros Hxp Hlvl. unfold shouldUnlock.
  destruct (bool_decide (unlockType badge = Some "xp")); cbn [andb].
  - destruct (Z.leb_spec (Js.or_num (requiredXP badge) 0) xp);
      destruct (Z.leb_spec (Js.or_num (requiredXP badge) 0) xp');
      try reflexivity; try lia.
    destruct (bool_decide (unlockType badge = Some "level")); cbn [andb].
    + destruct (Z.leb_spec (Js.or_num (requiredLevel badge) 0) lvl);
        destruct (Z.leb_spec (Js.or_num (requiredLevel badge) 0) lvl');
        try reflexivity; try lia. exact (fun Hs => Hs).
    + exact (fun Hs => Hs).
  - destruct (bool_decide (unlockType badge = Some "level")); cbn [andb].
    + destruct (Z.leb_spec (Js.or_num (requiredLevel badge) 0) lvl);
        destruct (Z.leb_spec (Js.or_num (requiredLevel badge) 0) lvl');
        try reflexivity; try lia. exact (fun Hs => Hs).
    + exact (fun Hs => Hs).
Qed.

(** X28: badges are monotone in XP and level.  With the same
    definitions, documents and user document, every badge held after a
    run of [checkAndUnlockBadges] is also held after a run with at least
    as much XP and at least as high a level. *)
Theorem checkAndUnlockBadges_monotone
    now now' defs userData badges xp xp' lvl lvl' id :
  xp <= xp' -> lvl <= lvl' ->
  is_Some (checkAndUnlockBadges now defs userData badges xp lvl !! id) ->
  is_Some (checkAndUnlockBadges now' defs userData badges xp' lvl' !! id).
Proof.
  intros Hxp Hlvl. rewrite !checkAndUnlockBadges_fold. intros [b Hb].
  destruct (unlock_loop_origin now _ xp lvl userData defs badges id b Hb)
    as [Hold | (_ & Hex & badge & Hin & Hun)].
  - apply unlock_loop_keeps. exists b. exact Hold.
  - apply (unlock_loop_unlocks now' _ xp' lvl' userData defs badges id badge
             Hin Hex).
    exact (shouldUnlock_mono badge xp xp' lvl lvl' userData Hxp Hlvl Hun).
Qed.

Lemma checkAndUnlockBadges_monotone_witness :
  is_Some (checkAndUnlockBadges 20 Sample5.badge_defs (Some Sample5.explorer)
             Sample5.no_badges 1200 4 !! "b100").
Proof.
  apply (checkAndUnlockBadges_monotone 10 20 Sample5.badge_defs
           (Some Sample5.explorer) Sample5.no_badges 250 1200 2 4 "b100");
    [lia | lia |].
  vm_compute. eexists. reflexivity.
Defined.

(** *** The callable [awardXP] of the bundle *)

(** X29: [awardXP] of the bundle credits the [xp] field of whichever
    existing user the request names, by any positive amount, for every
    authenticated caller: the reply and the user documents do not depend
    on who calls.  A successful call adds the amount to [xp], stores the
    level [floor(xp / 500) + 1], appends one [xpHistory] record naming
    the caller, and leaves [xpPoints] and the [xpTransactions] ledger as
    they were; a refused call changes nothing. *)
Theorem bundle_awardXP_effects now st xpHistory req other :
  (BundleAward.auth req <> None ->
   let out' :=
     BundleAward.awardXP now st xpHistory
       (BundleAward.mkRequest (Some other) (BundleAward.userId req)
          (BundleAward.amount req) (BundleAward.reason req)) in
   let out := BundleAward.awardXP now st xpHistory req in
   fst (fst out') = fst (fst out) /\ snd (fst out') = snd (fst out))
  /\ match BundleAward.awardXP now st xpHistory req with
     | (inr r, st', history') =>
         exists caller uid u u' h,
           BundleAward.auth req = Some caller
           /\ BundleAward.userId req = Some uid
           /\ BundleAward.amount req = Some (BundleAward.awardedAmount r)
           /\ 0 < BundleAward.awardedAmount r
           /\ Store.users st !! uid = Some u
           /\ Store.users st' = <[uid := u']> (Store.users st)
           /\ BundleAward.newXP r
              = Js.or_num (User.xp u) 0 + BundleAward.awardedAmount r
           /\ User.xp u' = Some (BundleAward.newXP r)
           /\ User.level u' = Some (BundleAward.newXP r / 500 + 1)
           /\ User.xpPoints u' = User.xpPoints u
           /\ Store.xpTransactions st' = Store.xpTransactions st
           /\ history' = (xpHistory ++ [h])%list
           /\ BundleAward.h_awardedBy h = caller
           /\ BundleAward.h_amount h = BundleAward.awardedAmount r
     | (inl _, st', history') => st' = st /\ history' = xpHistory
     end.
Proof.
  split.
  - intros Hauth. unfold BundleAward.awardXP.
    cbn [BundleAward.auth BundleAward.userId BundleAward.amount
         BundleAward.reason].
    destruct (BundleAward.auth req) as [caller |]; [| contradiction].
    destruct (_ || _); [split; reflexivity |].
    destruct (_ <=? _); [split; reflexivity |].
    cbv zeta. destruct (Store.users st !! _); split; reflexivity.
  - unfold BundleAward.awardXP.
    destruct (BundleAward.auth req) as [caller |]; [| split; reflexivity].
    destruct (negb (Js.truthy_str (BundleAward.userId req))
              || negb (Js.truthy_num (BundleAward.amount req))
              || negb (Js.truthy_str (BundleAward.reason req))) eqn:Hargs;
      [split; reflexivity |].
    apply orb_false_iff in Hargs as [Hargs _].
    apply orb_false_iff in Hargs as [Huid Hamt].
    apply negb_false_iff in Huid, Hamt.
    destruct (Z.leb_spec (Js.or_num (BundleAward.amount req) 0) 0)
      as [Hle | Hpos]; [split; reflexivity |].
    cbv zeta.
    destruct (Store.users st !! Js.or_str (BundleAward.userId req) "")
      as [u |] eqn:Hu; [| split; reflexivity].
    cbn [ret BundleAward.awardedAmount BundleAward.newXP].
    exists caller, (Js.or_str (BundleAward.userId req) ""), u.
    eexists _, _.
    split; [reflexivity |].
    split; [apply or_str_Some_truthy; exact Huid |].
    split.
    { destruct (BundleAward.amount req) as [a |]; [| discriminate Hamt].
      simpl in *. destruct (a =? 0); [discriminate Hamt | reflexivity]. }
    split; [exact Hpos |]. split; [exact Hu |].
    repeat split.
Qed.

(** *** Migration of users *)

Import UserMigration.

Lemma determineUserMigrationData_trust clock spots createdAt lastActiveAt :
  let up := determineUserMigrationData clock spots createdAt lastActiveAt in
  (trustScore up == 1 \/ trustScore up == 9 # 10)%Q
  /\ isShadowBanned up = false
  /\ spotRejectedCount up = 0
  /\ spotApprovedCount up = spotSubmissions up.
Proof.
  unfold determineUserMigrationData.
  destruct spots as [size |]; cbn zeta.
  2: { cbn. repeat split. left. reflexivity. }
  assert (Htrust1 : ((if 0 <? size
                      then Qmin 1 (1 + inject_Z size * (1 # 100))
                      else 1) == 1)%Q).
  { destruct (Z.ltb_spec 0 size) as [Hpos | _]; [| reflexivity].
    apply Q.min_l.
    rewrite <- (Qplus_0_r 1) at 1. apply Qplus_le_r.
    apply Qmult_le_0_compat; [| discriminate].
    rewrite <- (Zle_Qle 0). lia. }
  cbn [trustScore isShadowBanned spotRejectedCount spotApprovedCount
       spotSubmissions].
  split; [| repeat split].
  destruct (_ && _).
  - right. rewrite Htrust1. reflexivity.
  - left. exact Htrust1.
Qed.


